(** * j2: the folder-template renderer of [j2.py]

    A shallow embedding of the three rendering procedures of [src/j2.py]
    ([render_file_name], [render_file_template], [render_folder_template]),
    of the module loading and the [j2] variables that precede them and of
    the main program that calls them, and the properties of the renderer.

    Modelling decisions, each local to the definition that carries it:
    - The interpreter is the one of the shebang line, [python3]: [IOError]
      is [OSError], so the handlers around [os.mkdir] and [open] receive
      every failure of these calls; [str] is text, which a handle opened
      with ['wb'] does not take.
    - Python [str] values are Rocq [string]s; [+] is [String.append],
      written [+:+].
    - The process state the procedures touch is one record: the file
      system, the writes to [sys.stdout] and to [sys.stderr], the [j2]
      dictionary and the module globals that [env.globals = globals()]
      hands to the template engine.
    - [exit(1)] and an exception nobody catches end the run; they are the
      [Exit] and [Uncaught] outcomes of the monad [M].
    - Jinja2 is outside the repository: it is a section variable [jinja]
      taking the [Environment] the code builds, the template name and the
      two dictionaries, and returning the text or the exception raised.
    - The source folder is only read ([os.listdir], [os.path.isdir],
      [os.path.exists]); it is a finite tree whose directories list their
      entries in the order [os.listdir] reports them, or cannot be listed.
    - POSIX conventions: [os.sep] is "/", [os.pathsep] is ":". *)

From Stdlib Require Import Ascii String.
From stdpp Require Import gmap strings list fin_maps pretty.

Local Open Scope string_scope.

(** ** Strings *)

Module Str.

(** The one-character strings that cannot be written inside a literal. *)
Definition nl : string := String (ascii_of_nat 10) "".
Definition dq : string := String (ascii_of_nat 34) "".

(** [str.lower] on one ASCII character. *)
Definition lower_char (c : ascii) : ascii :=
  let n := nat_of_ascii c in
  if (65 <=? n)%nat && (n <=? 90)%nat then ascii_of_nat (n + 32) else c.

Fixpoint lower (s : string) : string :=
  match s with
  | "" => ""
  | String c s' => String (lower_char c) (lower s')
  end.

(** [s.endswith(sfx)] *)
Fixpoint endswith (s sfx : string) : bool :=
  String.eqb s sfx ||
  match s with
  | "" => false
  | String _ s' => endswith s' sfx
  end.

(** [sep.join(l)] *)
Fixpoint join (sep : string) (l : list string) : string :=
  match l with
  | [] => ""
  | [x] => x
  | x :: l' => x +:+ sep +:+ join sep l'
  end.

(** [str(n)] for an integer. *)
Definition str (n : Z) : string := pretty n.

End Str.

(** ** Paths: [os.sep], [os.path.dirname], [os.path.basename] (posixpath) *)

Module Path.

Definition sep : string := "/".
Definition pathsep : string := ":".

Definition is_sep (c : ascii) : bool := Ascii.eqb c "/"%char.

(** [p[:i]] and [p[i:]] for [i = p.rfind(sep) + 1]. *)
Fixpoint rsplit (p : string) : string * string :=
  match p with
  | "" => ("", "")
  | String c p' =>
      let '(h, t) := rsplit p' in
      match h with
      | "" => if is_sep c then (String c "", t) else ("", String c t)
      | _ => (String c h, t)
      end
  end.

Fixpoint all_sep (s : string) : bool :=
  match s with
  | "" => true
  | String c s' => is_sep c && all_sep s'
  end.

(** [head.rstrip(sep)] *)
Fixpoint rstrip_sep (s : string) : string :=
  match s with
  | "" => ""
  | String c s' =>
      match rstrip_sep s' with
      | "" => if is_sep c then "" else String c ""
      | r => String c r
      end
  end.

Definition dirname (p : string) : string :=
  let head := (rsplit p).1 in
  if all_sep head then head else rstrip_sep head.

Definition basename (p : string) : string := (rsplit p).2.

End Path.

(** ** The destination file system

    The nodes of the file system, keyed by their path from the root (the
    list of names on the way), and the working directory of the process.
    A path string is resolved as the operating system does it, component by
    component from the root or from the working directory: empty components
    and [.] stay, [..] goes up, a name goes down into a directory that must
    be there.  There are no symbolic links and every directory can be
    searched. *)

Inductive fnode :=
| FDir (writable : bool)
| FFile (writable : bool) (data : string).

Module FS.

Record t := mk {
  nodes : gmap (list string) fnode;
  cwd : list string
}.

(** The strings between the separators of a path. *)
Fixpoint split (p : string) : list string :=
  match p with
  | "" => [""]
  | String c p' =>
      if Path.is_sep c then "" :: split p'
      else match split p' with
           | x :: l => String c x :: l
           | [] => [String c ""]
           end
  end.

Definition absolute (p : string) : bool :=
  match p with
  | String c _ => Path.is_sep c
  | "" => false
  end.

(** One component on the way, from the directory [cur]. *)
Definition step (f : t) (cur : list string) (c : string) : option (list string) :=
  if String.eqb c "" || String.eqb c "." then Some cur
  else if String.eqb c ".." then Some (removelast cur)
  else match nodes f !! (cur ++ [c])%list with
       | Some (FDir _) => Some (cur ++ [c])%list
       | _ => None
       end.

(** Where a path leads: to the name [key] in its parent directory, with
    [slash] when separators follow the name, or to a directory that the path
    does not name ([.], [..] or the root). *)
Inductive target :=
| Named (key : list string) (slash : bool)
| DirRef (key : list string).

Fixpoint locate (f : t) (cur : list string) (cs : list string) : option target :=
  match cs with
  | [] => Some (DirRef cur)
  | c :: cs' =>
      if forallb (String.eqb "") cs' then
        if String.eqb c "" || String.eqb c "." then Some (DirRef cur)
        else if String.eqb c ".." then Some (DirRef (removelast cur))
        else Some (Named (cur ++ [c])%list (match cs' with [] => false | _ => true end))
      else
        match step f cur c with
        | Some cur' => locate f cur' cs'
        | None => None
        end
  end.

(** The empty path names nothing ([ENOENT]). *)
Definition resolve (f : t) (p : string) : option target :=
  if String.eqb p "" then None
  else locate f (if absolute p then [] else cwd f) (split p).

Definition target_key (tg : target) : list string :=
  match tg with
  | Named k _ | DirRef k => k
  end.

(** The node a path leads to. *)
Definition key (f : t) (p : string) : option (list string) :=
  match resolve f p with
  | Some tg => Some (target_key tg)
  | None => None
  end.

(** What is at the path: a file does not answer to a path that ends with a
    separator ([ENOTDIR]). *)
Definition lookup (f : t) (p : string) : option fnode :=
  match resolve f p with
  | Some (Named k slash) =>
      match nodes f !! k with
      | Some (FFile w data) => if slash then None else Some (FFile w data)
      | n => n
      end
  | Some (DirRef k) => nodes f !! k
  | None => None
  end.

(** [os.path.exists(p)] *)
Definition exists_ (f : t) (p : string) : bool :=
  match lookup f p with Some _ => true | None => false end.

(** [os.access(p, os.W_OK)] *)
Definition access_W (f : t) (p : string) : bool :=
  match lookup f p with
  | Some (FDir w) | Some (FFile w _) => w
  | None => false
  end.

(** The directory that holds the name [k] takes new entries. *)
Definition parent_writable (f : t) (k : list string) : bool :=
  match nodes f !! removelast k with Some (FDir true) => true | _ => false end.

Definition put (f : t) (k : list string) (n : fnode) : t :=
  mk (<[k := n]> (nodes f)) (cwd f).

(** [os.mkdir(p)]: [None] stands for the [OSError] raised. *)
Definition mkdir (f : t) (p : string) : option t :=
  match resolve f p with
  | Some (Named k _) =>
      match nodes f !! k with
      | Some _ => None
      | None => if parent_writable f k then Some (put f k (FDir true)) else None
      end
  | _ => None
  end.

(** [open(p, 'wb')]: creates or truncates; [None] is the [OSError]. *)
Definition open_wb (f : t) (p : string) : option t :=
  match resolve f p with
  | Some (Named k false) =>
      match nodes f !! k with
      | Some (FFile true _) => Some (put f k (FFile true ""))
      | Some _ => None
      | None => if parent_writable f k then Some (put f k (FFile true "")) else None
      end
  | _ => None
  end.

(** [os.getcwd()] *)
Definition getcwd (f : t) : string :=
  match cwd f with
  | [] => Path.sep
  | names => Path.sep +:+ Str.join Path.sep names
  end.

End FS.

(** [f !! p] is what the file system has at the path [p]. *)
#[global] Instance fs_lookup : Lookup string fnode FS.t := λ p f, FS.lookup f p.

(** ** Python values kept in the dictionaries the templates see *)

Inductive pyval :=
| PStr (s : string)
| PList (l : list string)
| PNone
| PObj (repr : string).

(** ** The template engine interface *)

(** What [Environment(loader=FileSystemLoader(searchpath, encoding), trim_blocks,
    newline_sequence)] is built from. *)
Record Environment := mkEnvironment {
  searchpath : list string;
  encoding : string;
  trim_blocks : bool;
  newline_sequence : string
}.

(** [env.get_template(name).render(env=os.environ)]: the text, or the
    exception. *)
Inductive render_result :=
| Rendered (text : string)
| TemplateNotFound (name : string)
| TemplateSyntaxError (filename : string) (lineno : Z) (message : string)
| OtherError (descr : string).

(** ** Invocation-wide configuration (module level, lines 51-54, 381-413) *)

Record Config := mkConfig {
  DEBUG_LEVEL : Z;
  TEMPLATEPATH : list string;
  TRIM : Z;
  j2_encoding : string;
  j2_linesep : string;
  os_linesep : string
}.

(** [ignoredirs = set(['.git', '.hg', '.svn'])] *)
Definition ignoredirs : gset string := {[ ".git"; ".hg"; ".svn" ]}.

(** ** The source tree *)

(** What is found at a source path: a file, a directory with its entries, a
    directory that the process may not list ([SLocked]), or nothing
    ([SMissing]: a folder of the command line that does not exist, or an
    entry that is a link to nowhere). *)
#[local] Unset Elimination Schemes.
Inductive snode :=
| SFile (content : string)
| SDir (items : list (string * snode))
| SLocked
| SMissing.
#[local] Set Elimination Schemes.

(** [os.path.isdir(path)] *)
Definition isdir (n : snode) : bool :=
  match n with SDir _ | SLocked => true | SFile _ | SMissing => false end.

(** [os.path.exists(path)] *)
Definition exists_node (n : snode) : bool :=
  match n with SMissing => false | _ => true end.

(** [os.path.exists(folder + os.sep + name)] for a name looked up among the
    entries of [folder]. *)
Definition has_entry (name : string) (items : list (string * snode)) : bool :=
  existsb (λ entry, String.eqb name entry.1 && exists_node entry.2) items.

(** [re.search("\.j2n$", item, re.IGNORECASE)]: [$] matches at the end of the
    string and also just before a newline that ends the string. *)
Definition j2n_match (item : string) : bool :=
  let l := Str.lower item in
  Str.endswith l ".j2n" || Str.endswith l (".j2n" +:+ Str.nl).

(** ** Process state and the monad of the rendering procedures *)

(** The handle a render writes to: [sys.stdout], a text stream, or the
    handle of [open(path, 'wb')], a binary stream. *)
Inductive handle :=
| Stdout
| WbFile (path : string).

Record state := mkState {
  fs : FS.t;
  stdout : list string;
  stderr : list string;
  j2 : gmap string pyval;
  globals : gmap string pyval
}.

Inductive outcome (A : Type) :=
| Done (a : A) (st : state)
| Exit (code : Z) (st : state)
| Uncaught (exn : string) (st : state).
Arguments Done {A} a st.
Arguments Exit {A} code st.
Arguments Uncaught {A} exn st.

Definition M (A : Type) : Type := state → outcome A.

Definition ret {A} (a : A) : M A := λ st, Done a st.

Definition bind {A B} (m : M A) (k : A → M B) : M B :=
  λ st, match m st with
        | Done a st' => k a st'
        | Exit c st' => Exit c st'
        | Uncaught e st' => Uncaught e st'
        end.

Declare Scope j2_scope.
Delimit Scope j2_scope with j2.
Notation "x <- c ;; k" := (bind c (λ x, k))
  (at level 100, c at next level, right associativity) : j2_scope.
Notation "c ;;; k" := (bind c (λ _, k))
  (at level 100, right associativity) : j2_scope.
Local Open Scope j2_scope.

Definition exit {A} (code : Z) : M A := λ st, Exit code st.
Definition raise {A} (exn : string) : M A := λ st, Uncaught exn st.
Definition get_fs : M FS.t := λ st, Done (fs st) st.

Definition stderr_write (s : string) : M unit :=
  λ st, Done tt (mkState (fs st) (stdout st) (stderr st ++ [s]) (j2 st) (globals st)).

(** [sys.stdout.write(s)] *)
Definition stdout_write (s : string) : M unit :=
  λ st, Done tt (mkState (fs st) (stdout st ++ [s]) (stderr st) (j2 st) (globals st)).

Definition set_fs (f : FS.t) : M unit :=
  λ st, Done tt (mkState f (stdout st) (stderr st) (j2 st) (globals st)).

(** [j2[k] = v] *)
Definition j2_set (k : string) (v : pyval) : M unit :=
  λ st, Done tt (mkState (fs st) (stdout st) (stderr st) (<[k := v]> (j2 st)) (globals st)).

(** [j2[k]] *)
Definition j2_get (k : string) : M pyval :=
  λ st, match j2 st !! k with
        | Some v => Done v st
        | None => Uncaught "KeyError" st
        end.

(** [j2[k]] used as a string operand. *)
Definition j2_get_str (k : string) : M string :=
  λ st, match j2 st !! k with
        | Some (PStr s) => Done s st
        | Some _ => Uncaught "TypeError" st
        | None => Uncaught "KeyError" st
        end.

(** [env.globals = globals(); env.globals.update(locals())]: the locals are
    written into the module globals, later bindings first overwritten. *)
Definition globals_update (locals : list (string * pyval)) : M unit :=
  λ st, Done tt (mkState (fs st) (stdout st) (stderr st) (j2 st)
                   (foldl (λ g kv, <[kv.1 := kv.2]> g) (globals st) locals)).

(** The strings of a list of values, for [str.join]: another value in the
    list is a [TypeError]. *)
Fixpoint strings_of (vs : list pyval) : option (list string) :=
  match vs with
  | [] => Some []
  | PStr s :: vs' => match strings_of vs' with Some l => Some (s :: l) | None => None end
  | _ :: _ => None
  end.

(** [sep.join(vs)] *)
Definition str_join (sep : string) (vs : list pyval) : M string :=
  match strings_of vs with
  | Some l => ret (Str.join sep l)
  | None => raise "TypeError"
  end.

(** What a template sees of the handle bound to [output]. *)
Definition handle_repr (output : handle) : string :=
  match output with
  | Stdout => "<stdout>"
  | WbFile path => path
  end.

(** ** The rendering procedures (lines 382-384, 501-587) *)

Section Render.

Variable cfg : Config.

(** Jinja2, together with the template files and [os.environ] it reads. *)
Variable jinja :
  Environment → string → gmap string pyval → gmap string pyval → render_result.

(** [DEBUG(level, output)] *)
Definition DEBUG (level : Z) (output : string) : M unit :=
  if (level <=? DEBUG_LEVEL cfg)%Z
  then stderr_write ("DEBUG(" +:+ Str.str level +:+ ") " +:+ output +:+ os_linesep cfg)
  else ret tt.

(** The [Environment] of lines 504-505. *)
Definition name_environment (file : string) : Environment :=
  {| searchpath := [Path.dirname file];
     encoding := "utf-8";
     trim_blocks := true;
     newline_sequence := j2_linesep cfg |}.

(** The [Environment] of lines 526, 531-532. *)
Definition template_environment (file : string) : Environment :=
  {| searchpath := Path.dirname file :: TEMPLATEPATH cfg;
     encoding := j2_encoding cfg;
     trim_blocks := (TRIM cfg =? 1)%Z;
     newline_sequence := j2_linesep cfg |}.

(** [env.get_template(name).render(env=os.environ)] with [env.globals] the
    module globals, in which [j2] is the [j2] dictionary. *)
Definition get_template_render (e : Environment) (name : string) : M render_result :=
  λ st, Done (jinja e name (globals st) (j2 st)) st.

(** The two messages of lines 515-516 and 543-544. *)
Definition syntax_error_cmdline (filename : string) (lineno : Z) (message eol : string) : string :=
  "j2: Command line error TemplateSyntaxError: " +:+ filename +:+ "("
    +:+ Str.str lineno +:+ ") " +:+ message +:+ eol.

Definition syntax_error_infile (filename : string) (lineno : Z) (message eol : string) : string :=
  filename +:+ "(" +:+ Str.str lineno +:+ "): j2 error TemplateSyntaxError:  "
    +:+ message +:+ eol.

(** Lines 502 and 506-507: what [render_file_name] does before the engine
    runs. *)
Definition name_context (file : string) : M unit :=
  DEBUG 1 ("Processing FILENAME template " +:+ file) ;;;
  globals_update [("file", PStr file);
                  ("fsload", PObj "FileSystemLoader");
                  ("env", PObj "Environment")].

(** [render_file_name(file)], lines 501-519. *)
Definition render_file_name (file : string) : M string :=
  name_context file ;;;
  r <- get_template_render (name_environment file) (Path.basename file) ;;
  match r with
  | Rendered result =>
      DEBUG 3 ("Resulting FILENAME template " +:+ file +:+ " is " +:+ result) ;;;
      ret result
  | TemplateNotFound _ =>
      stderr_write ("j2: Command line error TemplateNotFound: Can't open template "
                      +:+ file +:+ Str.nl) ;;;
      exit 1
  | TemplateSyntaxError filename lineno message =>
      stderr_write (syntax_error_cmdline filename lineno message Str.nl) ;;;
      stderr_write (syntax_error_infile filename lineno message Str.nl) ;;;
      exit 1
  | OtherError e => raise e
  end.

(** Lines 525-529 and 533-534: what [render_file_template] does before the
    engine runs; [output] is the path the handle was opened at. *)
Definition template_context (file : string) (output : handle) : M unit :=
  DEBUG 1 ("Processing FILE template " +:+ file) ;;;
  let templatepath := Path.dirname file :: TEMPLATEPATH cfg in
  j2_set "templatepath" (PStr (Str.join Path.pathsep templatepath)) ;;;
  tp <- j2_get_str "templatepath" ;;
  j2_set "log" (PStr ("J2: Template " +:+ tp)) ;;;
  l0 <- j2_get "log" ;;
  l1 <- j2_get "log1" ;;
  l2 <- j2_get "log2" ;;
  l3 <- j2_get "log3" ;;
  l4 <- j2_get "log4" ;;
  logall <- str_join (os_linesep cfg) [l0; l1; l2; l3; l4] ;;
  j2_set "logall" (PStr logall) ;;;
  globals_update [("file", PStr file);
                  ("output", PObj (handle_repr output));
                  ("templatepath", PList templatepath);
                  ("fsload", PObj "FileSystemLoader");
                  ("env", PObj "Environment")].

(** [output.write(data)] for a [str]: the text stream takes it, the binary
    stream of [open(path, 'wb')] raises [TypeError] and writes nothing. *)
Definition output_write (output : handle) (data : string) : M unit :=
  match output with
  | Stdout => stdout_write data
  | WbFile _ => raise "TypeError"
  end.

(** [render_file_template(file, output)], lines 524-545. *)
Definition render_file_template (file : string) (output : handle) : M unit :=
  template_context file output ;;;
  r <- get_template_render (template_environment file) (Path.basename file) ;;
  match r with
  | Rendered text => output_write output (text +:+ os_linesep cfg)
  | TemplateNotFound name =>
      stderr_write ("j2: Command line error TemplateNotFound: Can't open template "
                      +:+ name +:+ os_linesep cfg) ;;;
      exit 1
  | TemplateSyntaxError filename lineno message =>
      stderr_write (syntax_error_cmdline filename lineno message (os_linesep cfg)) ;;;
      stderr_write (syntax_error_infile filename lineno message (os_linesep cfg)) ;;;
      exit 1
  | OtherError e => raise e
  end.

(** Lines 552-560: the destination folder is created when missing and must
    be writable. *)
Definition prepare_dest (dest : string) : M unit :=
  f <- get_fs ;;
  (if negb (FS.exists_ f dest) then
     match FS.mkdir f dest with
     | Some fs' => set_fs fs'
     | None =>
         stderr_write ("j2: Command line error IOError: Can't create folder "
                         +:+ dest +:+ " to render output to" +:+ os_linesep cfg) ;;;
         exit 1
     end
   else ret tt) ;;;
  f <- get_fs ;;
  if negb (FS.access_W f dest) then
    stderr_write ("j2: Command line error IOError: Can't open folder "
                    +:+ dest +:+ " to render output to" +:+ os_linesep cfg) ;;;
    exit 1
  else ret tt.

(** Lines 569-573 and 576-580: the destination path of the entry [item],
    named by its [.j2n] companion when there is one. *)
Definition dest_path (folder dest item : string)
    (items : list (string * snode)) : M string :=
  if has_entry (item +:+ ".j2n") items then
    DEBUG 2 ("   found j2n for item " +:+ Str.dq +:+ item +:+ Str.dq) ;;;
    name <- render_file_name (folder +:+ Path.sep +:+ item +:+ ".j2n") ;;
    ret (dest +:+ Path.sep +:+ name)
  else ret (dest +:+ Path.sep +:+ item).

(** Lines 581-587: open the destination, render into it, close it. *)
Definition write_item (folder item fdest : string) : M unit :=
  f <- get_fs ;;
  match FS.open_wb f fdest with
  | Some fs' =>
      set_fs fs' ;;;
      render_file_template (folder +:+ Path.sep +:+ item) (WbFile fdest)
  | None =>
      stderr_write ("j2: Command line error IOError: Can't open file "
                      +:+ fdest +:+ " to render output to" +:+ os_linesep cfg) ;;;
      exit 1
  end.

(** Lines 575-587: one file entry of the folder. *)
Definition render_file_item (folder dest item : string)
    (items : list (string * snode)) : M unit :=
  DEBUG 2 ("  folder item " +:+ Str.dq +:+ item +:+ Str.dq +:+ " is file") ;;;
  fdest <- dest_path folder dest item items ;;
  write_item folder item fdest.

(** Lines 565-573: one directory entry; [recurse] is the recursive call on
    that directory. *)
Definition render_dir_item (folder dest item : string)
    (items : list (string * snode)) (recurse : string → string → M unit) : M unit :=
  DEBUG 2 ("  folder item " +:+ Str.dq +:+ item +:+ Str.dq +:+ " is folder") ;;;
  if bool_decide (item ∈ ignoredirs) then ret tt
  else
    d <- dest_path folder dest item items ;;
    recurse (folder +:+ Path.sep +:+ item) d.

(** Lines 562-587: the body of the [for] loop for one entry of
    [os.listdir(folder)]. *)
Definition folder_item (recurse : snode → string → string → M unit)
    (folder dest : string) (items : list (string * snode))
    (entry : string * snode) : M unit :=
  let '(item, child) := entry in
  if j2n_match item then ret tt
  else if isdir child then
    render_dir_item folder dest item items (recurse child)
  else render_file_item folder dest item items.

(** Lines 561-587: the [for] loop, from the entries [l] of
    [os.listdir(folder)] on. *)
Definition folder_loop (recurse : snode → string → string → M unit)
    (folder dest : string) (items : list (string * snode)) :
    list (string * snode) → M unit :=
  fix loop (l : list (string * snode)) : M unit :=
    match l with
    | [] => ret tt
    | entry :: l' =>
        folder_item recurse folder dest items entry ;;;
        loop l'
    end.

(** [for item in os.listdir(folder)]: listing what is no directory, what the
    process may not read or what is not there raises. *)
Definition list_folder (recurse : snode → string → string → M unit)
    (node : snode) (folder dest : string) : M unit :=
  match node with
  | SFile _ => raise "NotADirectoryError"
  | SLocked => raise "PermissionError"
  | SMissing => raise "FileNotFoundError"
  | SDir items => folder_loop recurse folder dest items items
  end.

(** [render_folder_template(folder, dest)], lines 550-587, on the source
    node found at [folder]. *)
Fixpoint render_folder_template (node : snode) (folder dest : string) {struct node} : M unit :=
  DEBUG 1 ("Processing FOLDER template " +:+ Str.dq +:+ folder +:+ Str.dq
              +:+ " to location " +:+ Str.dq +:+ dest +:+ Str.dq) ;;;
  prepare_dest dest ;;;
  list_folder render_folder_template node folder dest.

(** The loop, its tail and its body with the recursive call in place. *)
Definition iterate_folder : snode → string → string → M unit :=
  list_folder render_folder_template.

Definition iterate_entries :
    string → string → list (string * snode) → list (string * snode) → M unit :=
  folder_loop render_folder_template.

Definition iterate_entry :
    string → string → list (string * snode) → string * snode → M unit :=
  folder_item render_folder_template.

End Render.

(** ** A small engine for running the procedures on concrete folders *)

Module Toy.

(** Jinja2 drops one newline that ends the template source
    ([keep_trailing_newline] is off by default). *)
Fixpoint drop_final_newline (s : string) : string :=
  match s with
  | "" => ""
  | String c s' =>
      if String.eqb s Str.nl then "" else String c (drop_final_newline s')
  end.

Fixpoint has_brace (s : string) : bool :=
  match s with
  | "" => false
  | String c s' => Ascii.eqb c "{"%char || has_brace s'
  end.

(** What Jinja2 makes of the template text found at [path]: text without
    tags renders to itself less one final newline; the empty print
    statement is a syntax error on its line 1.  Other templates, and other
    newline sequences than the one the text is written with, are outside this
    engine. *)
Definition render_text (e : Environment) (path text : string) : render_result :=
  if String.prefix "{{}}" text then
    TemplateSyntaxError path 1 "Expected an expression, got 'end of print statement'"
  else if has_brace text || negb (String.eqb (newline_sequence e) Str.nl) then
    OtherError "UnsupportedTemplate"
  else Rendered (drop_final_newline text).

Definition lookup_file (files : list (string * string)) (path : string) : option string :=
  snd <$> find (λ kv, String.eqb kv.1 path) files.

(** [FileSystemLoader.get_source]: the first directory of the search path
    that has the template. *)
Fixpoint find_template (files : list (string * string)) (dirs : list string)
    (name : string) : option (string * string) :=
  match dirs with
  | [] => None
  | d :: dirs' =>
      match lookup_file files (d +:+ Path.sep +:+ name) with
      | Some text => Some (d +:+ Path.sep +:+ name, text)
      | None => find_template files dirs' name
      end
  end.

Definition engine (files : list (string * string)) (e : Environment) (name : string)
    (_ _ : gmap string pyval) : render_result :=
  match find_template files (searchpath e) name with
  | Some (path, text) => render_text e path text
  | None => TemplateNotFound name
  end.

(** The template files of the source node found at [folder]. *)
Fixpoint files_of (node : snode) (folder : string) : list (string * string) :=
  match node with
  | SFile text => [(folder, text)]
  | SDir items =>
      flat_map (λ entry, files_of entry.2 (folder +:+ Path.sep +:+ entry.1)) items
  | SLocked | SMissing => []
  end.

End Toy.

(** ** Definitions used to state the properties *)

(** The state after more lines went to [sys.stderr]. *)
Definition add_stderr (lines : list string) (st : state) : state :=
  mkState (fs st) (stdout st) (stderr st ++ lines) (j2 st) (globals st).

(** The state with another destination file system. *)
Definition with_fs (f : FS.t) (st : state) : state :=
  mkState f (stdout st) (stderr st) (j2 st) (globals st).

(** What [DEBUG] writes. *)
Definition debug_lines (cfg : Config) (level : Z) (output : string) : list string :=
  if (level <=? DEBUG_LEVEL cfg)%Z
  then ["DEBUG(" +:+ Str.str level +:+ ") " +:+ output +:+ os_linesep cfg]
  else [].


(** The state an outcome leaves. *)
Definition final {A} (o : outcome A) : state :=
  match o with Done _ st | Exit _ st | Uncaught _ st => st end.

(** A name that ends with [.j2n], in any letter case. *)
Definition has_j2n_suffix (item : string) : Prop :=
  ∃ stem sfx, item = stem +:+ sfx ∧ Str.lower sfx = ".j2n".

(** The data ends with the terminator [eol] and not with two of them. *)
Definition ends_with_one (eol data : string) : Prop :=
  Str.endswith data eol = true ∧ Str.endswith data (eol +:+ eol) = false.

(** [s.rstrip("\r\n")]: the text without the line terminators that end it. *)
Fixpoint rstrip_eol (s : string) : string :=
  match s with
  | "" => ""
  | String c s' =>
      match rstrip_eol s' with
      | "" => if Ascii.eqb c (ascii_of_nat 10) || Ascii.eqb c (ascii_of_nat 13)
              then "" else String c ""
      | r => String c r
      end
  end.

(** Two states with the same dictionaries. *)
Definition same_ctx (s1 s2 : state) : Prop :=
  j2 s1 = j2 s2 ∧ globals s1 = globals s2.

(** Two states with the same file system, the same output on [sys.stdout]
    and the same dictionaries; what went to [sys.stderr] may differ. *)
Definition same_store (s1 s2 : state) : Prop :=
  fs s1 = fs s2 ∧ stdout s1 = stdout s2 ∧ j2 s1 = j2 s2 ∧ globals s1 = globals s2.

(** Two outcomes of the same kind, with the same value, exit code or
    exception, in states related by [R]. *)
Definition same_out (R : state → state → Prop) {A} (o1 o2 : outcome A) : Prop :=
  match o1, o2 with
  | Done a s1, Done b s2 => a = b ∧ R s1 s2
  | Exit c s1, Exit d s2 => c = d ∧ R s1 s2
  | Uncaught e s1, Uncaught f s2 => e = f ∧ R s1 s2
  | _, _ => False
  end.

Definition related (R : state → state → Prop) {A} (m1 m2 : M A) : Prop :=
  ∀ s1 s2, R s1 s2 → same_out R (m1 s1) (m2 s2).

(** A directory entry named in [ignoredirs]. *)
Definition ignored_dir (entry : string * snode) : bool :=
  isdir entry.2 && bool_decide (entry.1 ∈ ignoredirs).

(** The source tree without the directories named in [ignoredirs], at every
    depth. *)
Fixpoint prune (node : snode) : snode :=
  match node with
  | SDir items =>
      SDir (List.filter (λ entry, negb (ignored_dir entry))
              (map (λ entry, (entry.1, prune entry.2)) items))
  | _ => node
  end.

Fixpoint has_ignored_dir (node : snode) : bool :=
  match node with
  | SDir items =>
      existsb (λ entry, ignored_dir entry || has_ignored_dir entry.2) items
  | _ => false
  end.

(** A procedure that leaves the file system as it is, however it ends. *)
Definition keeps_fs {A} (m : M A) : Prop := ∀ st, fs (final (m st)) = fs st.

(** A procedure that writes nothing to [sys.stdout], however it ends. *)
Definition keeps_stdout {A} (m : M A) : Prop := ∀ st, stdout (final (m st)) = stdout st.

(** The kind of a node and whether it is writable, whatever its data. *)
Definition shape (n : fnode) : bool * bool :=
  match n with
  | FDir w => (true, w)
  | FFile w _ => (false, w)
  end.

(** The working directory is the same and every node of [a] is a node of
    [b], with the same shape. *)
Definition le_shape (a b : FS.t) : Prop :=
  FS.cwd a = FS.cwd b
  ∧ ∀ k n, FS.nodes a !! k = Some n → ∃ n', FS.nodes b !! k = Some n' ∧ shape n' = shape n.

(** A procedure that, however it ends, removes no node and changes no
    shape. *)
Definition never_shrinks {A} (m : M A) : Prop :=
  ∀ st, le_shape (fs st) (fs (final (m st))).

(** A procedure that can be run again.  Take a run of it from [sa], and the
    file system [F] that the whole first run of the program left: the one
    this run ended with, when it ended the program, and a later one, with
    every node of this run's and its shape, when it returned.  From [sa]
    with [F] as file system the procedure ends the same way, with [F]
    untouched and everything else as in the first run. *)
Definition replays {A} (m : M A) : Prop :=
  ∀ F sa,
    match m sa with
    | Done x sa' => le_shape (fs sa') F → m (with_fs F sa) = Done x (with_fs F sa')
    | Exit c sa' => F = fs sa' → m (with_fs F sa) = Exit c sa'
    | Uncaught e sa' => F = fs sa' → m (with_fs F sa) = Uncaught e sa'
    end.

(** ** Concrete folders and states *)

Module Ex.

(** A POSIX host, no debugging, the default trim mode. *)
Definition cfg : Config :=
  {| DEBUG_LEVEL := 0; TEMPLATEPATH := []; TRIM := 1;
     j2_encoding := "utf-8"; j2_linesep := Str.nl; os_linesep := Str.nl |}.

(** The [j2] entries of lines 493-496 that the procedures read. *)
Definition j2_start : gmap string pyval :=
  list_to_map [("log1", PStr "    processed on 05/27/2011 at 11:17 PM");
               ("log2", PStr "    using modules None");
               ("log3", PStr "    with expressions None");
               ("log4", PStr "    by user@host")].

(** The root, the working directory [/home] and the listed nodes. *)
Definition disk (l : list (list string * fnode)) : FS.t :=
  FS.mk (list_to_map (l ++ [([], FDir false); (["home"], FDir true)])%list) ["home"].

(** A process that has written nothing yet. *)
Definition start (f : FS.t) : state :=
  {| fs := f; stdout := []; stderr := []; j2 := j2_start; globals := ∅ |}.

(** An existing, writable [/dst]. *)
Definition st_dst : state := start (disk [(["dst"], FDir true)]).

(** A template with the empty print statement. *)
Definition broken : snode := SDir [("bad.txt", SFile "{{}}")].

(** [-P /inc -t 0] on the command line. *)
Definition cfg_path : Config :=
  {| DEBUG_LEVEL := 0; TEMPLATEPATH := ["/inc"]; TRIM := 0;
     j2_encoding := "utf-8"; j2_linesep := Str.nl; os_linesep := Str.nl |}.

(** An engine that renders the configuration it is handed. *)
Definition probe (e : Environment) (_ : string) (_ _ : gmap string pyval) : render_result :=
  Rendered (Str.join Path.pathsep (searchpath e)
              +:+ (if trim_blocks e then " trim" else " keep")).

(** An engine that works with trimming on and raises otherwise. *)
Definition trim_only (e : Environment) (_ : string) (_ _ : gmap string pyval) : render_result :=
  if trim_blocks e then Rendered "widget" else OtherError "RuntimeError".

Definition always_widget (_ : Environment) (_ : string) (_ _ : gmap string pyval) : render_result :=
  Rendered "widget".

(** A content template that ends with an empty line. *)
Definition blank_line : snode :=
  SDir [("a.txt", SFile ("x" +:+ Str.nl +:+ Str.nl))].

(** [item.txt] with a naming directive that ends with an empty line. *)
Definition renamed : snode :=
  SDir [("item.txt", SFile ("hello" +:+ Str.nl));
        ("item.txt.j2n", SFile ("widget" +:+ Str.nl +:+ Str.nl))].

(** A folder without naming directives: a file, a folder, a [.git]
    folder and a stray file that matches the [.j2n] pattern. *)
Definition plain : snode :=
  SDir [("note.txt", SFile ("hi" +:+ Str.nl));
        ("docs", SDir [("a.md", SFile "A")]);
        (".git", SDir [("config", SFile "x")]);
        ("Old.J2N", SFile "zzz")].

(** A folder whose naming directive renders to a name of [ignoredirs]. *)
Definition vcs_named : snode :=
  SDir [("pkg", SDir []); ("pkg.j2n", SFile ".git")].

(** A folder whose naming directive renders to a path that leads out of the
    destination, and a file system whose root is writable. *)
Definition escaping : snode :=
  SDir [("pkg", SDir []); ("pkg.j2n", SFile "../escaped")].

Definition st_open : state := start (disk [([], FDir true); (["dst"], FDir true)]).

End Ex.

(** ** Definitions used to state what every run keeps *)

(** The engine reports this syntax error for some template. *)
Definition engine_rejects
    (jinja : Environment → string → gmap string pyval → gmap string pyval → render_result)
    (filename : string) (lineno : Z) (message : string) : Prop :=
  ∃ env name g j, jinja env name g j = TemplateSyntaxError filename lineno message.

(** One message of the command-line kind: a folder or file that cannot be
    created or opened, or a template that cannot be found. *)
Definition one_report (msgs : list string) : Prop :=
  ∃ what rest,
    msgs = ["j2: Command line error " +:+ what +:+ ": Can't " +:+ rest]
    ∧ (what = "IOError" ∨ what = "TemplateNotFound").

(** The two messages of a template syntax error that the engine reported. *)
Definition two_reports
    (jinja : Environment → string → gmap string pyval → gmap string pyval → render_result)
    (msgs : list string) : Prop :=
  ∃ filename lineno message eol,
    msgs = [syntax_error_cmdline filename lineno message eol;
            syntax_error_infile filename lineno message eol]
    ∧ engine_rejects jinja filename lineno message.

(** A procedure that writes nothing to [sys.stderr] when it returns or
    raises, and when it exits one message of the command-line kind, or the
    two of a template syntax error. *)
Definition reports
    (jinja : Environment → string → gmap string pyval → gmap string pyval → render_result)
    {A} (m : M A) : Prop :=
  ∀ st,
    match m st with
    | Done _ st' | Uncaught _ st' => stderr st' = stderr st
    | Exit _ st' =>
        ∃ msgs : list string,
          stderr st' = (stderr st ++ msgs)%list ∧ (one_report msgs ∨ two_reports jinja msgs)
    end.

(** A procedure whose only exit status is 1. *)
Definition exits_with_1 {A} (m : M A) : Prop :=
  ∀ st c st', m st = Exit c st' → c = 1%Z.

(** The [j2] dictionary after lines 527-529, for the log lines [l1] to [l4]
    it held. *)
Definition template_j2 (cfg : Config) (file : string) (d : gmap string pyval)
    (l1 l2 l3 l4 : string) : gmap string pyval :=
  let tp := Str.join Path.pathsep (Path.dirname file :: TEMPLATEPATH cfg) in
  <["logall" := PStr (Str.join (os_linesep cfg) ["J2: Template " +:+ tp; l1; l2; l3; l4])]>
    (<["log" := PStr ("J2: Template " +:+ tp)]>
       (<["templatepath" := PStr tp]> d)).

(** The four log lines of lines 493-496 are in the dictionary, as strings. *)
Definition has_logs (d : gmap string pyval) : Prop :=
  ∃ l1 l2 l3 l4,
    d !! "log1" = Some (PStr l1) ∧ d !! "log2" = Some (PStr l2)
    ∧ d !! "log3" = Some (PStr l3) ∧ d !! "log4" = Some (PStr l4).

(** The four log lines are bound in the dictionary, to whatever value. *)
Definition logs_bound (d : gmap string pyval) : Prop :=
  is_Some (d !! "log1") ∧ is_Some (d !! "log2")
  ∧ is_Some (d !! "log3") ∧ is_Some (d !! "log4").

(** A procedure that, however it ends, leaves the [j2] dictionary as it
    found it. *)
Definition keeps_j2 {A} (m : M A) : Prop := ∀ st, j2 (final (m st)) = j2 st.

(** ** The main program (lines 590-610) *)

Section Main.

Variable cfg : Config.
Variable jinja :
  Environment → string → gmap string pyval → gmap string pyval → render_result.

(** Lines 608-609: [for file in args.template: render_file_template(file, output)]. *)
Fixpoint render_templates (files : list string) (output : handle) : M unit :=
  match files with
  | [] => ret tt
  | file :: files' =>
      render_file_template cfg jinja file output ;;;
      render_templates files' output
  end.

(** Lines 599-607: the handle of file mode, [sys.stdout] or the file opened
    at [args.OUTPUT]. *)
Definition open_output (OUTPUT : string) : M handle :=
  if String.eqb OUTPUT ":NONE:" then ret Stdout
  else
    f <- get_fs ;;
    match FS.open_wb f OUTPUT with
    | Some f' => set_fs f' ;;; ret (WbFile OUTPUT)
    | None =>
        stderr_write ("j2: Command line error IOError: Can't open file "
                        +:+ OUTPUT +:+ " to render output to" +:+ os_linesep cfg) ;;;
        exit 1
    end.

(** Lines 598-610: file mode. *)
Definition main_file (templates : list string) (OUTPUT : string) : M unit :=
  output <- open_output OUTPUT ;;
  render_templates templates output.

(** Lines 596-597: [for folder in args.template: render_folder_template(folder, dest)],
    each folder with what the file system has there. *)
Fixpoint render_folders (folders : list (string * snode)) (dest : string) : M unit :=
  match folders with
  | [] => ret tt
  | (folder, node) :: folders' =>
      render_folder_template cfg jinja node folder dest ;;;
      render_folders folders' dest
  end.

(** Lines 591-597: folder mode. *)
Definition main_folder (folders : list (string * snode)) (OUTPUT : string) : M unit :=
  f <- get_fs ;;
  let dest := if String.eqb OUTPUT ":NONE:" then FS.getcwd f else OUTPUT in
  render_folders folders dest.

End Main.

(** The text is one the engine renders for the content template [file]. *)
Definition renders_to (cfg : Config)
    (jinja : Environment → string → gmap string pyval → gmap string pyval → render_result)
    (file text : string) : Prop :=
  ∃ g j, jinja (template_environment cfg file) (Path.basename file) g j = Rendered text.

(** An entry the loop does not skip: its name does not match the [.j2n]
    pattern and it is not a directory of [ignoredirs]. *)
Definition kept (entry : string * snode) : bool :=
  negb (j2n_match entry.1) && negb (ignored_dir entry).

(** The tree has a file that the loop does not skip, at some depth below
    directories that it does not skip. *)
Fixpoint has_kept_file (node : snode) : bool :=
  match node with
  | SDir items =>
      existsb (λ entry, kept entry && (negb (isdir entry.2) || has_kept_file entry.2)) items
  | _ => false
  end.

(** The string has a path separator. *)
Fixpoint has_sep (s : string) : bool :=
  match s with
  | "" => false
  | String c s' => Path.is_sep c || has_sep s'
  end.

(** A name as [os.listdir] reports them: not empty, without separator, and
    neither [.] nor [..]. *)
Definition plain_name (name : string) : bool :=
  negb (String.eqb name "") && negb (has_sep name)
  && negb (String.eqb name ".") && negb (String.eqb name "..").

(** Every entry of the source tree has such a name. *)
Fixpoint well_named (node : snode) : bool :=
  match node with
  | SDir items => forallb (λ entry, plain_name entry.1 && well_named entry.2) items
  | _ => true
  end.

(** Every naming directive renders to such a name. *)
Definition plain_directives (cfg : Config)
    (jinja : Environment → string → gmap string pyval → gmap string pyval → render_result) :
    Prop :=
  ∀ file g j name,
    jinja (name_environment cfg file) (Path.basename file) g j = Rendered name →
    plain_name name = true.

(** A procedure that, however it ends, leaves alone every node that is
    neither the one [dest] leads to nor below it. *)
Definition touches_below (dest : string) {A} (m : M A) : Prop :=
  ∀ st k,
    (∀ kd, FS.key (fs st) dest = Some kd → ¬ kd `prefix_of` k) →
    FS.nodes (fs (final (m st))) !! k = FS.nodes (fs st) !! k.

(** ** Module loading (lines 436-477) *)

(** How one round of a [for] loop ends: at the end of its body or at
    [break]. *)
Inductive control := Next | Break.

(** [for x in l: body(x)] followed by [else: orelse], which runs when the
    loop was not left by [break]. *)
Fixpoint for_each {X} (body : X → M control) (orelse : M unit) (l : list X) : M unit :=
  match l with
  | [] => orelse
  | x :: l' =>
      c <- body x ;;
      match c with
      | Break => ret tt
      | Next => for_each body orelse l'
      end
  end.

(** Several writes to [sys.stderr]. *)
Definition stderr_writes (lines : list string) : M unit :=
  λ st, Done tt (add_stderr lines st).

Section Modules.

Variable cfg : Config.

(** What the name [execfile] does when called on a path: the builtin of
    Python 2 runs the code of the file, which is any procedure on the process
    state; under Python 3 the name is unbound and the call raises
    [NameError]. *)
Variable execfile : string → M unit.

(** The exceptions that are instances of [Exception]. *)
Variable is_Exception : string → bool.

(** [str(e)] *)
Variable exn_str : string → string.

(** What [traceback.print_exc()] writes for the exception. *)
Variable format_exc : string → list string.

(** [try: body] with [except Exception as e: handler]; [exit] raises
    [SystemExit], which is no [Exception]. *)
Definition try_except {A} (body : M A) (handler : string → M A) : M A :=
  λ st, match body st with
        | Uncaught e st' => if is_Exception e then handler e st' else Uncaught e st'
        | o => o
        end.

(** The handlers of lines 450-454 and 473-477. *)
Definition import_failed (name e : string) : M control :=
  stderr_write ("j2: Command line error ImportUnk: Module " +:+ name +:+ ", "
                  +:+ exn_str e +:+ os_linesep cfg) ;;;
  (if (0 <? DEBUG_LEVEL cfg)%Z then stderr_writes (format_exc e) else ret tt) ;;;
  exit 1.

(** What the handler writes: its message, and the traceback when
    debugging. *)
Definition import_report (name e : string) : list string :=
  ("j2: Command line error ImportUnk: Module " +:+ name +:+ ", "
     +:+ exn_str e +:+ os_linesep cfg)
  :: (if (0 <? DEBUG_LEVEL cfg)%Z then format_exc e else []).

(** What running the file [pyfile] for the module [name] makes of the
    loop round: the outcome of its code, with an [Exception] turned into the
    report and [exit(1)], and [a] for a return. *)
Definition loaded {A} (a : A) (name pyfile : string) (st : state) : outcome A :=
  match execfile pyfile st with
  | Done _ st' => Done a st'
  | Exit c st' => Exit c st'
  | Uncaught e st' =>
      if is_Exception e then Exit 1 (add_stderr (import_report name e) st')
      else Uncaught e st'
  end.

(** Lines 442-454: one directory of [sys.path] for the module [modname]. *)
Definition try_path (modname path : string) : M control :=
  let pyfile := path +:+ Path.sep +:+ modname +:+ ".py" in
  DEBUG cfg 2 ("  Trying " +:+ pyfile) ;;;
  try_except
    (f <- get_fs ;;
     if FS.exists_ f pyfile then
       DEBUG cfg 2 ("  Found module " +:+ modname +:+ " at " +:+ pyfile +:+ os_linesep cfg) ;;;
       execfile pyfile ;;;
       ret Break
     else ret Next)
    (import_failed modname).

(** Lines 440-456: one module name of [args.MODULE], looked up along
    [sys.path]. *)
Definition load_module (sys_path : list string) (modname : string) : M unit :=
  DEBUG cfg 1 ("Loading module " +:+ modname) ;;;
  for_each (try_path modname)
    (stderr_write ("j2: Command line error ImportError: Can't find module "
                     +:+ modname +:+ " for importing" +:+ os_linesep cfg) ;;;
     exit 1)
    sys_path.

(** Lines 463-477: one path of [args.MODULEPATH]. *)
Definition try_modpath (modpath : string) : M control :=
  DEBUG cfg 1 ("Loading module from location " +:+ modpath) ;;;
  try_except
    (f <- get_fs ;;
     if FS.exists_ f modpath then
       DEBUG cfg 2 ("  Found module " +:+ modpath +:+ os_linesep cfg) ;;;
       execfile modpath ;;;
       ret Break
     else
       stderr_write ("j2: Command line error ImportError: Can't find module at location "
                       +:+ modpath +:+ " for importing" +:+ os_linesep cfg) ;;;
       exit 1)
    (import_failed modpath).

(** Lines 461-477: [args.MODULEPATH] is [None] without [-M]. *)
Definition load_modulepaths (MODULEPATH : option (list string)) : M unit :=
  match MODULEPATH with
  | None | Some [] => ret tt
  | Some l => for_each try_modpath (ret tt) l
  end.

End Modules.

(** ** The [j2] variables (lines 484-496) *)

(** The value argparse leaves for an [append] option. *)
Definition arg_value (a : option (list string)) : pyval :=
  match a with
  | None => PNone
  | Some l => PList l
  end.

Section Populate.

Variable cfg : Config.

(** [repr] of a string, as [str] of a list shows its elements. *)
Variable repr_str : string → string.

(** [str(v)] *)
Definition py_str (v : pyval) : string :=
  match v with
  | PStr s => s
  | PList l => "[" +:+ Str.join ", " (map repr_str l) +:+ "]"
  | PNone => "None"
  | PObj r => r
  end.

(** Lines 484-496; [user], [host], [date] and [time] are what
    [getpass.getuser()], [socket.getfqdn()] and the two [strftime] calls
    return. *)
Definition populate_j2 (user host date time : string)
    (MODULE EXPR : option (list string)) : M unit :=
  j2_set "encoding" (PStr (j2_encoding cfg)) ;;;
  j2_set "user" (PStr user) ;;;
  j2_set "host" (PStr host) ;;;
  j2_set "warning" (PStr "WARNING!! DO NOT EDIT THIS FILE, ALL CHANGES WILL BE LOST. THIS FILE IS AUTOGENERATED BY J2.") ;;;
  v <- j2_get "versionnum" ;;
  j2_set "version" (PStr ("J2 Version " +:+ py_str v)) ;;;
  j2_set "modules" (arg_value MODULE) ;;;
  j2_set "expressions" (arg_value EXPR) ;;;
  j2_set "date" (PStr date) ;;;
  j2_set "time" (PStr time) ;;;
  d <- j2_get_str "date" ;;
  t <- j2_get_str "time" ;;
  j2_set "log1" (PStr ("    processed on " +:+ d +:+ " at " +:+ t)) ;;;
  m <- j2_get "modules" ;;
  j2_set "log2" (PStr ("    using modules " +:+ py_str m)) ;;;
  e <- j2_get "expressions" ;;
  j2_set "log3" (PStr ("    with expressions " +:+ py_str e)) ;;;
  u <- j2_get "user" ;;
  h <- j2_get "host" ;;
  j2_set "log4" (PStr ("    by " +:+ py_str u +:+ "@" +:+ py_str h)).

End Populate.

(** ** Concrete module code *)

Module ExMod.

(** The interpreter of the shebang line: [execfile] is unbound. *)
Definition execfile_py3 (_ : string) : M unit := raise "NameError".

(** A module that sets [j2["site"]]. *)
Definition execfile_site (_ : string) : M unit := j2_set "site" (PStr "lab").

Definition is_Exception (e : string) : bool :=
  negb (String.eqb e "KeyboardInterrupt").

Definition exn_str (e : string) : string :=
  if String.eqb e "NameError" then "name 'execfile' is not defined" else e.

Definition format_exc (e : string) : list string :=
  ["Traceback (most recent call last):" +:+ Str.nl; e +:+ Str.nl].

(** The file system with two copies of the module [site_cfg]. *)
Definition st_mods : state :=
  {| fs := Ex.disk [(["lib"], FDir true); (["lib"; "site_cfg.py"], FFile true "x");
                    (["opt"], FDir true); (["opt"; "site_cfg.py"], FFile true "y")];
     stdout := [];
     stderr := [];
     j2 := {[ "versionnum" := PObj "2.4" ]};
     globals := ∅ |}.

(** A writable [/dst], and outside it [/etc/motd]. *)
Definition st_etc : state :=
  Ex.start (Ex.disk [(["dst"], FDir true); (["etc"], FDir true);
                     (["etc"; "motd"], FFile true "welcome")]).

End ExMod.
(** * Properties *)

(** ** The file system *)

Lemma le_shape_refl a : le_shape a a.
Proof. split; [done|]. intros k n Hk. by exists n. Qed.

Lemma le_shape_trans a b c : le_shape a b → le_shape b c → le_shape a c.
Proof.
  intros [Hcwd Hab] [Hcwd' Hbc]. split; [congruence|].
  intros k n Hk. destruct (Hab k n Hk) as (n1 & H1 & Hs1).
  destruct (Hbc k n1 H1) as (n2 & H2 & Hs2). exists n2. split; [done|congruence].
Qed.

Lemma le_shape_dir a b k w :
  le_shape a b → FS.nodes a !! k = Some (FDir w) → FS.nodes b !! k = Some (FDir w).
Proof.
  intros [_ Hab] Hk. destruct (Hab k _ Hk) as (n' & Hn' & Hs).
  by destruct n' as [w'|w' d]; simpl in Hs; simplify_eq.
Qed.

Lemma le_shape_file a b k w data :
  le_shape a b → FS.nodes a !! k = Some (FFile w data) →
  ∃ data', FS.nodes b !! k = Some (FFile w data').
Proof.
  intros [_ Hab] Hk. destruct (Hab k _ Hk) as (n' & Hn' & Hs).
  destruct n' as [w'|w' d]; simpl in Hs; simplify_eq. by exists d.
Qed.

(** A path that leads somewhere still leads there when the file system has
    gained nodes. *)
Lemma step_le a b cur c r : le_shape a b → FS.step a cur c = Some r → FS.step b cur c = Some r.
Proof.
  intros Hab. unfold FS.step.
  destruct (String.eqb c "" || String.eqb c "."); [done|].
  destruct (String.eqb c ".."); [done|].
  destruct (FS.nodes a !! (cur ++ [c])%list) as [[w|]|] eqn:Hk; try done.
  by rewrite (le_shape_dir _ _ _ _ Hab Hk).
Qed.

Lemma locate_le a b cs : ∀ cur r,
  le_shape a b → FS.locate a cur cs = Some r → FS.locate b cur cs = Some r.
Proof.
  induction cs as [|c cs IH]; intros cur r Hab; cbn [FS.locate]; [done|].
  destruct (forallb (String.eqb "") cs); [done|].
  destruct (FS.step a cur c) as [cur'|] eqn:Hstep; [|done].
  rewrite (step_le _ _ _ _ _ Hab Hstep). by apply IH.
Qed.

Lemma resolve_le a b p r : le_shape a b → FS.resolve a p = Some r → FS.resolve b p = Some r.
Proof.
  intros Hab. unfold FS.resolve. destruct (String.eqb p ""); [done|].
  rewrite <- (proj1 Hab). by apply locate_le.
Qed.

Lemma le_shape_put_fresh f k n : FS.nodes f !! k = None → le_shape f (FS.put f k n).
Proof.
  intros Hk. split; [done|]. intros k' n' Hk'. exists n'. split; [|done].
  simpl. rewrite lookup_insert_ne; [done|]. intros ->. congruence.
Qed.

Lemma le_shape_put_same f k n n0 :
  FS.nodes f !! k = Some n0 → shape n = shape n0 → le_shape f (FS.put f k n).
Proof.
  intros Hk Hs. split; [done|]. intros k' n' Hk'. simpl.
  destruct (decide (k' = k)) as [->|Hne].
  - exists n. rewrite lookup_insert_eq. split; [done|congruence].
  - exists n'. by rewrite lookup_insert_ne.
Qed.

Lemma mkdir_inv f p f' :
  FS.mkdir f p = Some f' →
  ∃ k slash, FS.resolve f p = Some (FS.Named k slash)
             ∧ FS.nodes f !! k = None
             ∧ FS.parent_writable f k = true
             ∧ f' = FS.put f k (FDir true).
Proof.
  unfold FS.mkdir. destruct (FS.resolve f p) as [[k slash|k]|]; try done.
  destruct (FS.nodes f !! k) eqn:Hk; [done|].
  destruct (FS.parent_writable f k) eqn:Hp; [|done].
  intros [= <-]. by exists k, slash.
Qed.

Lemma open_wb_inv f p f' :
  FS.open_wb f p = Some f' →
  ∃ k, FS.resolve f p = Some (FS.Named k false)
       ∧ (FS.nodes f !! k = None ∨ ∃ data, FS.nodes f !! k = Some (FFile true data))
       ∧ f' = FS.put f k (FFile true "").
Proof.
  unfold FS.open_wb. destruct (FS.resolve f p) as [[k [|]|k]|]; try done.
  destruct (FS.nodes f !! k) as [[w|[|] data]|] eqn:Hk; try done.
  - intros [= <-]. exists k. eauto.
  - destruct (FS.parent_writable f k); [|done]. intros [= <-]. exists k. eauto.
Qed.

Lemma mkdir_le f p f' : FS.mkdir f p = Some f' → le_shape f f'.
Proof.
  intros (k & slash & _ & Hk & _ & ->)%mkdir_inv. by apply le_shape_put_fresh.
Qed.

Lemma open_wb_le f p f' : FS.open_wb f p = Some f' → le_shape f f'.
Proof.
  intros (k & _ & [Hk|[data Hk]] & ->)%open_wb_inv.
  - by apply le_shape_put_fresh.
  - by eapply le_shape_put_same.
Qed.

Lemma mkdir_lookup f dest f' : FS.mkdir f dest = Some f' → f' !! dest = Some (FDir true).
Proof.
  intros Hmk. pose proof (mkdir_le _ _ _ Hmk) as Hle.
  apply mkdir_inv in Hmk as (k & slash & Hres & _ & _ & ->).
  unfold lookup, fs_lookup, FS.lookup. rewrite (resolve_le _ _ _ _ Hle Hres).
  simpl. by rewrite lookup_insert_eq.
Qed.

Lemma open_wb_lookup f p f' : FS.open_wb f p = Some f' → f' !! p = Some (FFile true "").
Proof.
  intros Hop. pose proof (open_wb_le _ _ _ Hop) as Hle.
  apply open_wb_inv in Hop as (k & Hres & _ & ->).
  unfold lookup, fs_lookup, FS.lookup. rewrite (resolve_le _ _ _ _ Hle Hres).
  simpl. by rewrite lookup_insert_eq.
Qed.

(** What is at a path is still there, with its shape, when the file system
    has gained nodes. *)
Lemma lookup_le a b p n :
  le_shape a b → a !! p = Some n → ∃ n', b !! p = Some n' ∧ shape n' = shape n.
Proof.
  intros Hab. unfold lookup, fs_lookup, FS.lookup.
  destruct (FS.resolve a p) as [[k slash|k]|] eqn:Hres; [| |done];
    rewrite (resolve_le _ _ _ _ Hab Hres).
  - destruct (FS.nodes a !! k) as [[w|w data]|] eqn:Hk; [| |done].
    + intros [= <-]. rewrite (le_shape_dir _ _ _ _ Hab Hk). by eexists.
    + destruct (le_shape_file _ _ _ _ _ Hab Hk) as [data' Hk']. rewrite Hk'.
      destruct slash; [done|]. intros [= <-]. by eexists.
  - intros Hk. destruct (proj2 Hab k n Hk) as (n' & Hn' & Hs). by exists n'.
Qed.

(** A file put where no directory was changes no way through the file
    system. *)
Lemma step_put_file f k w data cur c :
  (∀ w', FS.nodes f !! k ≠ Some (FDir w')) →
  FS.step (FS.put f k (FFile w data)) cur c = FS.step f cur c.
Proof.
  intros Hk. unfold FS.step.
  destruct (String.eqb c "" || String.eqb c "."); [done|].
  destruct (String.eqb c ".."); [done|]. simpl.
  destruct (decide ((cur ++ [c])%list = k)) as [->|Hne].
  - rewrite lookup_insert_eq. by destruct (FS.nodes f !! k) as [[w'|]|] eqn:Hn; [destruct (Hk w')|..].
  - by rewrite lookup_insert_ne.
Qed.

Lemma locate_put_file f k w data cs : ∀ cur,
  (∀ w', FS.nodes f !! k ≠ Some (FDir w')) →
  FS.locate (FS.put f k (FFile w data)) cur cs = FS.locate f cur cs.
Proof.
  induction cs as [|c cs IH]; intros cur Hk; cbn [FS.locate]; [done|].
  destruct (forallb (String.eqb "") cs); [done|].
  rewrite step_put_file by done.
  destruct (FS.step f cur c); [by apply IH | done].
Qed.

Lemma resolve_put_file f k w data p :
  (∀ w', FS.nodes f !! k ≠ Some (FDir w')) →
  FS.resolve (FS.put f k (FFile w data)) p = FS.resolve f p.
Proof.
  intros Hk. unfold FS.resolve. destruct (String.eqb p ""); [done|].
  by apply locate_put_file.
Qed.

(** Opening a file changes nothing at the paths that lead elsewhere. *)
Lemma open_wb_other f p f' q :
  FS.open_wb f p = Some f' → FS.key f q ≠ FS.key f p → f' !! q = f !! q.
Proof.
  intros (k & Hres & Hk & ->)%open_wb_inv Hne.
  assert (Hnodir : ∀ w', FS.nodes f !! k ≠ Some (FDir w')).
  { intros w'. destruct Hk as [-> | [data ->]]; done. }
  unfold lookup, fs_lookup, FS.lookup. rewrite resolve_put_file by done.
  unfold FS.key in Hne. rewrite Hres in Hne.
  destruct (FS.resolve f q) as [[kq slash|kq]|]; [| |done]; simpl in *;
    rewrite lookup_insert_ne; congruence.
Qed.

(** ** Running the monad *)

Lemma add_stderr_nil st : add_stderr [] st = st.
Proof. destruct st; unfold add_stderr; simpl. by rewrite app_nil_r. Qed.

Lemma add_stderr_app l1 l2 st : add_stderr l2 (add_stderr l1 st) = add_stderr (l1 ++ l2) st.
Proof. unfold add_stderr; simpl. by rewrite app_assoc. Qed.

Lemma bind_done {A B} (m : M A) (k : A → M B) st a st' :
  m st = Done a st' → bind m k st = k a st'.
Proof. unfold bind. by intros ->. Qed.

Lemma bind_exit {A B} (m : M A) (k : A → M B) st c st' :
  m st = Exit c st' → bind m k st = Exit c st'.
Proof. unfold bind. by intros ->. Qed.

Lemma bind_uncaught {A B} (m : M A) (k : A → M B) st e st' :
  m st = Uncaught e st' → bind m k st = Uncaught e st'.
Proof. unfold bind. by intros ->. Qed.

Lemma bind_ext {A B} (m : M A) (k1 k2 : A → M B) st :
  (∀ a st', k1 a st' = k2 a st') → bind m k1 st = bind m k2 st.
Proof. intros Hk. unfold bind. by destruct (m st). Qed.

Lemma bind_done_inv {A B} (m : M A) (k : A → M B) st b st'' :
  bind m k st = Done b st'' → ∃ a st', m st = Done a st' ∧ k a st' = Done b st''.
Proof. unfold bind. destruct (m st) as [a st'| |]; [eauto | done | done]. Qed.

Lemma DEBUG_run cfg level output st :
  DEBUG cfg level output st = Done tt (add_stderr (debug_lines cfg level output) st).
Proof.
  unfold DEBUG, debug_lines. destruct (level <=? DEBUG_LEVEL cfg)%Z.
  - reflexivity.
  - unfold ret. by rewrite add_stderr_nil.
Qed.

(** ** Template syntax errors (C8) *)


(** ** The destination folder (C5) *)

Lemma prepare_dest_run cfg dest st :
  prepare_dest cfg dest st =
    match fs st !! dest with
    | None =>
        match FS.mkdir (fs st) dest with
        | None =>
            Exit 1 (add_stderr ["j2: Command line error IOError: Can't create folder "
                                  +:+ dest +:+ " to render output to" +:+ os_linesep cfg] st)
        | Some fs' => Done tt (with_fs fs' st)
        end
    | Some _ =>
        if FS.access_W (fs st) dest then Done tt st
        else Exit 1 (add_stderr ["j2: Command line error IOError: Can't open folder "
                                   +:+ dest +:+ " to render output to" +:+ os_linesep cfg] st)
    end.
Proof.
  unfold prepare_dest, bind, get_fs, FS.exists_.
  change (fs st !! dest) with (FS.lookup (fs st) dest).
  destruct (FS.lookup (fs st) dest) as [n|] eqn:Hd; simpl.
  - unfold ret, FS.access_W. rewrite Hd.
    destruct n as [[]|[] ?]; simpl; reflexivity.
  - destruct (FS.mkdir (fs st) dest) as [f'|] eqn:Hmk; simpl; [|reflexivity].
    unfold FS.access_W.
    change (FS.lookup f' dest) with (f' !! dest).
    by rewrite (mkdir_lookup _ _ _ Hmk).
Qed.


(** ** Naming directives are skipped by the loop (C7) *)

Lemma lower_app s t : Str.lower (s +:+ t) = Str.lower s +:+ Str.lower t.
Proof. induction s as [|c s IH]; simpl; [done | by rewrite IH]. Qed.

Lemma endswith_app p s : Str.endswith (p +:+ s) s = true.
Proof.
  induction p as [|c p IH]; simpl.
  - destruct s; simpl; [done|]. by rewrite Ascii.eqb_refl, String.eqb_refl.
  - rewrite IH. apply orb_true_r.
Qed.

Lemma j2n_suffix_match item : has_j2n_suffix item → j2n_match item = true.
Proof.
  intros (stem & sfx & -> & Hs). unfold j2n_match.
  rewrite lower_app, Hs, endswith_app. reflexivity.
Qed.

Lemma iterate_entries_cons cfg jinja folder dest items entry l :
  iterate_entries cfg jinja folder dest items (entry :: l)
  = bind (iterate_entry cfg jinja folder dest items entry)
      (λ _, iterate_entries cfg jinja folder dest items l).
Proof. reflexivity. Qed.

Lemma iterate_entries_nil cfg jinja folder dest items :
  iterate_entries cfg jinja folder dest items [] = ret tt.
Proof. reflexivity. Qed.

(** C7. An entry whose name ends with [.j2n], whatever the letter case, is
    skipped by the loop of [render_folder_template]: its turn leaves the
    state as it was (nothing is created, written or rendered for it) and the
    loop goes on with the next entry. *)
Theorem naming_directive_skipped cfg jinja folder dest items item node l st :
  has_j2n_suffix item →
  iterate_entry cfg jinja folder dest items (item, node) st = Done tt st
  ∧ iterate_entries cfg jinja folder dest items ((item, node) :: l) st
    = iterate_entries cfg jinja folder dest items l st.
Proof.
  intros Hm%j2n_suffix_match.
  assert (Hitem : iterate_entry cfg jinja folder dest items (item, node) st = Done tt st).
  { unfold iterate_entry, folder_item. rewrite Hm. reflexivity. }
  split; [exact Hitem|].
  rewrite iterate_entries_cons.
  by rewrite (bind_done _ _ _ _ _ Hitem).
Qed.

(** ** Procedures that leave the destination alone *)

Lemma keeps_fs_bind {A B} (m : M A) (k : A → M B) :
  keeps_fs m → (∀ a, keeps_fs (k a)) → keeps_fs (bind m k).
Proof.
  intros Hm Hk st. unfold bind. specialize (Hm st).
  destruct (m st) as [a st'| |]; simpl in *; [|done..].
  by rewrite Hk.
Qed.

Lemma keeps_fs_ret {A} (a : A) : keeps_fs (ret a).
Proof. done. Qed.

Lemma keeps_fs_exit {A} c : keeps_fs (@exit A c).
Proof. done. Qed.

Lemma keeps_fs_raise {A} e : keeps_fs (@raise A e).
Proof. done. Qed.

Lemma keeps_fs_stderr_write s : keeps_fs (stderr_write s).
Proof. done. Qed.

Lemma keeps_fs_stdout_write s : keeps_fs (stdout_write s).
Proof. done. Qed.

Lemma keeps_fs_DEBUG cfg level output : keeps_fs (DEBUG cfg level output).
Proof. intros st. by rewrite DEBUG_run. Qed.

Lemma keeps_fs_j2_set k v : keeps_fs (j2_set k v).
Proof. done. Qed.

Lemma keeps_fs_j2_get k : keeps_fs (j2_get k).
Proof. intros st. unfold j2_get. by destruct (j2 st !! k). Qed.

Lemma keeps_fs_j2_get_str k : keeps_fs (j2_get_str k).
Proof. intros st. unfold j2_get_str. by destruct (j2 st !! k) as [[]|]. Qed.

Lemma keeps_fs_str_join sep vs : keeps_fs (str_join sep vs).
Proof. unfold str_join. by destruct (strings_of vs). Qed.

Lemma keeps_fs_output_write output data : keeps_fs (output_write output data).
Proof. by destruct output. Qed.

Lemma keeps_fs_globals_update l : keeps_fs (globals_update l).
Proof. done. Qed.

Lemma keeps_fs_get_template_render jinja e name : keeps_fs (get_template_render jinja e name).
Proof. done. Qed.

Create HintDb keeps_fs.
#[export] Hint Resolve keeps_fs_ret keeps_fs_exit keeps_fs_raise keeps_fs_stderr_write
  keeps_fs_stdout_write keeps_fs_DEBUG keeps_fs_j2_set keeps_fs_j2_get keeps_fs_j2_get_str
  keeps_fs_str_join keeps_fs_output_write keeps_fs_globals_update
  keeps_fs_get_template_render : keeps_fs.

Ltac keeps_fs_tac :=
  repeat first
    [ apply keeps_fs_bind; [|intros ?]
    | solve [auto with keeps_fs]
    | match goal with |- keeps_fs (match ?r with _ => _ end) => destruct r end ].

Lemma keeps_fs_name_context cfg file : keeps_fs (name_context cfg file).
Proof. unfold name_context. keeps_fs_tac. Qed.

Lemma keeps_fs_template_context cfg file output : keeps_fs (template_context cfg file output).
Proof. unfold template_context. keeps_fs_tac. Qed.

Lemma keeps_fs_render_file_name cfg jinja file : keeps_fs (render_file_name cfg jinja file).
Proof.
  unfold render_file_name.
  apply keeps_fs_bind; [apply keeps_fs_name_context | intros _].
  keeps_fs_tac.
Qed.

Lemma keeps_fs_dest_path cfg jinja folder dest item items :
  keeps_fs (dest_path cfg jinja folder dest item items).
Proof.
  unfold dest_path. destruct (has_entry _ _); [|auto with keeps_fs].
  apply keeps_fs_bind; [auto with keeps_fs | intros _].
  apply keeps_fs_bind; [apply keeps_fs_render_file_name | intros ?; auto with keeps_fs].
Qed.

Lemma keeps_fs_done {A} (m : M A) st a st' : keeps_fs m → m st = Done a st' → fs st' = fs st.
Proof. intros Hm Hr. specialize (Hm st). by rewrite Hr in Hm. Qed.

Lemma keeps_fs_render_file_template cfg jinja file output :
  keeps_fs (render_file_template cfg jinja file output).
Proof.
  unfold render_file_template.
  apply keeps_fs_bind; [apply keeps_fs_template_context | intros _].
  keeps_fs_tac.
Qed.

(** ** The destination file is opened before its template is rendered (C10) *)

(** C10. For a file entry of the folder, once its destination path is
    computed and [open(fdest, 'wb')] has succeeded, a template-not-found or
    template-syntax error of the content render ends the run with [exit(1)]
    in a state where the destination file exists and is empty. *)
Theorem destination_opened_before_render
    cfg jinja folder dest items item content st fdest st1 fs2 st3 :
  j2n_match item = false →
  dest_path cfg jinja folder dest item items
    (add_stderr (debug_lines cfg 2
       ("  folder item " +:+ Str.dq +:+ item +:+ Str.dq +:+ " is file")) st)
    = Done fdest st1 →
  FS.open_wb (fs st1) fdest = Some fs2 →
  template_context cfg (folder +:+ Path.sep +:+ item) (WbFile fdest) (with_fs fs2 st1)
    = Done tt st3 →
  (∃ name, jinja (template_environment cfg (folder +:+ Path.sep +:+ item))
             (Path.basename (folder +:+ Path.sep +:+ item)) (globals st3) (j2 st3)
           = TemplateNotFound name)
  ∨ (∃ filename lineno message,
       jinja (template_environment cfg (folder +:+ Path.sep +:+ item))
         (Path.basename (folder +:+ Path.sep +:+ item)) (globals st3) (j2 st3)
       = TemplateSyntaxError filename lineno message) →
  ∃ st4,
    iterate_entry cfg jinja folder dest items (item, SFile content) st = Exit 1 st4
    ∧ fs st4 = fs2
    ∧ fs st4 !! fdest = Some (FFile true "").
Proof.
  intros Hm Hpath Hopen Hctx Hfail.
  assert (Hfs3 : fs st3 = fs2).
  { by rewrite (keeps_fs_done _ _ _ _ (keeps_fs_template_context _ _ _) Hctx). }
  assert (Hlk : fs2 !! fdest = Some (FFile true "")) by by eapply open_wb_lookup.
  unfold iterate_entry, folder_item. rewrite Hm. simpl.
  unfold render_file_item.
  rewrite (bind_done _ _ _ _ _ (DEBUG_run _ _ _ _)).
  rewrite (bind_done _ _ _ _ _ Hpath).
  unfold write_item. unfold bind at 1, get_fs. rewrite Hopen.
  unfold bind at 1, set_fs. fold (with_fs fs2 st1).
  unfold render_file_template.
  rewrite (bind_done _ _ _ _ _ Hctx).
  unfold bind at 1, get_template_render.
  destruct Hfail as [(name & ->) | (filename & lineno & message & ->)].
  - eexists. split; [reflexivity|]. simpl. by rewrite Hfs3.
  - eexists. split; [reflexivity|]. simpl. by rewrite Hfs3.
Qed.

(** ** Strings *)

Lemma str_app_cons x a b : String x a +:+ b = String x (a +:+ b).
Proof. reflexivity. Qed.

Lemma str_app_assoc a b c : (a +:+ b) +:+ c = a +:+ (b +:+ c).
Proof. induction a as [|x a IH]; [done|]. rewrite !str_app_cons. by f_equal. Qed.

Lemma str_app_nil_r a : a +:+ "" = a.
Proof. induction a as [|x a IH]; [done|]. rewrite str_app_cons. by f_equal. Qed.

Lemma str_length_app a b : String.length (a +:+ b) = String.length a + String.length b.
Proof. induction a as [|x a IH]; [done|]. rewrite str_app_cons. simpl. by f_equal. Qed.

Lemma str_app_inv_tail a b c : a +:+ c = b +:+ c → a = b.
Proof.
  revert b. induction a as [|x a IH]; intros [|y b] H.
  - done.
  - apply (f_equal String.length) in H. rewrite !str_length_app in H. simpl in H. lia.
  - apply (f_equal String.length) in H. rewrite !str_length_app in H. simpl in H. lia.
  - rewrite !str_app_cons in H. injection H as -> H. f_equal. by apply IH.
Qed.

Lemma str_app_inv_head a b c : a +:+ b = a +:+ c → b = c.
Proof.
  induction a as [|x a IH]; [done|]. rewrite !str_app_cons. intros [= H]. by apply IH.
Qed.

Lemma endswith_nil sfx : Str.endswith "" sfx = String.eqb "" sfx || false.
Proof. reflexivity. Qed.

Lemma endswith_cons c s sfx :
  Str.endswith (String c s) sfx = String.eqb (String c s) sfx || Str.endswith s sfx.
Proof. reflexivity. Qed.

Lemma endswith_spec s sfx : Str.endswith s sfx = true ↔ ∃ p, s = p +:+ sfx.
Proof.
  split.
  - induction s as [|c s IH].
    + rewrite endswith_nil, orb_false_r. intros <-%String.eqb_eq. by exists "".
    + rewrite endswith_cons. intros [<-%String.eqb_eq | H]%orb_true_iff.
      * by exists "".
      * destruct (IH H) as [p ->]. by exists (String c p).
  - intros [p ->]. apply endswith_app.
Qed.

Lemma endswith_twice_inv text eol :
  Str.endswith (text +:+ eol) (eol +:+ eol) = true → Str.endswith text eol = true.
Proof.
  intros [p Hp]%endswith_spec. apply endswith_spec. exists p.
  rewrite <- str_app_assoc in Hp. by apply str_app_inv_tail in Hp.
Qed.

(** ** What a content render writes *)

Lemma render_file_template_rendered cfg jinja file output st st1 text :
  template_context cfg file output st = Done tt st1 →
  jinja (template_environment cfg file) (Path.basename file) (globals st1) (j2 st1)
    = Rendered text →
  render_file_template cfg jinja file output st
  = output_write output (text +:+ os_linesep cfg) st1.
Proof.
  intros Hctx Hj. unfold render_file_template.
  rewrite (bind_done _ _ _ _ _ Hctx).
  unfold bind, get_template_render. by rewrite Hj.
Qed.

(** ** One terminator is appended to every content render (C4) *)

Lemma keeps_stdout_bind {A B} (m : M A) (k : A → M B) :
  keeps_stdout m → (∀ a, keeps_stdout (k a)) → keeps_stdout (bind m k).
Proof.
  intros Hm Hk st. unfold bind. specialize (Hm st).
  destruct (m st) as [a st'| |]; simpl in *; [|done..].
  by rewrite Hk.
Qed.

Lemma keeps_stdout_template_context cfg file output :
  keeps_stdout (template_context cfg file output).
Proof.
  unfold template_context.
  repeat first
    [ apply keeps_stdout_bind; [|intros ?]
    | by intros st; rewrite DEBUG_run
    | by intros st; unfold j2_get; destruct (j2 st !! _)
    | by intros st; unfold j2_get_str; destruct (j2 st !! _) as [[]|]
    | by intros st; unfold str_join; destruct (strings_of _)
    | done ].
Qed.

(** C4 as amended. What a content render hands to the [write] of its output
    is the rendered text followed by one [os.linesep], nothing taken away:
    a text output such as [sys.stdout] receives exactly that, so what it
    receives ends with the terminator, and with no more than one when the
    rendered text does not end with it. *)
Theorem content_gets_one_terminator cfg jinja file output st st1 text :
  template_context cfg file output st = Done tt st1 →
  jinja (template_environment cfg file) (Path.basename file) (globals st1) (j2 st1)
    = Rendered text →
  render_file_template cfg jinja file output st
  = output_write output (text +:+ os_linesep cfg) st1
  ∧ (output = Stdout →
     ∃ st', render_file_template cfg jinja file output st = Done tt st'
            ∧ stdout st' = (stdout st ++ [text +:+ os_linesep cfg])%list
            ∧ fs st' = fs st)
  ∧ Str.endswith (text +:+ os_linesep cfg) (os_linesep cfg) = true
  ∧ (Str.endswith text (os_linesep cfg) = false →
     ends_with_one (os_linesep cfg) (text +:+ os_linesep cfg)).
Proof.
  intros Hctx Hj.
  pose proof (render_file_template_rendered _ _ _ _ _ _ _ Hctx Hj) as Hrun.
  split; [done|]. split; [|split].
  - intros ->. rewrite Hrun. eexists. split; [reflexivity|]. simpl.
    pose proof (keeps_stdout_template_context cfg file Stdout st) as Hout.
    pose proof (keeps_fs_template_context cfg file Stdout st) as Hfs.
    rewrite Hctx in Hout, Hfs. simpl in Hout, Hfs. by rewrite Hout, Hfs.
  - apply endswith_app.
  - intros Hno. split; [apply endswith_app|].
    destruct (Str.endswith (text +:+ os_linesep cfg) _) eqn:He; [|done].
    apply endswith_twice_inv in He. congruence.
Qed.

(** ** The destination name comes from the naming directive (C1) *)

Lemma render_file_name_rendered cfg jinja file st st1 name :
  name_context cfg file st = Done tt st1 →
  jinja (name_environment cfg file) (Path.basename file) (globals st1) (j2 st1)
    = Rendered name →
  render_file_name cfg jinja file st
  = Done name (add_stderr (debug_lines cfg 3
                 ("Resulting FILENAME template " +:+ file +:+ " is " +:+ name)) st1).
Proof.
  intros Hctx Hj. unfold render_file_name.
  rewrite (bind_done _ _ _ _ _ Hctx).
  unfold bind at 1, get_template_render. rewrite Hj.
  by rewrite (bind_done _ _ _ _ _ (DEBUG_run _ _ _ _)).
Qed.

Lemma write_item_run cfg jinja folder item fdest st :
  write_item cfg jinja folder item fdest st
  = match FS.open_wb (fs st) fdest with
    | Some f' => render_file_template cfg jinja (folder +:+ Path.sep +:+ item) (WbFile fdest)
                   (with_fs f' st)
    | None => Exit 1 (add_stderr ["j2: Command line error IOError: Can't open file "
                                    +:+ fdest +:+ " to render output to"
                                    +:+ os_linesep cfg] st)
    end.
Proof. unfold write_item, bind, get_fs. by destruct (FS.open_wb _ _). Qed.


(** ** The engine configuration of a naming directive (C6) *)

(** C6 as amended. A naming directive is rendered with a configuration of
    its own: the engine is consulted only at an environment whose first
    search directory is the directive's own directory, with trimming on
    whatever the invocation's trim mode, and with the invocation-wide newline
    sequence, the one every content render has. *)
Theorem naming_directive_environment cfg file :
  (∀ jinja1 jinja2,
      (∀ e g j,
          head (searchpath e) = Some (Path.dirname file) →
          trim_blocks e = true →
          newline_sequence e = j2_linesep cfg →
          jinja1 e (Path.basename file) g j = jinja2 e (Path.basename file) g j) →
      ∀ st, render_file_name cfg jinja1 file st = render_file_name cfg jinja2 file st)
  ∧ (∀ file', newline_sequence (template_environment cfg file') = j2_linesep cfg).
Proof.
  split; [|done].
  intros jinja1 jinja2 Hagree st. unfold render_file_name.
  apply bind_ext. intros _ st1.
  unfold bind, get_template_render.
  by rewrite (Hagree (name_environment cfg file) (globals st1) (j2 st1)).
Qed.

(** ** Induction on source trees *)

Lemma snode_ind (P : snode → Prop) :
  (∀ text, P (SFile text)) →
  (∀ items, Forall (λ entry, P entry.2) items → P (SDir items)) →
  P SLocked →
  P SMissing →
  ∀ node, P node.
Proof.
  intros Hfile Hdir Hlocked Hmissing. fix IH 1. intros [text|items| |].
  - apply Hfile.
  - apply Hdir. induction items as [|[item child] l IHl]; constructor.
    + apply IH.
    + apply IHl.
  - exact Hlocked.
  - exact Hmissing.
Qed.

(** ** A property of the parts is a property of the whole walk *)

Section Walk.

Variable cfg : Config.
Variable jinja :
  Environment → string → gmap string pyval → gmap string pyval → render_result.

Variable Q : ∀ A, M A → Prop.
Hypothesis Q_bind :
  ∀ A B (m : M A) (k : A → M B), Q A m → (∀ a, Q B (k a)) → Q B (bind m k).
Hypothesis Q_ret : ∀ A (a : A), Q A (ret a).
Hypothesis Q_raise : ∀ A e, Q A (raise e).
Hypothesis Q_DEBUG :
  ∀ level output, (1 ≤ level)%Z → Q unit (DEBUG cfg level output).
Hypothesis Q_prepare_dest : ∀ dest, Q unit (prepare_dest cfg dest).
Hypothesis Q_dest_path :
  ∀ folder dest item items, Q string (dest_path cfg jinja folder dest item items).
Hypothesis Q_write_item :
  ∀ folder item fdest, Q unit (write_item cfg jinja folder item fdest).

Lemma walk_folder_item recurse folder dest items entry :
  (∀ folder' dest', Q unit (recurse entry.2 folder' dest')) →
  Q unit (folder_item cfg jinja recurse folder dest items entry).
Proof.
  destruct entry as [item child]. simpl. intros Hrec. unfold folder_item.
  destruct (j2n_match item); [apply Q_ret|].
  destruct (isdir child).
  - unfold render_dir_item. apply Q_bind; [by apply Q_DEBUG | intros _].
    destruct (bool_decide _); [apply Q_ret|].
    apply Q_bind; [apply Q_dest_path | intros d; apply Hrec].
  - unfold render_file_item. apply Q_bind; [by apply Q_DEBUG | intros _].
    apply Q_bind; [apply Q_dest_path | intros d; apply Q_write_item].
Qed.

Lemma walk_folder_loop recurse folder dest items l :
  Forall (λ entry, ∀ folder' dest', Q unit (recurse entry.2 folder' dest')) l →
  Q unit (folder_loop cfg jinja recurse folder dest items l).
Proof.
  induction 1 as [|entry l Hentry _ IHl]; [apply Q_ret|].
  apply (Q_bind _ _ (folder_item cfg jinja recurse folder dest items entry)).
  - by apply walk_folder_item.
  - intros _. exact IHl.
Qed.

Lemma walk_render_folder_template node :
  ∀ folder dest, Q unit (render_folder_template cfg jinja node folder dest).
Proof.
  induction node as [text|items IH| |] using snode_ind; intros folder dest.
  2: { apply (Q_bind _ _ (DEBUG cfg 1 _)); [by apply Q_DEBUG | intros _].
       apply (Q_bind _ _ (prepare_dest cfg dest)); [apply Q_prepare_dest | intros _].
       by apply walk_folder_loop. }
  all: simpl; apply Q_bind; [by apply Q_DEBUG | intros _];
    apply Q_bind; [apply Q_prepare_dest | intros _; apply Q_raise].
Qed.

End Walk.

(** ** No procedure removes a node or changes its shape *)

Lemma never_shrinks_bind {A B} (m : M A) (k : A → M B) :
  never_shrinks m → (∀ a, never_shrinks (k a)) → never_shrinks (bind m k).
Proof.
  intros Hm Hk st. specialize (Hm st). unfold bind.
  destruct (m st) as [a st'| |]; simpl in *; [|done..].
  eapply le_shape_trans; [exact Hm | apply Hk].
Qed.

Lemma never_shrinks_keeps_fs {A} (m : M A) : keeps_fs m → never_shrinks m.
Proof. intros Hm st. rewrite Hm. apply le_shape_refl. Qed.

Lemma never_shrinks_prepare_dest cfg dest : never_shrinks (prepare_dest cfg dest).
Proof.
  intros st. rewrite prepare_dest_run.
  destruct (fs st !! dest) as [n|] eqn:Hd.
  - destruct (FS.access_W _ _); apply le_shape_refl.
  - destruct (FS.mkdir (fs st) dest) as [f'|] eqn:Hm; [|apply le_shape_refl].
    simpl. by eapply mkdir_le.
Qed.

Lemma never_shrinks_write_item cfg jinja folder item fdest :
  never_shrinks (write_item cfg jinja folder item fdest).
Proof.
  intros st. rewrite write_item_run.
  destruct (FS.open_wb (fs st) fdest) as [f'|] eqn:Hopen; [|apply le_shape_refl].
  rewrite (keeps_fs_render_file_template cfg jinja _ _ (with_fs f' st)).
  simpl. by eapply open_wb_le.
Qed.

Lemma never_shrinks_render_folder_template cfg jinja node folder dest :
  never_shrinks (render_folder_template cfg jinja node folder dest).
Proof.
  apply (walk_render_folder_template cfg jinja (@never_shrinks)).
  - intros A B m k. apply never_shrinks_bind.
  - intros A a st'. apply le_shape_refl.
  - intros A e st'. apply le_shape_refl.
  - intros level output _. apply never_shrinks_keeps_fs, keeps_fs_DEBUG.
  - apply never_shrinks_prepare_dest.
  - intros. apply never_shrinks_keeps_fs, keeps_fs_dest_path.
  - apply never_shrinks_write_item.
Qed.

(** ** Procedures related on two states *)

Section Related.

Context (R : state → state → Prop).

Lemma related_bind {A B} (m1 m2 : M A) (k1 k2 : A → M B) :
  related R m1 m2 → (∀ a, related R (k1 a) (k2 a)) →
  related R (bind m1 k1) (bind m2 k2).
Proof.
  intros Hm Hk s1 s2 Hs. specialize (Hm s1 s2 Hs). unfold bind.
  destruct (m1 s1) as [a s1'| |], (m2 s2) as [b s2'| |]; simpl in Hm; try done.
  destruct Hm as [<- Hs']. by apply Hk.
Qed.

Lemma related_ret {A} (a : A) : related R (ret a) (ret a).
Proof. intros s1 s2 Hs. by split. Qed.

Lemma related_exit {A} c : related R (@exit A c) (@exit A c).
Proof. intros s1 s2 Hs. by split. Qed.

Lemma related_raise {A} e : related R (@raise A e) (@raise A e).
Proof. intros s1 s2 Hs. by split. Qed.

(** The procedures that read the dictionaries and never the destination:
    they are related for every relation that keeps the dictionaries equal
    and does not look at [sys.stderr]. *)
Hypothesis R_ctx : ∀ s1 s2, R s1 s2 → same_ctx s1 s2.
Hypothesis R_update :
  ∀ s1 s2 e1 e2 j g,
    R s1 s2 →
    R (mkState (fs s1) (stdout s1) e1 j g) (mkState (fs s2) (stdout s2) e2 j g).

Lemma related_stderr_write s : related R (stderr_write s) (stderr_write s).
Proof.
  intros s1 s2 Hs. split; [done|]. destruct (R_ctx _ _ Hs) as [Hj Hg].
  rewrite Hj, Hg. by apply R_update.
Qed.

Lemma related_j2_set k v : related R (j2_set k v) (j2_set k v).
Proof.
  intros s1 s2 Hs. split; [done|]. destruct (R_ctx _ _ Hs) as [Hj Hg].
  rewrite Hj, Hg. by apply R_update.
Qed.

Lemma related_j2_get k : related R (j2_get k) (j2_get k).
Proof.
  intros s1 s2 Hs. unfold j2_get. destruct (R_ctx _ _ Hs) as [Hj Hg].
  rewrite Hj. by destruct (j2 s2 !! k).
Qed.

Lemma related_str_join sep vs : related R (str_join sep vs) (str_join sep vs).
Proof.
  unfold str_join. destruct (strings_of vs); [apply related_ret | apply related_raise].
Qed.

Lemma related_j2_get_str k : related R (j2_get_str k) (j2_get_str k).
Proof.
  intros s1 s2 Hs. unfold j2_get_str. destruct (R_ctx _ _ Hs) as [Hj Hg].
  rewrite Hj. by destruct (j2 s2 !! k) as [[]|].
Qed.

Lemma related_globals_update l : related R (globals_update l) (globals_update l).
Proof.
  intros s1 s2 Hs. split; [done|]. destruct (R_ctx _ _ Hs) as [Hj Hg].
  unfold globals_update. rewrite Hj, Hg. by apply R_update.
Qed.

Lemma related_get_template_render jinja e name :
  related R (get_template_render jinja e name) (get_template_render jinja e name).
Proof.
  intros s1 s2 Hs. unfold get_template_render. destruct (R_ctx _ _ Hs) as [Hj Hg].
  by rewrite Hj, Hg.
Qed.

Lemma related_DEBUG cfg level output :
  related R (DEBUG cfg level output) (DEBUG cfg level output).
Proof.
  unfold DEBUG. destruct (_ <=? _)%Z; [apply related_stderr_write | apply related_ret].
Qed.

Lemma related_name_context cfg file :
  related R (name_context cfg file) (name_context cfg file).
Proof.
  unfold name_context.
  apply related_bind; [apply related_DEBUG | intros _; apply related_globals_update].
Qed.

Lemma related_render_file_name cfg jinja file :
  related R (render_file_name cfg jinja file) (render_file_name cfg jinja file).
Proof.
  unfold render_file_name.
  apply related_bind; [apply related_name_context | intros _].
  apply related_bind; [apply related_get_template_render | intros r].
  destruct r.
  - apply related_bind; [apply related_DEBUG | intros _; apply related_ret].
  - apply related_bind; [apply related_stderr_write | intros _; apply related_exit].
  - apply related_bind; [apply related_stderr_write | intros _].
    apply related_bind; [apply related_stderr_write | intros _; apply related_exit].
  - apply related_raise.
Qed.

Lemma related_template_context cfg file output :
  related R (template_context cfg file output) (template_context cfg file output).
Proof.
  unfold template_context.
  repeat first
    [ apply related_bind; [|intros ?]
    | apply related_DEBUG | apply related_j2_set | apply related_j2_get_str
    | apply related_j2_get | apply related_str_join
    | apply related_globals_update ].
Qed.

Lemma related_dest_path cfg jinja folder dest item items :
  related R (dest_path cfg jinja folder dest item items)
    (dest_path cfg jinja folder dest item items).
Proof.
  unfold dest_path. destruct (has_entry _ _); [|apply related_ret].
  apply related_bind; [apply related_DEBUG | intros _].
  apply related_bind; [apply related_render_file_name | intros ?; apply related_ret].
Qed.

End Related.

Lemma same_ctx_update s1 s2 e1 e2 j g :
  same_ctx s1 s2 →
  same_ctx (mkState (fs s1) (stdout s1) e1 j g) (mkState (fs s2) (stdout s2) e2 j g).
Proof. done. Qed.

Lemma same_store_ctx s1 s2 : same_store s1 s2 → same_ctx s1 s2.
Proof. by intros (_ & _ & ? & ?). Qed.

Lemma same_store_update s1 s2 e1 e2 j g :
  same_store s1 s2 →
  same_store (mkState (fs s1) (stdout s1) e1 j g) (mkState (fs s2) (stdout s2) e2 j g).
Proof. by intros (? & ? & _ & _). Qed.

(** The procedures that touch the destination, on two states with the same
    destination. *)

Lemma store_DEBUG cfg level output :
  related same_store (DEBUG cfg level output) (DEBUG cfg level output).
Proof. apply related_DEBUG; [apply same_store_ctx | apply same_store_update]. Qed.

Lemma store_stderr_write s : related same_store (stderr_write s) (stderr_write s).
Proof. apply related_stderr_write; [apply same_store_ctx | apply same_store_update]. Qed.

Lemma store_dest_path cfg jinja folder dest item items :
  related same_store (dest_path cfg jinja folder dest item items)
    (dest_path cfg jinja folder dest item items).
Proof. apply related_dest_path; [apply same_store_ctx | apply same_store_update]. Qed.

Lemma store_get_fs : related same_store get_fs get_fs.
Proof. intros s1 s2 Hs. split; [apply Hs | done]. Qed.

Lemma store_set_fs f : related same_store (set_fs f) (set_fs f).
Proof. intros s1 s2 (Hf & Ho & Hj & Hg). by split. Qed.

Lemma store_output_write output data :
  related same_store (output_write output data) (output_write output data).
Proof.
  destruct output; [|apply related_raise].
  intros s1 s2 (Hf & Ho & Hj & Hg). split; [done|]. simpl.
  unfold same_store. simpl. by rewrite Ho.
Qed.

Lemma store_render_file_template cfg jinja file output :
  related same_store (render_file_template cfg jinja file output)
    (render_file_template cfg jinja file output).
Proof.
  unfold render_file_template.
  apply related_bind;
    [apply related_template_context; [apply same_store_ctx | apply same_store_update]
    | intros _].
  apply related_bind;
    [apply related_get_template_render; apply same_store_ctx | intros r].
  destruct r.
  - apply store_output_write.
  - apply related_bind; [apply store_stderr_write | intros _; apply related_exit].
  - apply related_bind; [apply store_stderr_write | intros _].
    apply related_bind; [apply store_stderr_write | intros _; apply related_exit].
  - apply related_raise.
Qed.

Lemma store_prepare_dest cfg dest :
  related same_store (prepare_dest cfg dest) (prepare_dest cfg dest).
Proof.
  unfold prepare_dest.
  apply related_bind; [apply store_get_fs | intros f].
  apply related_bind.
  - destruct (negb _); [|apply related_ret].
    destruct (FS.mkdir f dest); [apply store_set_fs|].
    apply related_bind; [apply store_stderr_write | intros _; apply related_exit].
  - intros _. apply related_bind; [apply store_get_fs | intros f'].
    destruct (negb _); [|apply related_ret].
    apply related_bind; [apply store_stderr_write | intros _; apply related_exit].
Qed.

Lemma store_write_item cfg jinja folder item fdest :
  related same_store (write_item cfg jinja folder item fdest)
    (write_item cfg jinja folder item fdest).
Proof.
  unfold write_item.
  apply related_bind; [apply store_get_fs | intros f].
  destruct (FS.open_wb f fdest).
  - apply related_bind; [apply store_set_fs | intros _].
    apply store_render_file_template.
  - apply related_bind; [apply store_stderr_write | intros _; apply related_exit].
Qed.

Lemma store_render_file_item cfg jinja folder dest item items :
  related same_store (render_file_item cfg jinja folder dest item items)
    (render_file_item cfg jinja folder dest item items).
Proof.
  unfold render_file_item.
  apply related_bind; [apply store_DEBUG | intros _].
  apply related_bind; [apply store_dest_path | intros ?; apply store_write_item].
Qed.

(** ** Ignored directories (C3) *)

Lemma same_store_refl s : same_store s s.
Proof. by repeat split. Qed.

Lemma same_store_trans s1 s2 s3 : same_store s1 s2 → same_store s2 s3 → same_store s1 s3.
Proof. intros (?&?&?&?) (?&?&?&?). repeat split; congruence. Qed.

Lemma same_store_add_stderr lines s : same_store s (add_stderr lines s).
Proof. by repeat split. Qed.

Lemma ignoredirs_cases item :
  item ∈ ignoredirs → item = ".git" ∨ item = ".hg" ∨ item = ".svn".
Proof.
  unfold ignoredirs. rewrite !elem_of_union, !elem_of_singleton. tauto.
Qed.

Lemma ignored_not_j2n item : item ∈ ignoredirs → j2n_match item = false.
Proof. intros [->|[->| ->]]%ignoredirs_cases; reflexivity. Qed.

Lemma j2n_name_not_ignored item : item +:+ ".j2n" ∉ ignoredirs.
Proof.
  intros H%ignoredirs_cases.
  assert (Hlen : String.length (item +:+ ".j2n") = String.length item + 4)
    by apply str_length_app.
  destruct H as [H|[H|H]]; rewrite H in Hlen; simpl in Hlen.
  - destruct item; [discriminate H | simpl in Hlen; lia].
  - lia.
  - destruct item; [discriminate H | simpl in Hlen; lia].
Qed.

Lemma isdir_prune node : isdir (prune node) = isdir node.
Proof. by destruct node. Qed.

Lemma exists_node_prune node : exists_node (prune node) = exists_node node.
Proof. by destruct node. Qed.

Lemma ignored_dir_prune item child :
  ignored_dir (item, prune child) = ignored_dir (item, child).
Proof. unfold ignored_dir. simpl. by rewrite isdir_prune. Qed.

Lemma prune_items_cons item child l :
  List.filter (λ entry, negb (ignored_dir entry))
    (map (λ entry, (entry.1, prune entry.2)) ((item, child) :: l))
  = if ignored_dir (item, child)
    then List.filter (λ entry, negb (ignored_dir entry))
           (map (λ entry, (entry.1, prune entry.2)) l)
    else (item, prune child)
           :: List.filter (λ entry, negb (ignored_dir entry))
                (map (λ entry, (entry.1, prune entry.2)) l).
Proof. simpl. rewrite ignored_dir_prune. by destruct (ignored_dir _). Qed.

Lemma has_entry_prune name items :
  name ∉ ignoredirs →
  has_entry name
    (List.filter (λ entry, negb (ignored_dir entry))
       (map (λ entry, (entry.1, prune entry.2)) items))
  = has_entry name items.
Proof.
  intros Hname. unfold has_entry.
  induction items as [|[item child] l IH]; [done|].
  rewrite prune_items_cons.
  destruct (ignored_dir (item, child)) eqn:Hign; simpl.
  - rewrite IH.
    apply andb_true_iff in Hign as [_ Hin%bool_decide_eq_true]. simpl in Hin.
    destruct (String.eqb_spec name item) as [->|]; [done | reflexivity].
  - by rewrite IH, exists_node_prune.
Qed.

Lemma has_ignored_dir_prune node : has_ignored_dir (prune node) = false.
Proof.
  induction node as [text|items IH| |] using snode_ind; [done| |done|done].
  simpl. induction IH as [|[item child] l Hchild _ IHl]; [done|].
  rewrite prune_items_cons.
  destruct (ignored_dir (item, child)) eqn:Hign; [exact IHl|].
  simpl. rewrite ignored_dir_prune, Hign. simpl in Hchild. rewrite Hchild. exact IHl.
Qed.

Lemma related_skip_r {A} (m1 m2 : M A) (m : M unit) :
  (∀ s, ∃ s', m s = Done tt s' ∧ same_store s s') →
  related same_store m1 m2 →
  related same_store m1 (bind m (λ _, m2)).
Proof.
  intros Hm H12 s1 s2 Hs. destruct (Hm s2) as (s2' & Hrun & Hs2).
  rewrite (bind_done _ _ _ _ _ Hrun). apply H12. by eapply same_store_trans.
Qed.

Section Prune.

Variable cfg : Config.
Variable jinja :
  Environment → string → gmap string pyval → gmap string pyval → render_result.

Lemma ignored_entry_silent recurse folder dest items item child :
  ignored_dir (item, child) = true →
  ∀ s, ∃ s', folder_item cfg jinja recurse folder dest items (item, child) s = Done tt s'
             ∧ same_store s s'.
Proof.
  intros [Hdir Hin%bool_decide_eq_true]%andb_true_iff s. simpl in Hdir, Hin.
  unfold folder_item. rewrite (ignored_not_j2n _ Hin), Hdir.
  unfold render_dir_item. rewrite (bind_done _ _ _ _ _ (DEBUG_run _ _ _ _)).
  rewrite bool_decide_eq_true_2 by done.
  eexists. split; [reflexivity | apply same_store_add_stderr].
Qed.

Lemma folder_item_prune recurse1 recurse2 folder dest items item child :
  (∀ folder' dest', related same_store (recurse1 (prune child) folder' dest')
                      (recurse2 child folder' dest')) →
  related same_store
    (folder_item cfg jinja recurse1 folder dest
       (List.filter (λ entry, negb (ignored_dir entry))
          (map (λ entry, (entry.1, prune entry.2)) items))
       (item, prune child))
    (folder_item cfg jinja recurse2 folder dest items (item, child)).
Proof.
  intros Hrec. unfold folder_item. rewrite isdir_prune.
  destruct (j2n_match item); [apply related_ret|].
  destruct (isdir child).
  - unfold render_dir_item.
    apply related_bind; [apply store_DEBUG | intros _].
    destruct (bool_decide _); [apply related_ret|].
    unfold dest_path. rewrite has_entry_prune by apply j2n_name_not_ignored.
    fold (dest_path cfg jinja folder dest item items).
    apply related_bind; [apply store_dest_path | intros d; apply Hrec].
  - unfold render_file_item, dest_path.
    rewrite has_entry_prune by apply j2n_name_not_ignored.
    apply store_render_file_item.
Qed.

Lemma folder_loop_prune recurse1 recurse2 folder dest items l :
  Forall (λ entry, ∀ folder' dest',
            related same_store (recurse1 (prune entry.2) folder' dest')
              (recurse2 entry.2 folder' dest')) l →
  related same_store
    (folder_loop cfg jinja recurse1 folder dest
       (List.filter (λ entry, negb (ignored_dir entry))
          (map (λ entry, (entry.1, prune entry.2)) items))
       (List.filter (λ entry, negb (ignored_dir entry))
          (map (λ entry, (entry.1, prune entry.2)) l)))
    (folder_loop cfg jinja recurse2 folder dest items l).
Proof.
  induction 1 as [|[item child] l Hchild _ IHl]; [apply related_ret|].
  rewrite prune_items_cons.
  destruct (ignored_dir (item, child)) eqn:Hign.
  - apply (related_skip_r _ (folder_loop cfg jinja recurse2 folder dest items l)
             (folder_item cfg jinja recurse2 folder dest items (item, child)));
      [by apply ignored_entry_silent | exact IHl].
  - apply (related_bind same_store
             (folder_item cfg jinja recurse1 folder dest _ (item, prune child))
             (folder_item cfg jinja recurse2 folder dest items (item, child))).
    + apply folder_item_prune. exact Hchild.
    + intros _. exact IHl.
Qed.

Lemma render_folder_template_prune node :
  ∀ folder dest,
    related same_store (render_folder_template cfg jinja (prune node) folder dest)
      (render_folder_template cfg jinja node folder dest).
Proof.
  induction node as [text|items IH| |] using snode_ind; intros folder dest.
  1, 3, 4:
    simpl;
    (apply related_bind; [apply store_DEBUG | intros _]);
    (apply related_bind; [apply store_prepare_dest | intros _; apply related_raise]).
  change (related same_store
              (bind (DEBUG cfg 1 ("Processing FOLDER template " +:+ Str.dq +:+ folder +:+ Str.dq
                                    +:+ " to location " +:+ Str.dq +:+ dest +:+ Str.dq))
                 (λ _, bind (prepare_dest cfg dest)
                    (λ _, folder_loop cfg jinja (render_folder_template cfg jinja) folder dest
                            (List.filter (λ entry, negb (ignored_dir entry))
                               (map (λ entry, (entry.1, prune entry.2)) items))
                            (List.filter (λ entry, negb (ignored_dir entry))
                               (map (λ entry, (entry.1, prune entry.2)) items)))))
              (bind (DEBUG cfg 1 ("Processing FOLDER template " +:+ Str.dq +:+ folder +:+ Str.dq
                                    +:+ " to location " +:+ Str.dq +:+ dest +:+ Str.dq))
                 (λ _, bind (prepare_dest cfg dest)
                    (λ _, folder_loop cfg jinja (render_folder_template cfg jinja) folder dest
                            items items)))).
    apply related_bind; [apply store_DEBUG | intros _].
    apply related_bind; [apply store_prepare_dest | intros _].
    by apply folder_loop_prune.
Qed.

End Prune.

(** C3 as amended. A source directory named in [ignoredirs] is passed over
    wherever it lies: its turn of the loop returns at once, the file system,
    the output and the dictionaries being as they were, so that no directory
    is made for it and nothing below it is looked at; and a run on the source
    tree and a run on the tree without these directories and what they
    contain end the same way, with the same destination and the same
    dictionaries (only [DEBUG] lines can differ). *)
Theorem ignored_directories_never_rendered cfg jinja node folder dest st :
  has_ignored_dir (prune node) = false
  ∧ same_out same_store
      (render_folder_template cfg jinja (prune node) folder dest st)
      (render_folder_template cfg jinja node folder dest st)
  ∧ (∀ items item sub,
       item ∈ ignoredirs →
       iterate_entry cfg jinja folder dest items (item, SDir sub) st
       = Done tt (add_stderr
                    (debug_lines cfg 2
                       ("  folder item " +:+ Str.dq +:+ item +:+ Str.dq +:+ " is folder"))
                    st)).
Proof.
  split; [apply has_ignored_dir_prune|].
  split; [apply render_folder_template_prune, same_store_refl|].
  intros items item sub Hin.
  unfold iterate_entry, folder_item. rewrite (ignored_not_j2n _ Hin). simpl.
  unfold render_dir_item. rewrite (bind_done _ _ _ _ _ (DEBUG_run _ _ _ _)).
  by rewrite bool_decide_eq_true_2.
Qed.

(** ** Running the renderer again (C9) *)

Lemma with_fs_id st : with_fs (fs st) st = st.
Proof. by destruct st. Qed.

Lemma with_fs_with_fs f g st : with_fs f (with_fs g st) = with_fs f st.
Proof. done. Qed.

(** A content render into a handle opened with ['wb'] never returns: when
    the engine has rendered the text, [write] raises [TypeError]. *)
Lemma render_file_template_wb cfg jinja file path st x st' :
  render_file_template cfg jinja file (WbFile path) st ≠ Done x st'.
Proof.
  unfold render_file_template. intros ([] & st1 & _ & Hk)%bind_done_inv.
  apply bind_done_inv in Hk as (r & st2 & _ & Hk).
  destruct r; [done|..]; unfold bind, stderr_write, exit in Hk; done.
Qed.

Lemma write_item_not_done cfg jinja folder item fdest st x st' :
  write_item cfg jinja folder item fdest st ≠ Done x st'.
Proof.
  rewrite write_item_run. destruct (FS.open_wb _ _); [|done].
  apply render_file_template_wb.
Qed.

Lemma open_wb_again f p f' : FS.open_wb f p = Some f' → FS.open_wb f' p = Some f'.
Proof.
  intros Hop. pose proof (open_wb_le _ _ _ Hop) as Hle.
  apply open_wb_inv in Hop as (k & Hres & _ & ->).
  unfold FS.open_wb. rewrite (resolve_le _ _ _ _ Hle Hres). simpl.
  rewrite lookup_insert_eq. unfold FS.put. simpl. by rewrite insert_insert_eq.
Qed.

Lemma replays_bind {A B} (m : M A) (k : A → M B) :
  replays m → (∀ a, replays (k a)) → (∀ a, never_shrinks (k a)) → replays (bind m k).
Proof.
  intros Hm Hk Hns F sa. specialize (Hm F sa). unfold bind.
  destruct (m sa) as [x sa'|c sa'|e sa'] eqn:Hrun.
  - specialize (Hk x F sa'). specialize (Hns x sa').
    destruct (k x sa') as [y sa''|c sa''|e sa''] eqn:Hrun'; simpl in Hns.
    + intros Hle. rewrite Hm by (by eapply le_shape_trans). by apply Hk.
    + intros ->. rewrite Hm by done. by apply Hk.
    + intros ->. rewrite Hm by done. by apply Hk.
  - intros HF. by rewrite (Hm HF).
  - intros HF. by rewrite (Hm HF).
Qed.

(** The procedures that neither read nor write the file system. *)
Ltac replays_blind :=
  let F := fresh "F" in
  let sa := fresh "sa" in
  intros F sa; destruct sa; simpl;
  repeat match goal with
         | |- context [match ?x with _ => _ end] => destruct x; simpl
         end;
  try (intros ?; subst; simpl); done.

Lemma replays_ret {A} (a : A) : replays (ret a).
Proof. replays_blind. Qed.

Lemma replays_exit {A} c : replays (@exit A c).
Proof. replays_blind. Qed.

Lemma replays_raise {A} e : replays (@raise A e).
Proof. replays_blind. Qed.

Lemma replays_stderr_write s : replays (stderr_write s).
Proof. replays_blind. Qed.

Lemma replays_j2_set k v : replays (j2_set k v).
Proof. replays_blind. Qed.

Lemma replays_j2_get k : replays (j2_get k).
Proof.
  intros F sa. unfold j2_get. simpl.
  destruct (j2 sa !! k); [done|]. intros ->. by rewrite with_fs_id.
Qed.

Lemma replays_j2_get_str k : replays (j2_get_str k).
Proof.
  intros F sa. unfold j2_get_str. simpl.
  destruct (j2 sa !! k) as [[]|]; try done; intros ->; by rewrite with_fs_id.
Qed.

Lemma replays_str_join sep vs : replays (str_join sep vs).
Proof. unfold str_join. destruct (strings_of vs); replays_blind. Qed.

Lemma replays_globals_update l : replays (globals_update l).
Proof. replays_blind. Qed.

Lemma replays_get_template_render jinja e name : replays (get_template_render jinja e name).
Proof. replays_blind. Qed.

Lemma replays_output_write output data : replays (output_write output data).
Proof. destruct output; replays_blind. Qed.

Lemma replays_DEBUG cfg level output : replays (DEBUG cfg level output).
Proof. unfold DEBUG. destruct (_ <=? _)%Z; replays_blind. Qed.

(** Replaying goes with never shrinking: both pass through [bind]. *)
Lemma rerun_bind {A B} (m : M A) (k : A → M B) :
  replays m ∧ never_shrinks m →
  (∀ a, replays (k a) ∧ never_shrinks (k a)) →
  replays (bind m k) ∧ never_shrinks (bind m k).
Proof.
  intros [Hm Hm'] Hk. split.
  - apply replays_bind; [done | apply Hk..].
  - apply never_shrinks_bind; [done | apply Hk].
Qed.

Lemma rerun_blind {A} (m : M A) :
  replays m → keeps_fs m → replays m ∧ never_shrinks m.
Proof. intros Hm Hk. split; [done | by apply never_shrinks_keeps_fs]. Qed.

Ltac rerun_tac :=
  repeat first
    [ apply rerun_bind; [|intros ?]
    | apply rerun_blind;
      [ first [ apply replays_ret | apply replays_exit | apply replays_raise
              | apply replays_stderr_write | apply replays_j2_set | apply replays_j2_get
              | apply replays_j2_get_str | apply replays_str_join
              | apply replays_globals_update | apply replays_get_template_render
              | apply replays_output_write | apply replays_DEBUG ]
      | auto with keeps_fs ]
    | match goal with
      | |- replays (match ?r with _ => _ end) ∧ _ => destruct r
      | |- replays (if ?b then _ else _) ∧ _ => destruct b
      end ].

Section Rerun.

Variable cfg : Config.
Variable jinja :
  Environment → string → gmap string pyval → gmap string pyval → render_result.

Lemma rerun_name_context file :
  replays (name_context cfg file) ∧ never_shrinks (name_context cfg file).
Proof. unfold name_context. rerun_tac. Qed.

Lemma rerun_render_file_name file :
  replays (render_file_name cfg jinja file) ∧ never_shrinks (render_file_name cfg jinja file).
Proof.
  unfold render_file_name.
  apply rerun_bind; [apply rerun_name_context | intros _]. rerun_tac.
Qed.

Lemma rerun_dest_path folder dest item items :
  replays (dest_path cfg jinja folder dest item items)
  ∧ never_shrinks (dest_path cfg jinja folder dest item items).
Proof.
  unfold dest_path. destruct (has_entry _ _); [|rerun_tac].
  apply rerun_bind; [rerun_tac | intros _].
  apply rerun_bind; [apply rerun_render_file_name | intros ?; rerun_tac].
Qed.

Lemma rerun_template_context file output :
  replays (template_context cfg file output)
  ∧ never_shrinks (template_context cfg file output).
Proof. unfold template_context. rerun_tac. Qed.

Lemma rerun_render_file_template file output :
  replays (render_file_template cfg jinja file output)
  ∧ never_shrinks (render_file_template cfg jinja file output).
Proof.
  unfold render_file_template.
  apply rerun_bind; [apply rerun_template_context | intros _]. rerun_tac.
Qed.

Lemma access_W_le a b p n :
  le_shape a b → a !! p = Some n → FS.access_W b p = FS.access_W a p.
Proof.
  intros Hab Hp. destruct (lookup_le _ _ _ _ Hab Hp) as (n' & Hp' & Hs).
  unfold FS.access_W.
  change (FS.lookup b p) with (b !! p). change (FS.lookup a p) with (a !! p).
  rewrite Hp, Hp'. destruct n, n'; simpl in Hs; congruence.
Qed.

Lemma replays_prepare_dest dest : replays (prepare_dest cfg dest).
Proof.
  intros F sa. rewrite !prepare_dest_run. simpl.
  destruct (fs sa !! dest) as [n|] eqn:Hd.
  - destruct (FS.access_W (fs sa) dest) eqn:Hw.
    + intros Hle. destruct (lookup_le _ _ _ _ Hle Hd) as (n' & -> & _).
      by rewrite (access_W_le _ _ _ _ Hle Hd), Hw.
    + simpl. intros ->. by rewrite Hd, Hw, with_fs_id.
  - destruct (FS.mkdir (fs sa) dest) as [f'|] eqn:Hmk; simpl.
    + intros Hle. pose proof (mkdir_lookup _ _ _ Hmk) as Hd'.
      destruct (lookup_le _ _ _ _ Hle Hd') as (n' & -> & _).
      rewrite (access_W_le _ _ _ _ Hle Hd'). unfold FS.access_W.
      change (FS.lookup f' dest) with (f' !! dest). by rewrite Hd'.
    + intros ->. by rewrite Hd, Hmk, with_fs_id.
Qed.

Lemma replays_write_item folder item fdest :
  replays (write_item cfg jinja folder item fdest).
Proof.
  intros F sa.
  assert (Hend : ∀ o, write_item cfg jinja folder item fdest sa = o →
                      F = fs (final o) →
                      write_item cfg jinja folder item fdest (with_fs F sa) = o).
  { intros o Hrun ->. rewrite write_item_run in Hrun. rewrite write_item_run. simpl.
    destruct (FS.open_wb (fs sa) fdest) as [f'|] eqn:Hopen.
    - pose proof (keeps_fs_render_file_template cfg jinja (folder +:+ Path.sep +:+ item)
                    (WbFile fdest) (with_fs f' sa)) as Hfs.
      rewrite Hrun in Hfs. simpl in Hfs. rewrite Hfs.
      by rewrite (open_wb_again _ _ _ Hopen), with_fs_with_fs.
    - subst o. simpl. by rewrite Hopen, with_fs_id. }
  destruct (write_item cfg jinja folder item fdest sa) as [x sa'|c sa'|e sa'] eqn:Hrun.
  - by apply write_item_not_done in Hrun.
  - intros HF. by apply Hend.
  - intros HF. by apply Hend.
Qed.

End Rerun.

(** C9. Rendering the folder again, on the file system the first run left
    and with the dictionaries and streams the first run started with, ends as
    the first run ended, in the very same state: the destination is byte for
    byte the one the first run produced. *)
Theorem rerun_reproduces_destination cfg jinja node folder dest st :
  let first := render_folder_template cfg jinja node folder dest st in
  render_folder_template cfg jinja node folder dest (with_fs (fs (final first)) st) = first.
Proof.
  intros first.
  assert (Hq : replays (render_folder_template cfg jinja node folder dest)
               ∧ never_shrinks (render_folder_template cfg jinja node folder dest)).
  { apply (walk_render_folder_template cfg jinja (λ A m, replays m ∧ never_shrinks m)).
    - intros A B m k. apply rerun_bind.
    - intros A a. rerun_tac.
    - intros A e. rerun_tac.
    - intros level output _. rerun_tac.
    - intros d. split; [apply replays_prepare_dest | apply never_shrinks_prepare_dest].
    - apply rerun_dest_path.
    - intros f i d. split; [apply replays_write_item | apply never_shrinks_write_item]. }
  destruct Hq as [Hq _]. specialize (Hq (fs (final first)) st). fold first in Hq.
  destruct first as [x s'|c s'|e s']; simpl in *.
  - rewrite Hq by apply le_shape_refl. by rewrite with_fs_id.
  - by apply Hq.
  - by apply Hq.
Qed.

(** * The properties on concrete folders *)

Lemma naming_directive_skipped_witness :
  has_j2n_suffix "Item.txt.J2N"
  ∧ iterate_entry Ex.cfg Ex.always_widget "/src" "/dst"
      [("Item.txt.J2N", SFile "widget")] ("Item.txt.J2N", SFile "widget") Ex.st_dst
    = Done tt Ex.st_dst.
Proof.
  assert (H : has_j2n_suffix "Item.txt.J2N") by (exists "Item.txt", ".J2N"; split; reflexivity).
  split; [exact H|].
  exact (proj1 (naming_directive_skipped Ex.cfg Ex.always_widget "/src" "/dst"
                  [("Item.txt.J2N", SFile "widget")] "Item.txt.J2N" (SFile "widget") []
                  Ex.st_dst H)).
Defined.


Lemma destination_opened_before_render_witness :
  ∃ st4,
    iterate_entry Ex.cfg (Toy.engine (Toy.files_of Ex.broken "/src")) "/src" "/dst"
      [("bad.txt", SFile "{{}}")] ("bad.txt", SFile "{{}}") Ex.st_dst = Exit 1 st4
    ∧ fs st4 !! "/dst/bad.txt" = Some (FFile true "").
Proof.
  edestruct (destination_opened_before_render Ex.cfg
               (Toy.engine (Toy.files_of Ex.broken "/src")) "/src" "/dst"
               [("bad.txt", SFile "{{}}")] "bad.txt" "{{}}" Ex.st_dst)
    as (st4 & Hexit & _ & Hfile).
  - reflexivity.
  - vm_compute. reflexivity.
  - vm_compute. reflexivity.
  - vm_compute. reflexivity.
  - right. eexists _, _, _. vm_compute. reflexivity.
  - exists st4. split; [exact Hexit | exact Hfile].
Defined.

(** The content template [x], an empty line: in the folder run the file is
    created and left empty, the [write] raising [TypeError]; on [sys.stdout]
    Jinja2's [x] and one newline is written with a second one. *)
Lemma content_without_one_terminator :
  let jinja := Toy.engine (Toy.files_of Ex.blank_line "/src") in
  (∃ st',
      render_folder_template Ex.cfg jinja Ex.blank_line "/src" "/dst" Ex.st_dst
      = Uncaught "TypeError" st'
      ∧ fs st' !! "/dst/a.txt" = Some (FFile true "")
      ∧ ¬ ends_with_one (os_linesep Ex.cfg) "")
  ∧ (∃ st',
      render_file_template Ex.cfg jinja "/src/a.txt" Stdout Ex.st_dst = Done tt st'
      ∧ stdout st' = ["x" +:+ Str.nl +:+ Str.nl]
      ∧ ¬ ends_with_one (os_linesep Ex.cfg) ("x" +:+ Str.nl +:+ Str.nl)).
Proof.
  intros jinja. split.
  - eexists. split; [vm_compute; reflexivity|].
    split; [vm_compute; reflexivity|].
    intros [H _]. vm_compute in H. discriminate H.
  - eexists. split; [vm_compute; reflexivity|].
    split; [vm_compute; reflexivity|].
    intros [_ H]. vm_compute in H. discriminate H.
Qed.

Lemma content_gets_one_terminator_witness :
  let jinja := Toy.engine (Toy.files_of Ex.renamed "/src") in
  (∃ st',
      render_file_template Ex.cfg jinja "/src/item.txt" Stdout Ex.st_dst = Done tt st'
      ∧ stdout st' = (stdout Ex.st_dst ++ ["hello" +:+ os_linesep Ex.cfg])%list
      ∧ fs st' = fs Ex.st_dst)
  ∧ ends_with_one (os_linesep Ex.cfg) ("hello" +:+ os_linesep Ex.cfg).
Proof.
  intros jinja.
  edestruct (content_gets_one_terminator Ex.cfg jinja "/src/item.txt" Stdout Ex.st_dst)
    as (_ & Hout & _ & Hone).
  - vm_compute. reflexivity.
  - vm_compute. reflexivity.
  - split; [by apply Hout|]. apply Hone. vm_compute. reflexivity.
Defined.



(** With [-P /inc -t 0] the directive is still rendered from its own
    directory alone and with trimming on. *)
Lemma naming_directive_ignores_path_and_trim :
  let f := "/src/item.txt.j2n" in
  searchpath (name_environment Ex.cfg_path f) ≠ Path.dirname f :: TEMPLATEPATH Ex.cfg_path
  ∧ trim_blocks (name_environment Ex.cfg_path f) ≠ (TRIM Ex.cfg_path =? 1)%Z
  ∧ (∃ st', render_file_name Ex.cfg_path Ex.probe f Ex.st_dst = Done "/src trim" st')
  ∧ Ex.probe (template_environment Ex.cfg_path f) (Path.basename f) ∅ ∅
    = Rendered "/src:/inc keep".
Proof.
  intros f. split; [vm_compute; discriminate|].
  split; [vm_compute; discriminate|].
  split; [eexists; vm_compute; reflexivity | vm_compute; reflexivity].
Qed.

Lemma naming_directive_environment_witness :
  render_file_name Ex.cfg_path Ex.trim_only "/src/item.txt.j2n" Ex.st_dst
  = render_file_name Ex.cfg_path Ex.always_widget "/src/item.txt.j2n" Ex.st_dst.
Proof.
  apply (proj1 (naming_directive_environment Ex.cfg_path "/src/item.txt.j2n")
           Ex.trim_only Ex.always_widget).
  intros e g j _ Htrim _. unfold Ex.trim_only, Ex.always_widget. by rewrite Htrim.
Defined.

(** C2. On the folder [plain] (a file, a folder with a file, a [.git]
    folder and a stray [.J2N] file) the run ends at its first entry: the
    destination of [note.txt] is created and left empty, [write] raises
    [TypeError], and [docs] is never reached. *)
Theorem tree_run_stops_at_first_file :
  let jinja := Toy.engine (Toy.files_of Ex.plain "/src") in
  ∃ st',
    render_folder_template Ex.cfg jinja Ex.plain "/src" "/dst" Ex.st_dst
    = Uncaught "TypeError" st'
    ∧ fs st' !! "/dst/note.txt" = Some (FFile true "")
    ∧ fs st' !! "/dst/docs" = None
    ∧ fs st' !! "/dst/docs/a.md" = None.
Proof.
  intros jinja. eexists. split; [vm_compute; reflexivity|].
  repeat split; vm_compute; reflexivity.
Qed.

Lemma ignored_directories_never_rendered_witness :
  ".git" ∈ ignoredirs
  ∧ iterate_entry Ex.cfg (Toy.engine (Toy.files_of Ex.plain "/src")) "/src" "/dst"
      [("note.txt", SFile ("hi" +:+ Str.nl)); (".git", SDir [("config", SFile "x")])]
      (".git", SDir [("config", SFile "x")]) Ex.st_dst
    = Done tt (add_stderr [] Ex.st_dst).
Proof.
  assert (H : ".git" ∈ ignoredirs) by (apply (bool_decide_unpack _); vm_compute; exact I).
  split; [exact H|].
  exact (proj2 (proj2 (ignored_directories_never_rendered Ex.cfg
                         (Toy.engine (Toy.files_of Ex.plain "/src")) Ex.plain
                         "/src" "/dst" Ex.st_dst))
           [("note.txt", SFile ("hi" +:+ Str.nl)); (".git", SDir [("config", SFile "x")])]
           ".git" [("config", SFile "x")] H).
Defined.

(** The folder [pkg] with a directive that renders to [.git]: the
    destination gets a directory of that name. *)
Lemma directive_creates_ignored_name :
  let jinja := Toy.engine (Toy.files_of Ex.vcs_named "/src") in
  ∃ st',
    render_folder_template Ex.cfg jinja Ex.vcs_named "/src" "/dst" Ex.st_dst = Done tt st'
    ∧ ".git" ∈ ignoredirs
    ∧ fs Ex.st_dst !! "/dst/.git" = None
    ∧ fs st' !! "/dst/.git" = Some (FDir true).
Proof.
  intros jinja. eexists. split; [vm_compute; reflexivity|].
  split; [apply (bool_decide_unpack _); vm_compute; exact I|].
  split; vm_compute; reflexivity.
Qed.

(** The folder [pkg] with a directive that renders to [../escaped]: the
    directory is made beside the destination, not below it. *)
Lemma directive_can_leave_dest :
  let jinja := Toy.engine (Toy.files_of Ex.escaping "/src") in
  ∃ st',
    render_folder_template Ex.cfg jinja Ex.escaping "/src" "/dst" Ex.st_open = Done tt st'
    ∧ plain_name "../escaped" = false
    ∧ fs Ex.st_open !! "/escaped" = None
    ∧ fs st' !! "/escaped" = Some (FDir true)
    ∧ fs st' !! "/dst/pkg" = None.
Proof.
  intros jinja. eexists. split; [vm_compute; reflexivity|].
  repeat split; vm_compute; reflexivity.
Qed.


(** * More properties of the rendering procedures *)

(** ** No run removes a node or changes what kind of node it is *)

(** X1. However a run of [render_folder_template] ends (return, [exit(1)]
    or an exception), every node the file system had is still there, with the
    same kind (file or directory) and the same permission: nothing is removed
    and no directory is replaced by a file or the reverse. *)
Theorem run_never_removes cfg jinja node folder dest st :
  le_shape (fs st) (fs (final (render_folder_template cfg jinja node folder dest st))).
Proof.
  pose proof (never_shrinks_render_folder_template cfg jinja node folder dest) as Hrun.
  exact (Hrun st).
Qed.

(** ** The exit status *)

Lemma exits_with_1_bind {A B} (m : M A) (k : A → M B) :
  exits_with_1 m → (∀ a, exits_with_1 (k a)) → exits_with_1 (bind m k).
Proof.
  intros Hm Hk st c st'. unfold bind.
  destruct (m st) as [a st1|c1 st1|] eqn:Hrun; [apply Hk | | done].
  intros [= <- <-]. by eapply Hm.
Qed.

Lemma exits_with_1_never {A} (m : M A) :
  (∀ st c st', m st ≠ Exit c st') → exits_with_1 m.
Proof. intros Hm st c st' Hrun. by destruct (Hm st c st'). Qed.

Lemma exits_with_1_report {A} s : exits_with_1 (bind (stderr_write s) (λ _, @exit A 1)).
Proof. intros st c st'. unfold bind, stderr_write, exit. by intros [= <- _]. Qed.

Lemma exits_with_1_report2 {A} s1 s2 :
  exits_with_1 (bind (stderr_write s1) (λ _, bind (stderr_write s2) (λ _, @exit A 1))).
Proof. intros st c st'. unfold bind, stderr_write, exit. by intros [= <- _]. Qed.

Lemma DEBUG_never_exits cfg level output st c st' : DEBUG cfg level output st ≠ Exit c st'.
Proof. by rewrite DEBUG_run. Qed.

Lemma j2_get_str_never_exits k st c st' : j2_get_str k st ≠ Exit c st'.
Proof. unfold j2_get_str. by destruct (j2 st !! k) as [[]|]. Qed.

Lemma j2_get_never_exits k st c st' : j2_get k st ≠ Exit c st'.
Proof. unfold j2_get. by destruct (j2 st !! k). Qed.

Lemma str_join_never_exits sep vs st c st' : str_join sep vs st ≠ Exit c st'.
Proof. unfold str_join. by destruct (strings_of vs). Qed.

Lemma exits_with_1_template_context cfg file output :
  exits_with_1 (template_context cfg file output).
Proof.
  unfold template_context.
  repeat first
    [ apply exits_with_1_bind; [|intros ?]
    | apply exits_with_1_never; intros ???;
      first [ apply DEBUG_never_exits | apply j2_get_str_never_exits
            | apply j2_get_never_exits | apply str_join_never_exits | done ] ].
Qed.

Lemma exits_with_1_render_file_template cfg jinja file output :
  exits_with_1 (render_file_template cfg jinja file output).
Proof.
  unfold render_file_template.
  apply exits_with_1_bind; [apply exits_with_1_template_context | intros _].
  apply exits_with_1_bind; [by apply exits_with_1_never | intros r].
  destruct r.
  - apply exits_with_1_never. intros st c st'. by destruct output.
  - apply exits_with_1_report.
  - apply exits_with_1_report2.
  - by apply exits_with_1_never.
Qed.

Lemma exits_with_1_render_file_name cfg jinja file :
  exits_with_1 (render_file_name cfg jinja file).
Proof.
  unfold render_file_name, name_context.
  apply exits_with_1_bind.
  { apply exits_with_1_bind; [|intros _; by apply exits_with_1_never].
    apply exits_with_1_never. intros ???. apply DEBUG_never_exits. }
  intros _. apply exits_with_1_bind; [by apply exits_with_1_never | intros r].
  destruct r.
  - apply exits_with_1_bind; [|intros _; by apply exits_with_1_never].
    apply exits_with_1_never. intros ???. apply DEBUG_never_exits.
  - apply exits_with_1_report.
  - apply exits_with_1_report2.
  - by apply exits_with_1_never.
Qed.

Lemma exits_with_1_dest_path cfg jinja folder dest item items :
  exits_with_1 (dest_path cfg jinja folder dest item items).
Proof.
  unfold dest_path. destruct (has_entry _ _); [|by apply exits_with_1_never].
  apply exits_with_1_bind.
  { apply exits_with_1_never. intros ???. apply DEBUG_never_exits. }
  intros _. apply exits_with_1_bind; [apply exits_with_1_render_file_name|].
  intros name. by apply exits_with_1_never.
Qed.

Lemma exits_with_1_prepare_dest cfg dest : exits_with_1 (prepare_dest cfg dest).
Proof.
  intros st c st'. rewrite prepare_dest_run.
  destruct (fs st !! dest).
  - destruct (FS.access_W _ _); [done | by intros [= <- _]].
  - destruct (FS.mkdir _ _); [done | by intros [= <- _]].
Qed.

Lemma exits_with_1_write_item cfg jinja folder item fdest :
  exits_with_1 (write_item cfg jinja folder item fdest).
Proof.
  unfold write_item. apply exits_with_1_bind; [by apply exits_with_1_never | intros f].
  destruct (FS.open_wb f fdest); [|apply exits_with_1_report].
  apply exits_with_1_bind; [by apply exits_with_1_never | intros _].
  apply exits_with_1_render_file_template.
Qed.

(** X2. Whenever a run of [render_folder_template] ends the process with
    [exit], the exit status is 1, whichever of its error handlers was
    taken. *)
Theorem run_exit_status cfg jinja node folder dest st c st' :
  render_folder_template cfg jinja node folder dest st = Exit c st' → c = 1%Z.
Proof.
  revert st c st'.
  apply (walk_render_folder_template cfg jinja (@exits_with_1)).
  - intros A B m k. apply exits_with_1_bind.
  - intros A a. by apply exits_with_1_never.
  - intros A e. by apply exits_with_1_never.
  - intros level output _. apply exits_with_1_never. intros ???. apply DEBUG_never_exits.
  - apply exits_with_1_prepare_dest.
  - apply exits_with_1_dest_path.
  - apply exits_with_1_write_item.
Qed.

(** ** What reaches [sys.stderr] when debugging is off *)

Section Quiet.

Variable cfg : Config.
Variable jinja :
  Environment → string → gmap string pyval → gmap string pyval → render_result.
Hypothesis debug_off : (DEBUG_LEVEL cfg < 1)%Z.

Lemma reports_bind {A B} (m : M A) (k : A → M B) :
  reports jinja m → (∀ a, reports jinja (k a)) → reports jinja (bind m k).
Proof.
  intros Hm Hk st. specialize (Hm st). unfold bind.
  destruct (m st) as [a st1|c st1|e st1]; [|done..].
  specialize (Hk a st1). rewrite <- Hm. exact Hk.
Qed.

Lemma reports_silent {A} (m : M A) :
  (∀ st c st', m st ≠ Exit c st') → (∀ st, stderr (final (m st)) = stderr st) →
  reports jinja m.
Proof.
  intros Hexit Herr st. specialize (Herr st). specialize (Hexit st).
  destruct (m st) as [a st1|c st1|e st1]; simpl in *; [done | | done].
  by destruct (Hexit c st1).
Qed.

Lemma reports_one {A} what rest c :
  what = "IOError" ∨ what = "TemplateNotFound" →
  reports jinja
    (bind (stderr_write ("j2: Command line error " +:+ what +:+ ": Can't " +:+ rest))
       (λ _, @exit A c)).
Proof.
  intros Hwhat st. simpl. eexists. split; [done|]. left. by exists what, rest.
Qed.

Lemma reports_ret {A} (a : A) : reports jinja (ret a).
Proof. by intros st. Qed.

Lemma reports_raise {A} e : reports jinja (@raise A e).
Proof. by intros st. Qed.

Lemma reports_DEBUG level output : (1 ≤ level)%Z → reports jinja (DEBUG cfg level output).
Proof.
  intros Hlevel st. rewrite DEBUG_run. unfold debug_lines.
  destruct (Z.leb_spec level (DEBUG_LEVEL cfg)); [lia|].
  by rewrite add_stderr_nil.
Qed.

Lemma reports_template_context file output :
  reports jinja (template_context cfg file output).
Proof.
  unfold template_context.
  repeat first
    [ apply reports_bind; [|intros ?]
    | by apply reports_DEBUG
    | by intros st
    | by intros st; unfold j2_get; destruct (j2 st !! _)
    | by intros st; unfold j2_get_str; destruct (j2 st !! _) as [[]|]
    | by intros st; unfold str_join; destruct (strings_of _) ].
Qed.

(** The two handlers after the engine ran, with the [eol] each uses. *)
Lemma reports_handlers {A} e name eol (found : string → string) (k : string → M A) :
  (∀ text, reports jinja (k text)) →
  reports jinja
    (bind (get_template_render jinja e name)
       (λ r, match r with
             | Rendered text => k text
             | TemplateNotFound missing =>
                 stderr_write ("j2: Command line error TemplateNotFound: Can't open template "
                                 +:+ found missing +:+ eol) ;;;
                 exit 1
             | TemplateSyntaxError filename lineno message =>
                 stderr_write (syntax_error_cmdline filename lineno message eol) ;;;
                 stderr_write (syntax_error_infile filename lineno message eol) ;;;
                 exit 1
             | OtherError descr => raise descr
             end)).
Proof.
  intros Hk st. unfold bind at 1, get_template_render.
  destruct (jinja e name (globals st) (j2 st)) as [text|missing|filename lineno message|descr]
    eqn:Hj.
  - apply Hk.
  - apply (reports_one "TemplateNotFound" ("open template " +:+ found missing +:+ eol)).
    by right.
  - simpl. eexists. split; [by rewrite <- app_assoc|]. right.
    exists filename, lineno, message, eol. split; [done|]. by eexists _, _, _, _.
  - apply reports_raise.
Qed.

Lemma reports_render_file_template file output :
  reports jinja (render_file_template cfg jinja file output).
Proof.
  unfold render_file_template.
  apply reports_bind; [apply reports_template_context | intros _].
  apply (reports_handlers _ _ (os_linesep cfg) (λ missing, missing)).
  intros text st. by destruct output.
Qed.

Lemma reports_render_file_name file : reports jinja (render_file_name cfg jinja file).
Proof.
  unfold render_file_name, name_context.
  apply reports_bind.
  { apply reports_bind; [by apply reports_DEBUG | by intros _ st]. }
  intros _. apply (reports_handlers _ _ Str.nl (λ _, file)).
  intros text. apply reports_bind; [by apply reports_DEBUG | intros _; apply reports_ret].
Qed.

Lemma reports_dest_path folder dest item items :
  reports jinja (dest_path cfg jinja folder dest item items).
Proof.
  unfold dest_path. destruct (has_entry _ _); [|apply reports_ret].
  apply reports_bind; [by apply reports_DEBUG | intros _].
  apply reports_bind; [apply reports_render_file_name | intros name; apply reports_ret].
Qed.

Lemma reports_prepare_dest dest : reports jinja (prepare_dest cfg dest).
Proof.
  intros st. rewrite prepare_dest_run.
  destruct (fs st !! dest).
  - destruct (FS.access_W _ _); [done|]. eexists. split; [done|]. left.
    by exists "IOError", ("open folder " +:+ dest +:+ " to render output to" +:+ os_linesep cfg);
      auto.
  - destruct (FS.mkdir _ _); [done|]. eexists. split; [done|]. left.
    by exists "IOError", ("create folder " +:+ dest +:+ " to render output to" +:+ os_linesep cfg);
      auto.
Qed.

Lemma reports_write_item folder item fdest :
  reports jinja (write_item cfg jinja folder item fdest).
Proof.
  unfold write_item. apply reports_bind; [by intros st | intros f].
  destruct (FS.open_wb f fdest).
  - apply reports_bind; [by intros st | intros _]. apply reports_render_file_template.
  - apply (reports_one "IOError"
             ("open file " +:+ fdest +:+ " to render output to" +:+ os_linesep cfg)).
    by left.
Qed.

Lemma reports_render_folder_template node folder dest :
  reports jinja (render_folder_template cfg jinja node folder dest).
Proof.
  apply (walk_render_folder_template cfg jinja (@reports jinja)).
  - intros A B m k. apply reports_bind.
  - intros A a. apply reports_ret.
  - intros A e. apply reports_raise.
  - intros level output. apply reports_DEBUG.
  - apply reports_prepare_dest.
  - apply reports_dest_path.
  - apply reports_write_item.
Qed.

End Quiet.

(** X3. With debugging off ([DEBUG_LEVEL] below 1), a run of
    [render_folder_template] that returns or raises has written nothing to
    [sys.stderr], and a run that ends with [exit] has written exactly what
    its handler writes: one [j2: Command line error] message of the
    [IOError] or [TemplateNotFound] kind, or the two messages of a template
    syntax error that the engine reported, with its file name, line and
    message. *)
Theorem run_reports_on_stderr cfg jinja node folder dest st :
  (DEBUG_LEVEL cfg < 1)%Z →
  match render_folder_template cfg jinja node folder dest st with
  | Done _ st' | Uncaught _ st' => stderr st' = stderr st
  | Exit _ st' =>
      ∃ msgs : list string,
        stderr st' = (stderr st ++ msgs)%list
        ∧ (one_report msgs ∨ two_reports jinja msgs)
  end.
Proof.
  intros Hoff.
  exact (reports_render_folder_template cfg jinja Hoff node folder dest st).
Qed.

(** ** Templates that cannot be found *)

(** X5. A template-not-found error ends the render with [exit(1)] after
    exactly one message.  For a naming directive the message names the
    directive's own path, whatever name the engine reports; for a content
    template it names what the engine reports, which can be a template the
    content includes. *)
Theorem template_not_found_reported cfg jinja file name :
  (∀ st st1,
      name_context cfg file st = Done tt st1 →
      jinja (name_environment cfg file) (Path.basename file) (globals st1) (j2 st1)
        = TemplateNotFound name →
      render_file_name cfg jinja file st
      = Exit 1 (add_stderr ["j2: Command line error TemplateNotFound: Can't open template "
                              +:+ file +:+ Str.nl] st1))
  ∧ (∀ output st st1,
      template_context cfg file output st = Done tt st1 →
      jinja (template_environment cfg file) (Path.basename file) (globals st1) (j2 st1)
        = TemplateNotFound name →
      render_file_template cfg jinja file output st
      = Exit 1 (add_stderr ["j2: Command line error TemplateNotFound: Can't open template "
                              +:+ name +:+ os_linesep cfg] st1)).
Proof.
  split.
  - intros st st1 Hctx Hj. unfold render_file_name.
    rewrite (bind_done _ _ _ _ _ Hctx).
    unfold bind at 1, get_template_render. by rewrite Hj.
  - intros output st st1 Hctx Hj. unfold render_file_template.
    rewrite (bind_done _ _ _ _ _ Hctx).
    unfold bind at 1, get_template_render. by rewrite Hj.
Qed.

(** ** The dictionary entries a content render needs and sets *)

Lemma template_context_run cfg file output st l1 l2 l3 l4 :
  j2 st !! "log1" = Some (PStr l1) → j2 st !! "log2" = Some (PStr l2) →
  j2 st !! "log3" = Some (PStr l3) → j2 st !! "log4" = Some (PStr l4) →
  ∃ st', template_context cfg file output st = Done tt st'
         ∧ j2 st' = template_j2 cfg file (j2 st) l1 l2 l3 l4
         ∧ fs st' = fs st.
Proof.
  destruct st as [f o e j g]. simpl. intros H1 H2 H3 H4. unfold template_context.
  rewrite (bind_done _ _ _ _ _ (DEBUG_run _ _ _ _)).
  unfold bind, j2_set, j2_get_str, j2_get, str_join, globals_update, add_stderr.
  cbn [fs stdout stderr j2 globals].
  repeat (first [ rewrite lookup_insert_eq | rewrite lookup_insert_ne by done
                 | rewrite H1 | rewrite H2 | rewrite H3 | rewrite H4 ];
          cbn [fs stdout stderr j2 globals strings_of ret]).
  eexists. split; [reflexivity|]. by split.
Qed.

Ltac context_step :=
  repeat (progress
            (cbv beta iota; cbn [fs stdout stderr j2 globals strings_of];
             repeat first [ rewrite lookup_insert_eq | rewrite lookup_insert_ne by done ])).

(** How the setting up of a content render ends, by what [j2] holds for the
    four log lines. *)
Lemma template_context_cases cfg file output st :
  match template_context cfg file output st with
  | Done _ st' =>
      ∃ l1 l2 l3 l4,
        j2 st !! "log1" = Some (PStr l1) ∧ j2 st !! "log2" = Some (PStr l2)
        ∧ j2 st !! "log3" = Some (PStr l3) ∧ j2 st !! "log4" = Some (PStr l4)
  | Uncaught e _ =>
      (e = "KeyError" ∧ ¬ logs_bound (j2 st))
      ∨ (e = "TypeError" ∧ logs_bound (j2 st) ∧ ¬ has_logs (j2 st))
  | Exit _ _ => False
  end.
Proof.
  destruct st as [f o e j g]. unfold template_context.
  rewrite (bind_done _ _ _ _ _ (DEBUG_run _ _ _ _)).
  unfold bind, j2_set, j2_get_str, j2_get, str_join, globals_update, add_stderr.
  cbn [fs stdout stderr j2 globals].
  repeat (first [ rewrite lookup_insert_eq | rewrite lookup_insert_ne by done ];
          cbn [fs stdout stderr j2 globals]).
  assert (Hno : ∀ k, j !! k = None → is_Some (j !! k) → False)
    by (intros k -> [v Hv]; done).
  destruct (j !! "log1") as [v1|] eqn:H1; context_step;
    [|left; split; [done|]; intros (Hb & _); by eapply Hno].
  destruct (j !! "log2") as [v2|] eqn:H2; context_step;
    [|left; split; [done|]; intros (_ & Hb & _); by eapply Hno].
  destruct (j !! "log3") as [v3|] eqn:H3; context_step;
    [|left; split; [done|]; intros (_ & _ & Hb & _); by eapply Hno].
  destruct (j !! "log4") as [v4|] eqn:H4; context_step;
    [|left; split; [done|]; intros (_ & _ & _ & Hb); by eapply Hno].
  assert (Hbound : logs_bound j).
  { unfold logs_bound. rewrite H1, H2, H3, H4. by repeat split. }
  destruct v1 as [l1| | |]; context_step;
    [|right; split; [done|]; split; [done|]; intros (?&?&?&?&E&_); congruence..].
  destruct v2 as [l2| | |]; context_step;
    [|right; split; [done|]; split; [done|]; intros (?&?&?&?&_&E&_); congruence..].
  destruct v3 as [l3| | |]; context_step;
    [|right; split; [done|]; split; [done|]; intros (?&?&?&?&_&_&E&_); congruence..].
  destruct v4 as [l4| | |]; context_step;
    [|right; split; [done|]; split; [done|]; intros (?&?&?&?&_&_&_&E); congruence..].
  by exists l1, l2, l3, l4.
Qed.

Lemma template_context_done cfg file output st st' :
  template_context cfg file output st = Done tt st' → has_logs (j2 st).
Proof.
  intros Hrun. pose proof (template_context_cases cfg file output st) as H.
  by rewrite Hrun in H.
Qed.

(** X6. [render_file_template] gets as far as the engine exactly when the
    [j2] dictionary holds the four log lines [log1] to [log4] as strings.  A
    line that is not bound ends it with a [KeyError], also when another line
    holds something else than a string (the list is built before it is
    joined); with the four bound and one of them no string it ends with a
    [TypeError]; neither is caught.  When it gets there it has set
    [j2.templatepath] to the template's directory and the extra search path
    joined by [os.pathsep], [j2.log] to that with its prefix, and [j2.logall]
    to the five log lines joined by [os.linesep], and has left the file
    system alone. *)
Theorem content_render_needs_log_lines cfg file output st :
  match template_context cfg file output st with
  | Done _ st' =>
      has_logs (j2 st)
      ∧ (∀ l1 l2 l3 l4,
           j2 st !! "log1" = Some (PStr l1) → j2 st !! "log2" = Some (PStr l2) →
           j2 st !! "log3" = Some (PStr l3) → j2 st !! "log4" = Some (PStr l4) →
           j2 st' = template_j2 cfg file (j2 st) l1 l2 l3 l4)
      ∧ fs st' = fs st
  | Uncaught e _ =>
      (e = "KeyError" ∧ ¬ logs_bound (j2 st))
      ∨ (e = "TypeError" ∧ logs_bound (j2 st) ∧ ¬ has_logs (j2 st))
  | Exit _ _ => False
  end.
Proof.
  pose proof (template_context_cases cfg file output st) as Hcases.
  destruct (template_context cfg file output st) as [[] st'|c st'|e st'] eqn:Hrun;
    [|done..].
  split; [done|]. split.
  - intros l1 l2 l3 l4 H1 H2 H3 H4.
    destruct (template_context_run cfg file output st l1 l2 l3 l4)
      as (st1 & Hrun1 & Hj2 & _); try done.
    rewrite Hrun1 in Hrun. by injection Hrun as <-.
  - pose proof (keeps_fs_template_context cfg file output st) as Hfs.
    by rewrite Hrun in Hfs.
Qed.

(** ** What a naming directive sees of the previous content render *)

Lemma keeps_j2_bind {A B} (m : M A) (k : A → M B) :
  keeps_j2 m → (∀ a, keeps_j2 (k a)) → keeps_j2 (bind m k).
Proof.
  intros Hm Hk st. unfold bind. specialize (Hm st).
  destruct (m st) as [a st'| |]; simpl in *; [|done..]. by rewrite Hk.
Qed.

Lemma keeps_j2_DEBUG cfg level output : keeps_j2 (DEBUG cfg level output).
Proof. intros st. by rewrite DEBUG_run. Qed.

Lemma keeps_j2_name_context cfg file : keeps_j2 (name_context cfg file).
Proof.
  unfold name_context. apply keeps_j2_bind; [apply keeps_j2_DEBUG | by intros _ st].
Qed.

Lemma keeps_j2_render_file_name cfg jinja file : keeps_j2 (render_file_name cfg jinja file).
Proof.
  unfold render_file_name.
  apply keeps_j2_bind; [apply keeps_j2_name_context | intros _].
  apply keeps_j2_bind; [by intros st | intros r].
  destruct r.
  - apply keeps_j2_bind; [apply keeps_j2_DEBUG | by intros _ st].
  - by intros st.
  - by intros st.
  - by intros st.
Qed.

Lemma render_file_template_done cfg jinja file output st st' :
  render_file_template cfg jinja file output st = Done tt st' →
  ∃ s1, template_context cfg file output st = Done tt s1 ∧ j2 st' = j2 s1.
Proof.
  unfold render_file_template. intros ([] & s1 & Hctx & Hk)%bind_done_inv.
  exists s1. split; [done|].
  apply bind_done_inv in Hk as (r & s2 & Hr & Hk).
  unfold get_template_render in Hr. injection Hr as _ <-.
  destruct r; [|unfold bind, stderr_write, exit in Hk; done..].
  destruct output; [|done]. by injection Hk as <-.
Qed.

Lemma render_file_template_j2 cfg jinja file output st st1 :
  render_file_template cfg jinja file output st = Done tt st1 →
  ∃ l1 l2 l3 l4,
    j2 st !! "log1" = Some (PStr l1) ∧ j2 st !! "log2" = Some (PStr l2)
    ∧ j2 st !! "log3" = Some (PStr l3) ∧ j2 st !! "log4" = Some (PStr l4)
    ∧ j2 st1 = template_j2 cfg file (j2 st) l1 l2 l3 l4.
Proof.
  intros (s1 & Hctx & ->)%render_file_template_done.
  destruct (template_context_done _ _ _ _ _ Hctx) as (l1 & l2 & l3 & l4 & H1 & H2 & H3 & H4).
  exists l1, l2, l3, l4. repeat (split; [done|]).
  destruct (template_context_run cfg file output st l1 l2 l3 l4)
    as (s1' & Hrun & Hj2 & _); try done.
  rewrite Hrun in Hctx. by injection Hctx as <-.
Qed.


(** ** A folder with a file to render never returns *)

Lemma folder_loop_cons cfg jinja recurse folder dest items entry l :
  folder_loop cfg jinja recurse folder dest items (entry :: l)
  = bind (folder_item cfg jinja recurse folder dest items entry)
      (λ _, folder_loop cfg jinja recurse folder dest items l).
Proof. reflexivity. Qed.

Lemma kept_not_ignored item child :
  kept (item, child) = true → isdir child = true → bool_decide (item ∈ ignoredirs) = false.
Proof.
  unfold kept, ignored_dir. simpl. intros [_ H]%andb_true_iff Hdir.
  rewrite Hdir in H. by destruct (bool_decide _).
Qed.

Lemma folder_item_never_returns cfg jinja recurse folder dest items item child st :
  kept (item, child) = true →
  (isdir child = true →
   ∀ folder' dest' s x s', recurse child folder' dest' s ≠ Done x s') →
  ∀ x st', folder_item cfg jinja recurse folder dest items (item, child) st ≠ Done x st'.
Proof.
  intros Hkept Hrec x st'. unfold folder_item.
  pose proof Hkept as [Hm _]%andb_true_iff. simpl in Hm.
  apply negb_true_iff in Hm. rewrite Hm.
  destruct (isdir child) eqn:Hdir.
  - unfold render_dir_item. rewrite (kept_not_ignored _ _ Hkept Hdir).
    intros ([] & s1 & _ & Hk)%bind_done_inv.
    apply bind_done_inv in Hk as (d & s2 & _ & Hk). by apply Hrec in Hk.
  - unfold render_file_item.
    intros ([] & s1 & _ & Hk)%bind_done_inv.
    apply bind_done_inv in Hk as (d & s2 & _ & Hk). by apply write_item_not_done in Hk.
Qed.

Lemma folder_loop_never_returns cfg jinja recurse folder dest items l :
  Forall (λ entry,
            has_kept_file entry.2 = true →
            ∀ folder' dest' s x s', recurse entry.2 folder' dest' s ≠ Done x s') l →
  existsb (λ entry, kept entry && (negb (isdir entry.2) || has_kept_file entry.2)) l = true →
  ∀ st x st', folder_loop cfg jinja recurse folder dest items l st ≠ Done x st'.
Proof.
  induction 1 as [|[item child] l Hentry _ IHl]; [done|]. simpl existsb.
  intros Hex st x st'. rewrite folder_loop_cons.
  intros ([] & s1 & Hitem & Hrest)%bind_done_inv.
  apply orb_true_iff in Hex as [[Hkept Hfile]%andb_true_iff | Hex].
  - revert Hitem. apply folder_item_never_returns; [done|].
    intros Hdir. simpl in Hfile. rewrite Hdir in Hfile. by apply Hentry.
  - by eapply IHl.
Qed.

(** X8. A folder that has a file to render (an entry that is neither a
    naming directive nor inside an ignored directory) is never rendered to the
    end: [render_folder_template] does not return, because the first such
    file it reaches is opened with ['wb'] and then handed text, and the run
    ends there with the [TypeError], or earlier with an [exit(1)] or an
    exception of the engine. *)
Theorem run_with_file_never_returns cfg jinja node folder dest st x st' :
  has_kept_file node = true →
  render_folder_template cfg jinja node folder dest st ≠ Done x st'.
Proof.
  revert folder dest st x st'.
  induction node as [text|items IH| |] using snode_ind; intros folder dest st x st' Hfile;
    [done| |done|done].
  intros ([] & s1 & _ & Hk)%bind_done_inv.
  apply bind_done_inv in Hk as ([] & s2 & _ & Hk).
  revert Hk. apply folder_loop_never_returns; [|exact Hfile].
  eapply Forall_impl; [exact IH|]. intros entry Hentry Hhas folder' dest' s y s'.
  by apply Hentry.
Qed.

(** ** File mode *)

Lemma render_file_template_stdout cfg jinja file st st' :
  render_file_template cfg jinja file Stdout st = Done tt st' →
  ∃ text, renders_to cfg jinja file text
          ∧ stdout st' = (stdout st ++ [text +:+ os_linesep cfg])%list
          ∧ fs st' = fs st.
Proof.
  unfold render_file_template. intros ([] & s1 & Hctx & Hk)%bind_done_inv.
  apply bind_done_inv in Hk as (r & s2 & Hr & Hk).
  unfold get_template_render in Hr. injection Hr as <- <-.
  destruct (jinja _ _ _ _) as [text| | |] eqn:Hj;
    [|unfold bind, stderr_write, exit in Hk; done..].
  exists text. split; [by eexists _, _|].
  injection Hk as <-. simpl.
  pose proof (keeps_stdout_template_context cfg file Stdout st) as Hout.
  pose proof (keeps_fs_template_context cfg file Stdout st) as Hfs.
  rewrite Hctx in Hout, Hfs. simpl in Hout, Hfs. by rewrite Hout, Hfs.
Qed.

(** X9. In file mode without [-o] the templates of the command line are
    rendered to [sys.stdout] in their order: when the loop returns,
    [sys.stdout] has received, after what it had, one text for each
    template, the text the engine rendered for that template in its own
    environment, each followed by one [os.linesep]; the file system is as it
    was. *)
Theorem file_mode_appends_in_order cfg jinja files st st' :
  render_templates cfg jinja files Stdout st = Done tt st' →
  ∃ texts,
    Forall2 (renders_to cfg jinja) files texts
    ∧ stdout st' = (stdout st ++ map (λ text, text +:+ os_linesep cfg) texts)%list
    ∧ fs st' = fs st.
Proof.
  revert st. induction files as [|file files IH]; intros st Hrun.
  - injection Hrun as <-. exists []. split; [constructor|]. by rewrite app_nil_r.
  - simpl in Hrun. apply bind_done_inv in Hrun as ([] & s1 & Hfile & Hrest).
    apply render_file_template_stdout in Hfile as (text & Htext & Hout & Hfs).
    destruct (IH _ Hrest) as (texts & Htexts & Hout' & Hfs').
    exists (text :: texts). split; [by constructor|].
    split; [|congruence]. rewrite Hout', Hout. simpl. by rewrite <- app_assoc.
Qed.

Lemma render_templates_wb cfg jinja file files path st x st' :
  render_templates cfg jinja (file :: files) (WbFile path) st ≠ Done x st'.
Proof.
  simpl. intros ([] & s1 & Hfile & _)%bind_done_inv.
  by apply render_file_template_wb in Hfile.
Qed.

Lemma keeps_fs_render_templates cfg jinja files output :
  keeps_fs (render_templates cfg jinja files output).
Proof.
  induction files as [|file files IH]; [done|]. simpl.
  apply keeps_fs_bind; [apply keeps_fs_render_file_template | intros _; exact IH].
Qed.

(** X10. File mode with [-o]: the output file is opened with ['wb'] once,
    before any template is rendered.  When it cannot be opened the run ends
    with [exit(1)] after the one message naming it.  When it can, the run
    never returns: it ends at the first template, and the output file is
    left created, or truncated, and empty. *)
Theorem file_mode_output cfg jinja template templates OUTPUT st :
  OUTPUT ≠ ":NONE:" →
  let run := main_file cfg jinja (template :: templates) OUTPUT st in
  match FS.open_wb (fs st) OUTPUT with
  | None =>
      run = Exit 1 (add_stderr ["j2: Command line error IOError: Can't open file "
                                  +:+ OUTPUT +:+ " to render output to" +:+ os_linesep cfg] st)
  | Some f' =>
      (∀ x st', run ≠ Done x st')
      ∧ fs (final run) = f'
      ∧ fs (final run) !! OUTPUT = Some (FFile true "")
  end.
Proof.
  intros Hname run.
  assert (Hrun : run = match FS.open_wb (fs st) OUTPUT with
                       | Some f' => render_templates cfg jinja (template :: templates)
                                      (WbFile OUTPUT) (with_fs f' st)
                       | None => Exit 1 (add_stderr
                                   ["j2: Command line error IOError: Can't open file "
                                      +:+ OUTPUT +:+ " to render output to"
                                      +:+ os_linesep cfg] st)
                       end).
  { unfold run, main_file, open_output.
    destruct (String.eqb_spec OUTPUT ":NONE:") as [|_]; [done|].
    unfold bind, get_fs. by destruct (FS.open_wb (fs st) OUTPUT). }
  destruct (FS.open_wb (fs st) OUTPUT) as [f'|] eqn:Hopen; [|done].
  rewrite Hrun. split; [|split].
  - intros x st'. apply render_templates_wb.
  - by rewrite (keeps_fs_render_templates cfg jinja _ _ (with_fs f' st)).
  - rewrite (keeps_fs_render_templates cfg jinja _ _ (with_fs f' st)). simpl.
    by eapply open_wb_lookup.
Qed.

(** ** Which entries the loop takes for naming directives *)

Lemma lower_split item : ∀ p s,
  Str.lower item = p +:+ s →
  ∃ a b, item = a +:+ b ∧ Str.lower a = p ∧ Str.lower b = s.
Proof.
  induction item as [|x item IH]; intros [|c p] s H.
  - by exists "", "".
  - done.
  - by exists "", (String x item).
  - rewrite str_app_cons in H. simpl in H. injection H as Hc H.
    destruct (IH p s H) as (a & b & -> & Ha & Hb).
    exists (String x a), b. rewrite str_app_cons. simpl. by rewrite Hc, Ha.
Qed.

Lemma lower_char_nl x : Str.lower_char x = ascii_of_nat 10 → x = ascii_of_nat 10.
Proof.
  destruct x as [[] [] [] [] [] [] [] []]; vm_compute; intros H;
    first [discriminate H | reflexivity].
Qed.

Lemma lower_nl s : Str.lower s = Str.nl → s = Str.nl.
Proof.
  destruct s as [|x [|y s]]; simpl; try done.
  intros [= H]. by rewrite (lower_char_nl _ H).
Qed.

Lemma j2n_match_spec item :
  j2n_match item = true
  ↔ has_j2n_suffix item
    ∨ (∃ stem sfx, item = stem +:+ sfx +:+ Str.nl ∧ Str.lower sfx = ".j2n").
Proof.
  unfold j2n_match. rewrite orb_true_iff, !endswith_spec. split.
  - intros [[p Hp]|[p Hp]].
    + left. destruct (lower_split _ _ _ Hp) as (a & b & -> & _ & Hb). by exists a, b.
    + right. destruct (lower_split _ _ _ Hp) as (a & b & -> & _ & Hb).
      destruct (lower_split _ _ _ Hb) as (b1 & b2 & -> & Hb1 & ->%lower_nl).
      by exists a, b1.
  - intros [(stem & sfx & -> & Hs)|(stem & sfx & -> & Hs)].
    + left. exists (Str.lower stem). by rewrite lower_app, Hs.
    + right. exists (Str.lower stem). by rewrite !lower_app, Hs.
Qed.

(** X12. The loop of [render_folder_template] skips an entry, leaving the
    state as it was, when its name ends, in any letter case, with [.j2n] or
    with [.j2n] and one newline (the [$] of the pattern also matches before a
    newline that ends the name); every other entry goes on to the test
    whether it is a directory, and is handled as a directory or as a
    file. *)
Theorem j2n_match_names cfg jinja folder dest items item node :
  let directive :=
    has_j2n_suffix item
    ∨ (∃ stem sfx, item = stem +:+ sfx +:+ Str.nl ∧ Str.lower sfx = ".j2n") in
  (directive → ∀ st, iterate_entry cfg jinja folder dest items (item, node) st = Done tt st)
  ∧ (¬ directive →
     iterate_entry cfg jinja folder dest items (item, node)
     = if isdir node
       then render_dir_item cfg jinja folder dest item items
              (render_folder_template cfg jinja node)
       else render_file_item cfg jinja folder dest item items).
Proof.
  intros directive. unfold iterate_entry, folder_item. split.
  - intros Hd%j2n_match_spec st. by rewrite Hd.
  - intros Hd. destruct (j2n_match item) eqn:Hm; [|done].
    by apply j2n_match_spec in Hm.
Qed.

(** ** Where the engine looks for an entry *)

Lemma rsplit_cons c p :
  Path.rsplit (String c p)
  = match (Path.rsplit p).1 with
    | "" => if Path.is_sep c then (String c "", (Path.rsplit p).2)
            else ("", String c (Path.rsplit p).2)
    | h => (String c h, (Path.rsplit p).2)
    end.
Proof. simpl. by destruct (Path.rsplit p) as [[|] ?]. Qed.

Lemma rsplit_no_sep b : has_sep b = false → Path.rsplit b = ("", b).
Proof.
  induction b as [|c b IH]; [done|]. simpl has_sep.
  intros [Hc Hb]%orb_false_iff. rewrite rsplit_cons, (IH Hb). simpl. by rewrite Hc.
Qed.

Lemma rsplit_app a b :
  has_sep b = false → Path.rsplit (a +:+ Path.sep +:+ b) = (a +:+ Path.sep, b).
Proof.
  intros Hb. induction a as [|c a IH].
  - change ("" +:+ Path.sep +:+ b) with (String "/" b).
    rewrite rsplit_cons, (rsplit_no_sep _ Hb). done.
  - rewrite !str_app_cons, rsplit_cons, IH. simpl.
    by destruct a.
Qed.

Lemma all_sep_folder pre c :
  Path.is_sep c = false → Path.all_sep ((pre +:+ String c "") +:+ Path.sep) = false.
Proof.
  intros Hc. induction pre as [|x pre IH].
  - simpl. by rewrite Hc.
  - rewrite !str_app_cons. simpl Path.all_sep. rewrite IH. apply andb_false_r.
Qed.

Lemma rstrip_sep_name pre c :
  Path.is_sep c = false →
  Path.rstrip_sep ((pre +:+ String c "") +:+ Path.sep) = pre +:+ String c "".
Proof.
  intros Hc. induction pre as [|x pre IH].
  - simpl. by rewrite Hc.
  - rewrite !str_app_cons. simpl Path.rstrip_sep. rewrite IH.
    by destruct pre.
Qed.

Lemma dirname_basename_entry pre c item :
  Path.is_sep c = false → has_sep item = false →
  Path.dirname ((pre +:+ String c "") +:+ Path.sep +:+ item) = pre +:+ String c ""
  ∧ Path.basename ((pre +:+ String c "") +:+ Path.sep +:+ item) = item.
Proof.
  intros Hc Hitem. unfold Path.dirname, Path.basename.
  rewrite (rsplit_app _ _ Hitem). simpl fst. simpl snd. split; [|done].
  rewrite all_sep_folder by done. by apply rstrip_sep_name.
Qed.

Lemma has_sep_app a b : has_sep (a +:+ b) = has_sep a || has_sep b.
Proof.
  induction a as [|c a IH]; [done|]. rewrite str_app_cons. simpl.
  by rewrite IH, orb_assoc.
Qed.

(** X13. An entry whose name has no separator, in a folder whose path ends
    with a character other than the separator, is rendered under its own
    name with its own folder first on the search path: for the path
    [folder + os.sep + item] that the walk builds, [os.path.dirname] gives
    back [folder] and [os.path.basename] gives back [item]; and the same
    holds for its naming directive [item + ".j2n"]. *)
Theorem entry_rendered_from_its_folder cfg pre c item :
  Path.is_sep c = false →
  has_sep item = false →
  let folder := pre +:+ String c "" in
  searchpath (template_environment cfg (folder +:+ Path.sep +:+ item))
    = folder :: TEMPLATEPATH cfg
  ∧ Path.basename (folder +:+ Path.sep +:+ item) = item
  ∧ searchpath (name_environment cfg (folder +:+ Path.sep +:+ item +:+ ".j2n")) = [folder]
  ∧ Path.basename (folder +:+ Path.sep +:+ item +:+ ".j2n") = item +:+ ".j2n".
Proof.
  intros Hc Hitem folder.
  destruct (dirname_basename_entry pre c item Hc Hitem) as [Hd Hb].
  assert (Hj : has_sep (item +:+ ".j2n") = false) by by rewrite has_sep_app, Hitem.
  destruct (dirname_basename_entry pre c (item +:+ ".j2n") Hc Hj) as [Hd' Hb'].
  unfold template_environment, name_environment. simpl searchpath.
  fold folder in Hd, Hb, Hd', Hb'. by rewrite Hd, Hb, Hd', Hb'.
Qed.

(** ** Nothing is written outside the destination folder *)

Lemma split_no_sep name : has_sep name = false → FS.split name = [name].
Proof.
  induction name as [|c name IH]; [done|]. simpl has_sep.
  intros [Hc Hn]%orb_false_iff. simpl. by rewrite Hc, (IH Hn).
Qed.

Lemma split_nonempty p : FS.split p ≠ [].
Proof.
  induction p as [|c p IH]; [done|]. simpl.
  destruct (Path.is_sep c); [done|]. by destruct (FS.split p).
Qed.

Lemma split_app a b : FS.split (a +:+ Path.sep +:+ b) = (FS.split a ++ FS.split b)%list.
Proof.
  induction a as [|c a IH]; [done|]. rewrite str_app_cons. simpl.
  destruct (Path.is_sep c); [by rewrite IH|]. rewrite IH.
  pose proof (split_nonempty a). by destruct (FS.split a).
Qed.

Lemma absolute_app a b : a ≠ "" → FS.absolute (a +:+ b) = FS.absolute a.
Proof. by destruct a. Qed.

Lemma plain_name_inv name :
  plain_name name = true →
  name ≠ "" ∧ has_sep name = false ∧ name ≠ "." ∧ name ≠ "..".
Proof.
  unfold plain_name. rewrite !andb_true_iff, !negb_true_iff.
  intros [[[H1 H2] H3] H4]. repeat split; [| done | |];
    intros ->; discriminate.
Qed.

Lemma forallb_empty_app cs name :
  name ≠ "" → forallb (String.eqb "") (cs ++ [name])%list = false.
Proof.
  intros Hne. induction cs as [|c cs IH].
  - by destruct name.
  - rewrite <- app_comm_cons. cbn [forallb]. rewrite IH. apply andb_false_r.
Qed.

Lemma locate_empties f name cs : ∀ cur,
  forallb (String.eqb "") cs = true → plain_name name = true →
  FS.locate f cur (cs ++ [name])%list = Some (FS.Named (cur ++ [name]) false).
Proof.
  intros cur Hall (Hne & _ & Hdot & Hdots)%plain_name_inv. revert cur Hall.
  induction cs as [|c cs IH]; intros cur Hall.
  - cbn [app FS.locate forallb].
    destruct (String.eqb_spec name "") as [|_]; [done|].
    destruct (String.eqb_spec name ".") as [|_]; [done|].
    by destruct (String.eqb_spec name "..") as [|_].
  - cbn [forallb] in Hall. apply andb_true_iff in Hall as [<-%String.eqb_eq Hall].
    rewrite <- app_comm_cons. cbn [FS.locate]. rewrite forallb_empty_app by done.
    unfold FS.step. cbn [String.eqb orb]. by apply IH.
Qed.

(** The path [dest + os.sep + name], for a plain name, leads to that name
    in the directory [dest] leads to. *)
Lemma locate_child f name cs : ∀ cur tg tg',
  plain_name name = true →
  FS.locate f cur cs = Some tg →
  FS.locate f cur (cs ++ [name])%list = Some tg' →
  tg' = FS.Named (FS.target_key tg ++ [name]) false.
Proof.
  intros cur tg tg' Hname. pose proof Hname as (Hne & _)%plain_name_inv.
  revert cur tg tg'.
  induction cs as [|c cs IH]; intros cur tg tg' Htg Htg'.
  - injection Htg as <-. rewrite (locate_empties f name [] cur) in Htg' by done.
    by injection Htg' as <-.
  - cbn [FS.locate] in Htg. rewrite <- app_comm_cons in Htg'. cbn [FS.locate] in Htg'.
    rewrite forallb_empty_app in Htg' by done.
    destruct (FS.step f cur c) as [cur'|] eqn:Hstep; [|done].
    destruct (forallb (String.eqb "") cs) eqn:Hall; [|by eapply IH].
    rewrite locate_empties in Htg' by done. injection Htg' as <-.
    unfold FS.step in Hstep.
    destruct (String.eqb c "" || String.eqb c "."); [by simplify_eq|].
    destruct (String.eqb c ".."); [by simplify_eq|].
    destruct (FS.nodes f !! (cur ++ [c])%list) as [[w|]|]; by simplify_eq.
Qed.

Lemma key_child f dest name kd tg :
  FS.key f dest = Some kd → plain_name name = true →
  FS.resolve f (dest +:+ Path.sep +:+ name) = Some tg →
  tg = FS.Named (kd ++ [name]) false.
Proof.
  intros Hkd Hname. pose proof Hname as (_ & Hsep & _)%plain_name_inv.
  unfold FS.key, FS.resolve in *.
  destruct dest as [|c dest]; [done|]. rewrite str_app_cons.
  cbn [String.eqb] in *. rewrite <- str_app_cons.
  rewrite absolute_app, split_app, (split_no_sep _ Hsep) by done.
  destruct (FS.locate f _ (FS.split (String c dest))) as [tg0|] eqn:Htg0; [|done].
  injection Hkd as <-. intros Htg. by eapply locate_child.
Qed.

Lemma key_le a b p k : le_shape a b → FS.key a p = Some k → FS.key b p = Some k.
Proof.
  intros Hab. unfold FS.key.
  destruct (FS.resolve a p) as [tg|] eqn:Hres; [|done].
  by rewrite (resolve_le _ _ _ _ Hab Hres).
Qed.

Lemma lookup_key (f : FS.t) p n : f !! p = Some n → ∃ kd, FS.key f p = Some kd.
Proof.
  unfold lookup, fs_lookup, FS.lookup, FS.key.
  destruct (FS.resolve f p) as [tg|]; [by eexists | done].
Qed.

Lemma prepare_dest_key cfg dest st st' :
  prepare_dest cfg dest st = Done tt st' → ∃ kd, FS.key (fs st) dest = Some kd.
Proof.
  rewrite prepare_dest_run. destruct (fs st !! dest) as [n|] eqn:Hd.
  - intros _. by eapply lookup_key.
  - destruct (FS.mkdir (fs st) dest) as [f'|] eqn:Hmk; [|done]. intros _.
    apply mkdir_inv in Hmk as (k & slash & Hres & _). exists k.
    unfold FS.key. by rewrite Hres.
Qed.

Lemma touches_below_prepare_dest cfg dest : touches_below dest (prepare_dest cfg dest).
Proof.
  intros st k Hk. rewrite prepare_dest_run. destruct (fs st !! dest) as [n|].
  - by destruct (FS.access_W _ _).
  - destruct (FS.mkdir (fs st) dest) as [f'|] eqn:Hmk; [|done].
    apply mkdir_inv in Hmk as (kd & slash & Hres & _ & _ & ->). simpl.
    apply lookup_insert_ne. intros <-. eapply Hk; [|done].
    unfold FS.key. by rewrite Hres.
Qed.

Section Footprint.

Variable cfg : Config.
Variable jinja :
  Environment → string → gmap string pyval → gmap string pyval → render_result.
Hypothesis directives : plain_directives cfg jinja.

Lemma render_file_name_plain file st name st' :
  render_file_name cfg jinja file st = Done name st' → plain_name name = true.
Proof.
  unfold render_file_name. intros ([] & s1 & _ & Hk)%bind_done_inv.
  apply bind_done_inv in Hk as (r & s2 & Hr & Hk).
  unfold get_template_render in Hr. injection Hr as <- <-.
  destruct (jinja _ _ _ _) as [text| | |] eqn:Hj;
    [|unfold bind, stderr_write, exit in Hk; done..].
  apply bind_done_inv in Hk as ([] & s3 & _ & Hk). injection Hk as <- _.
  by eapply directives.
Qed.

Lemma dest_path_child folder dest item items st d st' :
  plain_name item = true →
  dest_path cfg jinja folder dest item items st = Done d st' →
  ∃ name, d = dest +:+ Path.sep +:+ name ∧ plain_name name = true ∧ fs st' = fs st.
Proof.
  intros Hitem Hrun.
  assert (Hfs : fs st' = fs st).
  { pose proof (keeps_fs_dest_path cfg jinja folder dest item items st) as H.
    by rewrite Hrun in H. }
  unfold dest_path in Hrun. destruct (has_entry _ _).
  - apply bind_done_inv in Hrun as ([] & s1 & _ & Hk).
    apply bind_done_inv in Hk as (name & s2 & Hname & Hk). injection Hk as <- _.
    exists name. split; [done|]. split; [by eapply render_file_name_plain | done].
  - injection Hrun as <- _. by exists item.
Qed.

(** The node of [dest + os.sep + name] lies below the node of [dest]. *)
Lemma child_below f dest name kd k :
  FS.key f dest = Some kd → plain_name name = true → ¬ kd `prefix_of` k →
  ∀ kd', FS.key f (dest +:+ Path.sep +:+ name) = Some kd' → ¬ kd' `prefix_of` k.
Proof.
  intros Hkd Hname Hk kd'. unfold FS.key at 1.
  destruct (FS.resolve f (dest +:+ Path.sep +:+ name)) as [tg|] eqn:Hres; [|done].
  rewrite (key_child _ _ _ _ _ Hkd Hname Hres). intros [= <-] Hpre.
  apply Hk. by eapply prefix_app_l.
Qed.

Lemma write_item_footprint folder item fdest st k :
  (∀ kf, FS.key (fs st) fdest = Some kf → ¬ kf `prefix_of` k) →
  FS.nodes (fs (final (write_item cfg jinja folder item fdest st))) !! k
  = FS.nodes (fs st) !! k.
Proof.
  intros Hk. rewrite write_item_run.
  destruct (FS.open_wb (fs st) fdest) as [f'|] eqn:Hopen; [|done].
  rewrite (keeps_fs_render_file_template cfg jinja _ _ (with_fs f' st)). simpl.
  apply open_wb_inv in Hopen as (kf & Hres & _ & ->). simpl.
  apply lookup_insert_ne. intros <-. eapply Hk; [|done].
  unfold FS.key. by rewrite Hres.
Qed.

Lemma never_shrinks_iterate_entry folder dest items entry :
  never_shrinks (iterate_entry cfg jinja folder dest items entry).
Proof.
  apply (walk_folder_item cfg jinja (@never_shrinks)).
  - intros A B m k. apply never_shrinks_bind.
  - intros A a st'. apply le_shape_refl.
  - intros level output _. apply never_shrinks_keeps_fs, keeps_fs_DEBUG.
  - intros. apply never_shrinks_keeps_fs, keeps_fs_dest_path.
  - apply never_shrinks_write_item.
  - intros folder' dest'. apply never_shrinks_render_folder_template.
Qed.

Lemma iterate_entry_footprint folder dest items item child st kd k :
  plain_name item = true →
  (∀ folder' dest', touches_below dest' (render_folder_template cfg jinja child folder' dest')) →
  FS.key (fs st) dest = Some kd → ¬ kd `prefix_of` k →
  FS.nodes (fs (final (iterate_entry cfg jinja folder dest items (item, child) st))) !! k
  = FS.nodes (fs st) !! k.
Proof.
  intros Hitem Hrec Hkd Hk. unfold iterate_entry, folder_item.
  destruct (j2n_match item); [done|].
  assert (Hpath : ∀ s (K : string → M unit),
            fs s = fs st →
            (∀ d s', (∀ kd', FS.key (fs s') d = Some kd' → ¬ kd' `prefix_of` k) →
                     FS.nodes (fs (final (K d s'))) !! k = FS.nodes (fs s') !! k) →
            FS.nodes (fs (final (bind (dest_path cfg jinja folder dest item items) K s))) !! k
            = FS.nodes (fs st) !! k).
  { intros s K Hs HK. unfold bind.
    pose proof (keeps_fs_dest_path cfg jinja folder dest item items s) as Hfs.
    destruct (dest_path cfg jinja folder dest item items s) as [d s'|c s'|e s'] eqn:Hd;
      simpl in Hfs; [|simpl; by rewrite Hfs, Hs..].
    destruct (dest_path_child _ _ _ _ _ _ _ Hitem Hd) as (name & -> & Hname & _).
    rewrite HK, Hfs, Hs; [done|]. rewrite Hfs, Hs. by eapply child_below. }
  destruct (isdir child).
  - unfold render_dir_item. rewrite (bind_done _ _ _ _ _ (DEBUG_run _ _ _ _)).
    destruct (bool_decide _); [done|].
    apply Hpath; [done|]. intros d s' Hd. by apply Hrec.
  - unfold render_file_item. rewrite (bind_done _ _ _ _ _ (DEBUG_run _ _ _ _)).
    apply Hpath; [done|]. intros d s' Hd. by apply write_item_footprint.
Qed.

Lemma iterate_entries_footprint folder dest items l kd k :
  Forall (λ entry,
            plain_name entry.1 = true
            ∧ ∀ folder' dest',
                touches_below dest' (render_folder_template cfg jinja entry.2 folder' dest')) l →
  ¬ kd `prefix_of` k →
  ∀ st, FS.key (fs st) dest = Some kd →
        FS.nodes (fs (final (iterate_entries cfg jinja folder dest items l st))) !! k
        = FS.nodes (fs st) !! k.
Proof.
  intros Hl Hk. induction Hl as [|[item child] l [Hitem Hrec] _ IHl]; intros st Hkd; [done|].
  rewrite iterate_entries_cons. unfold bind.
  pose proof (iterate_entry_footprint folder dest items item child st kd k Hitem Hrec Hkd Hk)
    as Hone.
  pose proof (never_shrinks_iterate_entry folder dest items (item, child) st) as Hle.
  destruct (iterate_entry cfg jinja folder dest items (item, child) st) as [[] s1|c s1|e s1];
    simpl in Hone, Hle; [|done..].
  rewrite IHl; [done|]. by eapply key_le.
Qed.

Lemma touches_below_render_folder_template node :
  well_named node = true →
  ∀ folder dest, touches_below dest (render_folder_template cfg jinja node folder dest).
Proof.
  induction node as [text|items IH| |] using snode_ind; intros Hnamed folder dest st k Hk.
  1, 3, 4:
    simpl; rewrite (bind_done _ _ _ _ _ (DEBUG_run _ _ _ _)); unfold bind at 1;
    pose proof (touches_below_prepare_dest cfg dest
                  (add_stderr (debug_lines cfg 1
                     ("Processing FOLDER template " +:+ Str.dq +:+ folder +:+ Str.dq
                        +:+ " to location " +:+ Str.dq +:+ dest +:+ Str.dq)) st) k Hk) as Hprep;
    by destruct (prepare_dest cfg dest _).
  - assert (Hrun : render_folder_template cfg jinja (SDir items) folder dest st
                   = bind (prepare_dest cfg dest)
                       (λ _, iterate_entries cfg jinja folder dest items items)
                       (add_stderr (debug_lines cfg 1
                          ("Processing FOLDER template " +:+ Str.dq +:+ folder +:+ Str.dq
                             +:+ " to location " +:+ Str.dq +:+ dest +:+ Str.dq)) st)).
    { simpl. by rewrite (bind_done _ _ _ _ _ (DEBUG_run _ _ _ _)). }
    rewrite Hrun. unfold bind. set (st0 := add_stderr _ st).
    pose proof (touches_below_prepare_dest cfg dest st0 k Hk) as Hprep.
    pose proof (never_shrinks_prepare_dest cfg dest st0) as Hle.
    destruct (prepare_dest cfg dest st0) as [[] s1|c s1|e s1] eqn:Hp;
      simpl in Hprep, Hle; [|done..].
    destruct (prepare_dest_key _ _ _ _ Hp) as [kd Hkd].
    rewrite <- Hprep. apply (iterate_entries_footprint folder dest items items kd).
    + simpl in Hnamed. clear -IH Hnamed.
      induction IH as [|entry l Hentry _ IHl]; [constructor|].
      simpl in Hnamed. apply andb_true_iff in Hnamed as [[Hn Hw]%andb_true_iff Hl].
      constructor; [|by apply IHl]. split; [done|]. by apply Hentry.
    + by apply Hk.
    + by eapply key_le.
Qed.

End Footprint.


(** ** Folder mode *)

Section FolderMode.

Variable cfg : Config.
Variable jinja :
  Environment → string → gmap string pyval → gmap string pyval → render_result.
Hypothesis directives : plain_directives cfg jinja.

Lemma render_folder_template_key node folder dest st x st' :
  render_folder_template cfg jinja node folder dest st = Done x st' →
  ∃ kd, FS.key (fs st) dest = Some kd.
Proof.
  intros Hrun.
  assert (∃ s0 s1, fs s0 = fs st ∧ prepare_dest cfg dest s0 = Done tt s1)
    as (s0 & s1 & Hfs & Hp).
  { destruct node; simpl in Hrun;
      rewrite (bind_done _ _ _ _ _ (DEBUG_run _ _ _ _)) in Hrun;
      apply bind_done_inv in Hrun as ([] & s1 & Hp & _);
      (eexists _, _; split; [|exact Hp]; reflexivity). }
  rewrite <- Hfs. by eapply prepare_dest_key.
Qed.

Lemma touches_below_render_folders folders dest :
  Forall (λ entry, well_named entry.2 = true) folders →
  touches_below dest (render_folders cfg jinja folders dest).
Proof.
  induction 1 as [|[folder node] folders Hnode _ IH]; intros st k Hk; [done|].
  simpl render_folders. unfold bind.
  pose proof (touches_below_render_folder_template cfg jinja directives node Hnode
                folder dest st k Hk) as Hone.
  pose proof (never_shrinks_render_folder_template cfg jinja node folder dest st) as Hle.
  destruct (render_folder_template cfg jinja node folder dest st) as [[] s1|c s1|e s1] eqn:Hrun;
    simpl in Hone, Hle; [|done..].
  rewrite IH; [done|]. intros kd Hkd.
  destruct (render_folder_template_key _ _ _ _ _ _ Hrun) as [kd0 Hkd0].
  rewrite (key_le _ _ _ _ Hle Hkd0) in Hkd. injection Hkd as <-. by apply Hk.
Qed.

End FolderMode.


(** ** Module loading *)

Section ModuleLoading.

Variable cfg : Config.
Variable execfile : string → M unit.
Variable is_Exception : string → bool.
Variable exn_str : string → string.
Variable format_exc : string → list string.
Lemma import_failed_run name e st :
  import_failed cfg exn_str format_exc name e st
  = Exit 1 (add_stderr (import_report cfg exn_str format_exc name e) st).
Proof.
  unfold import_failed, import_report, bind, stderr_write,
    stderr_writes, exit, add_stderr, ret.
  destruct (0 <? DEBUG_LEVEL cfg)%Z; simpl; [by rewrite <- app_assoc|done].
Qed.

Lemma add_stderr_fs l st : fs (add_stderr l st) = fs st.
Proof. done. Qed.

Lemma try_modpath_run modpath st :
  try_modpath cfg execfile is_Exception exn_str format_exc modpath st =
    let st1 := add_stderr (debug_lines cfg 1 ("Loading module from location " +:+ modpath)) st in
    if FS.exists_ (fs st) modpath then
      loaded cfg execfile is_Exception exn_str format_exc Break modpath modpath
        (add_stderr (debug_lines cfg 2 ("  Found module " +:+ modpath +:+ os_linesep cfg)) st1)
    else
      Exit 1 (add_stderr ["j2: Command line error ImportError: Can't find module at location "
                            +:+ modpath +:+ " for importing" +:+ os_linesep cfg] st1).
Proof.
  unfold try_modpath.
  rewrite (bind_done _ _ _ _ _ (DEBUG_run _ _ _ _)).
  unfold try_except. unfold bind at 1. unfold get_fs. rewrite add_stderr_fs.
  cbv zeta. destruct (FS.exists_ (fs st) modpath).
  - rewrite (bind_done _ _ _ _ _ (DEBUG_run _ _ _ _)).
    unfold loaded, bind, ret.
    destruct (execfile modpath _) as [[] st'|c st'|e st']; try done.
    destruct (is_Exception e); [|done]. by rewrite import_failed_run.
  - reflexivity.
Qed.

Lemma try_path_run modname path st :
  try_path cfg execfile is_Exception exn_str format_exc modname path st =
    let pyfile := path +:+ Path.sep +:+ modname +:+ ".py" in
    let st1 := add_stderr (debug_lines cfg 2 ("  Trying " +:+ pyfile)) st in
    if FS.exists_ (fs st) pyfile then
      loaded cfg execfile is_Exception exn_str format_exc Break modname pyfile
        (add_stderr (debug_lines cfg 2 ("  Found module " +:+ modname +:+ " at " +:+ pyfile
                                          +:+ os_linesep cfg)) st1)
    else Done Next st1.
Proof.
  unfold try_path. cbv zeta.
  rewrite (bind_done _ _ _ _ _ (DEBUG_run _ _ _ _)).
  unfold try_except. unfold bind at 1. unfold get_fs. rewrite add_stderr_fs.
  destruct (FS.exists_ (fs st) _).
  - rewrite (bind_done _ _ _ _ _ (DEBUG_run _ _ _ _)).
    unfold loaded, bind, ret.
    destruct (execfile _ _) as [[] st'|c st'|e st']; try done.
    destruct (is_Exception e); [|done]. by rewrite import_failed_run.
  - reflexivity.
Qed.

Lemma debug_lines_off level output :
  (DEBUG_LEVEL cfg < level)%Z → debug_lines cfg level output = [].
Proof.
  intros H. unfold debug_lines. by rewrite (proj2 (Z.leb_gt _ _) H).
Qed.

(** X14. Of the paths given with [-M] only the first is ever looked at: the
    loop over [args.MODULEPATH] leaves at its first round, by [break] after
    the module ran, or by [exit(1)] when the file is missing or its code
    raised; so the run with further paths is the run with the first alone. *)
Theorem modulepath_only_first modpath rest st :
  load_modulepaths cfg execfile is_Exception exn_str format_exc (Some (modpath :: rest)) st
  = load_modulepaths cfg execfile is_Exception exn_str format_exc (Some [modpath]) st.
Proof.
  unfold load_modulepaths. simpl for_each. unfold bind.
  rewrite try_modpath_run. cbv zeta.
  destruct (FS.exists_ (fs st) modpath); [|done].
  unfold loaded.
  destruct (execfile modpath _) as [[] st'|c st'|e st']; try done.
  by destruct (is_Exception e).
Qed.

Lemma for_each_missing modname orelse pre l st :
  (DEBUG_LEVEL cfg < 2)%Z →
  (∀ p, p ∈ pre → FS.exists_ (fs st) (p +:+ Path.sep +:+ modname +:+ ".py") = false) →
  for_each (try_path cfg execfile is_Exception exn_str format_exc modname) orelse (pre ++ l)%list st
  = for_each (try_path cfg execfile is_Exception exn_str format_exc modname) orelse l st.
Proof.
  intros Hd. induction pre as [|p pre IH]; intros Hpre; [done|].
  simpl. unfold bind at 1. rewrite try_path_run. cbv zeta.
  rewrite (Hpre p) by (apply elem_of_cons; by left).
  rewrite debug_lines_off, add_stderr_nil by done.
  apply IH. intros q Hq. apply Hpre, elem_of_cons. by right.
Qed.

(** X15. A module that no directory of [sys.path] has as [<name>.py] ends
    the run with [exit(1)] after the one message that it cannot be found;
    nothing was executed and nothing but [sys.stderr] has changed. *)
Theorem module_not_found sys_path modname st :
  (DEBUG_LEVEL cfg < 2)%Z →
  (∀ p, p ∈ sys_path → FS.exists_ (fs st) (p +:+ Path.sep +:+ modname +:+ ".py") = false) →
  load_module cfg execfile is_Exception exn_str format_exc sys_path modname st
  = Exit 1 (add_stderr
              (debug_lines cfg 1 ("Loading module " +:+ modname)
               ++ ["j2: Command line error ImportError: Can't find module "
                     +:+ modname +:+ " for importing" +:+ os_linesep cfg])%list st).
Proof.
  intros Hd Hmiss. unfold load_module.
  rewrite (bind_done _ _ _ _ _ (DEBUG_run _ _ _ _)).
  rewrite <- (app_nil_r sys_path), for_each_missing by done.
  simpl. unfold bind, stderr_write, exit. by rewrite <- add_stderr_app.
Qed.

(** X16. The first directory of [sys.path] that has [<name>.py] wins: its
    file is executed, and the directories after it are never looked at, also
    when they have the module too.  The run then goes on when the module's
    code returns, ends as the code ends it when that exits or raises what is
    no [Exception], and ends with the [ImportUnk] report and [exit(1)] for an
    [Exception]. *)
Theorem first_path_with_module_wins sys_pre path sys_post modname st :
  (DEBUG_LEVEL cfg < 2)%Z →
  (∀ p, p ∈ sys_pre → FS.exists_ (fs st) (p +:+ Path.sep +:+ modname +:+ ".py") = false) →
  FS.exists_ (fs st) (path +:+ Path.sep +:+ modname +:+ ".py") = true →
  load_module cfg execfile is_Exception exn_str format_exc
    (sys_pre ++ path :: sys_post)%list modname st
  = loaded cfg execfile is_Exception exn_str format_exc tt modname
      (path +:+ Path.sep +:+ modname +:+ ".py")
      (add_stderr (debug_lines cfg 1 ("Loading module " +:+ modname)) st).
Proof.
  intros Hd Hmiss Hhit. unfold load_module.
  rewrite (bind_done _ _ _ _ _ (DEBUG_run _ _ _ _)).
  rewrite for_each_missing by done.
  simpl for_each. unfold bind. rewrite try_path_run. cbv zeta.
  rewrite add_stderr_fs, Hhit, !debug_lines_off, !add_stderr_nil by done.
  unfold loaded.
  destruct (execfile _ _) as [[] st'|c st'|e st']; try done.
  by destruct (is_Exception e).
Qed.

Lemma for_each_without_execfile modname msg l st :
  (∀ p s, execfile p s = Uncaught "NameError" s) → is_Exception "NameError" = true →
  ∃ st', for_each (try_path cfg execfile is_Exception exn_str format_exc modname)
           (stderr_write msg ;;; exit 1) l st = Exit 1 st'
         ∧ fs st' = fs st ∧ j2 st' = j2 st.
Proof.
  intros Hexec Hexn. revert st. induction l as [|p l IH]; intros st.
  - eexists. split; [reflexivity|done].
  - simpl. unfold bind at 1. rewrite try_path_run. cbv zeta.
    destruct (FS.exists_ (fs st) _).
    + unfold loaded. rewrite Hexec, Hexn. eexists. split; [reflexivity|done].
    + destruct (IH (add_stderr (debug_lines cfg 2
                      ("  Trying " +:+ p +:+ Path.sep +:+ modname +:+ ".py")) st))
        as (st' & Hrun & Hfs & Hj2).
      exists st'. by rewrite Hrun.
Qed.

(** X17. Where the name [execfile] is unbound, as under the [python3] of the
    shebang line, no [-m] and no [-M] option can succeed: a module that is
    found is reported as [ImportUnk] with the [NameError], one that is not
    found as [ImportError], and either way the run ends with [exit(1)]
    before anything is rendered, the destination and [j2] untouched. *)
Theorem module_options_fail_without_execfile sys_path modname modpath rest st :
  (∀ p s, execfile p s = Uncaught "NameError" s) → is_Exception "NameError" = true →
  (∃ st', load_module cfg execfile is_Exception exn_str format_exc sys_path modname st
          = Exit 1 st'
          ∧ fs st' = fs st ∧ j2 st' = j2 st)
  ∧ (∃ st', load_modulepaths cfg execfile is_Exception exn_str format_exc
              (Some (modpath :: rest)) st = Exit 1 st'
            ∧ fs st' = fs st ∧ j2 st' = j2 st).
Proof.
  intros Hexec Hexn. split.
  - unfold load_module.
    rewrite (bind_done _ _ _ _ _ (DEBUG_run _ _ _ _)).
    destruct (for_each_without_execfile modname
                ("j2: Command line error ImportError: Can't find module "
                   +:+ modname +:+ " for importing" +:+ os_linesep cfg)
                sys_path
                (add_stderr (debug_lines cfg 1 ("Loading module " +:+ modname)) st)
                Hexec Hexn) as (st' & Hrun & Hfs & Hj2).
    exists st'. by rewrite Hrun.
  - unfold load_modulepaths. simpl for_each. unfold bind.
    rewrite try_modpath_run. cbv zeta.
    destruct (FS.exists_ (fs st) modpath).
    + unfold loaded. rewrite Hexec, Hexn. eexists. split; [reflexivity|done].
    + eexists. split; [reflexivity|done].
Qed.

End ModuleLoading.

(** ** The [j2] variables *)

Lemma populate_j2_run cfg repr_str user host date time MODULE EXPR st v :
  j2 st !! "versionnum" = Some v →
  ∃ st', populate_j2 cfg repr_str user host date time MODULE EXPR st = Done tt st'
         ∧ j2 st' !! "log1" = Some (PStr ("    processed on " +:+ date +:+ " at " +:+ time))
         ∧ j2 st' !! "log2"
           = Some (PStr ("    using modules " +:+ py_str repr_str (arg_value MODULE)))
         ∧ j2 st' !! "log3"
           = Some (PStr ("    with expressions " +:+ py_str repr_str (arg_value EXPR)))
         ∧ j2 st' !! "log4" = Some (PStr ("    by " +:+ user +:+ "@" +:+ host))
         ∧ fs st' = fs st ∧ stderr st' = stderr st.
Proof.
  destruct st as [f e j g]. simpl. intros Hv. unfold populate_j2.
  unfold bind, j2_set, j2_get, j2_get_str.
  cbn [fs stderr j2 globals].
  repeat (first [ rewrite lookup_insert_eq | rewrite lookup_insert_ne by done
                 | rewrite Hv ];
          cbn [fs stderr j2 globals]).
  eexists. split; [reflexivity|]. cbn [fs stderr j2 globals].
  repeat (first [ rewrite lookup_insert_eq | rewrite lookup_insert_ne by done ]).
  done.
Qed.

(** X18. The assignments of lines 484-496 put the four log lines into [j2]
    whatever the modules left there, as long as [j2["versionnum"]] is still
    bound (a [KeyError] otherwise): they touch neither the destination nor
    [sys.stderr], and every content render that follows gets as far as the
    engine, with [j2.logall] the template line, the date and time line, the
    modules line, the expressions line and the user line, joined by
    [os.linesep]. *)
Theorem population_lets_renders_start
    cfg repr_str user host date time MODULE EXPR file output st :
  match j2 st !! "versionnum" with
  | Some _ =>
      ∃ st1 st2,
        populate_j2 cfg repr_str user host date time MODULE EXPR st = Done tt st1
        ∧ fs st1 = fs st ∧ stderr st1 = stderr st
        ∧ has_logs (j2 st1)
        ∧ template_context cfg file output st1 = Done tt st2
        ∧ j2 st2 !! "logall"
          = Some (PStr (Str.join (os_linesep cfg)
                          ["J2: Template "
                             +:+ Str.join Path.pathsep (Path.dirname file :: TEMPLATEPATH cfg);
                           "    processed on " +:+ date +:+ " at " +:+ time;
                           "    using modules " +:+ py_str repr_str (arg_value MODULE);
                           "    with expressions " +:+ py_str repr_str (arg_value EXPR);
                           "    by " +:+ user +:+ "@" +:+ host]))
  | None =>
      ∃ st1, populate_j2 cfg repr_str user host date time MODULE EXPR st
             = Uncaught "KeyError" st1
  end.
Proof.
  destruct (j2 st !! "versionnum") as [v|] eqn:Hv.
  - destruct (populate_j2_run cfg repr_str user host date time MODULE EXPR st v Hv)
      as (st1 & Hrun & H1 & H2 & H3 & H4 & Hfs & Herr).
    destruct (template_context_run cfg file output st1 _ _ _ _ H1 H2 H3 H4)
      as (st2 & Hctx & Hj2 & _).
    exists st1, st2. repeat (split; [done|]). split.
    { by eexists _, _, _, _. }
    split; [done|]. rewrite Hj2. unfold template_j2. apply lookup_insert_eq.
  - destruct st as [f e j g]. simpl in Hv. unfold populate_j2.
    unfold bind, j2_set, j2_get. cbn [fs stderr j2 globals].
    repeat (rewrite lookup_insert_ne by done). rewrite Hv. by eexists.
Qed.

(** * The further properties on concrete runs *)

Lemma run_exit_status_witness :
  ∃ c st',
    render_folder_template Ex.cfg (Toy.engine (Toy.files_of Ex.broken "/src"))
      Ex.broken "/src" "/dst" Ex.st_dst = Exit c st'
    ∧ c = 1%Z.
Proof.
  pose (o := render_folder_template Ex.cfg (Toy.engine (Toy.files_of Ex.broken "/src"))
               Ex.broken "/src" "/dst" Ex.st_dst).
  assert (H : o = Exit 1 (final o)) by (vm_compute; reflexivity).
  exists 1%Z, (final o). split; [exact H|].
  exact (run_exit_status Ex.cfg (Toy.engine (Toy.files_of Ex.broken "/src"))
           Ex.broken "/src" "/dst" Ex.st_dst 1 (final o) H).
Defined.

Lemma run_reports_on_stderr_witness :
  match render_folder_template Ex.cfg (Toy.engine (Toy.files_of Ex.broken "/src"))
          Ex.broken "/src" "/dst" Ex.st_dst with
  | Done _ st' | Uncaught _ st' => stderr st' = stderr Ex.st_dst
  | Exit _ st' =>
      ∃ msgs : list string,
        stderr st' = (stderr Ex.st_dst ++ msgs)%list
        ∧ (one_report msgs
           ∨ two_reports (Toy.engine (Toy.files_of Ex.broken "/src")) msgs)
  end.
Proof.
  apply (run_reports_on_stderr Ex.cfg (Toy.engine (Toy.files_of Ex.broken "/src"))
           Ex.broken "/src" "/dst" Ex.st_dst).
  reflexivity.
Defined.


Lemma template_not_found_reported_witness :
  (∃ st1,
      name_context Ex.cfg "/src/a.txt.j2n" Ex.st_dst = Done tt st1
      ∧ render_file_name Ex.cfg (Toy.engine []) "/src/a.txt.j2n" Ex.st_dst
        = Exit 1 (add_stderr ["j2: Command line error TemplateNotFound: Can't open template "
                                +:+ "/src/a.txt.j2n" +:+ Str.nl] st1))
  ∧ (∃ st1,
      template_context Ex.cfg "/src/a.txt" (WbFile "/dst/a.txt") Ex.st_dst = Done tt st1
      ∧ render_file_template Ex.cfg (Toy.engine []) "/src/a.txt" (WbFile "/dst/a.txt")
          Ex.st_dst
        = Exit 1 (add_stderr ["j2: Command line error TemplateNotFound: Can't open template "
                                +:+ "a.txt" +:+ os_linesep Ex.cfg] st1)).
Proof.
  split.
  - eexists. split; [reflexivity|].
    apply (proj1 (template_not_found_reported Ex.cfg (Toy.engine []) "/src/a.txt.j2n"
                    "a.txt.j2n"));
      [reflexivity | vm_compute; reflexivity].
  - eexists. split; [vm_compute; reflexivity|].
    apply (proj2 (template_not_found_reported Ex.cfg (Toy.engine []) "/src/a.txt" "a.txt")
             (WbFile "/dst/a.txt"));
      vm_compute; reflexivity.
Defined.


Lemma run_with_file_never_returns_witness :
  has_kept_file Ex.plain = true
  ∧ ¬ ∃ x st',
        render_folder_template Ex.cfg (Toy.engine (Toy.files_of Ex.plain "/src"))
          Ex.plain "/src" "/dst" Ex.st_dst = Done x st'.
Proof.
  split; [reflexivity|]. intros (x & st' & Hrun). revert Hrun.
  apply (run_with_file_never_returns Ex.cfg (Toy.engine (Toy.files_of Ex.plain "/src"))
           Ex.plain "/src" "/dst" Ex.st_dst x st').
  reflexivity.
Defined.

Lemma file_mode_appends_in_order_witness :
  let jinja := Toy.engine (Toy.files_of Ex.renamed "/src") in
  ∃ st' texts,
    render_templates Ex.cfg jinja ["/src/item.txt"; "/src/item.txt.j2n"] Stdout Ex.st_dst
    = Done tt st'
    ∧ Forall2 (renders_to Ex.cfg jinja) ["/src/item.txt"; "/src/item.txt.j2n"] texts
    ∧ stdout st'
      = (stdout Ex.st_dst ++ map (λ text, text +:+ os_linesep Ex.cfg) texts)%list
    ∧ fs st' = fs Ex.st_dst.
Proof.
  intros jinja.
  pose (st' := final (render_templates Ex.cfg jinja ["/src/item.txt"; "/src/item.txt.j2n"]
                        Stdout Ex.st_dst)).
  assert (H : render_templates Ex.cfg jinja ["/src/item.txt"; "/src/item.txt.j2n"]
                Stdout Ex.st_dst = Done tt st') by (vm_compute; reflexivity).
  destruct (file_mode_appends_in_order Ex.cfg jinja ["/src/item.txt"; "/src/item.txt.j2n"]
              Ex.st_dst st' H) as (texts & Hrest).
  exists st', texts. split; [exact H | exact Hrest].
Defined.

Lemma file_mode_output_witness :
  let run := main_file Ex.cfg (Toy.engine (Toy.files_of Ex.renamed "/src"))
               ("/src/item.txt" :: ["/src/item.txt.j2n"]) "/dst/out.txt" Ex.st_dst in
  (¬ ∃ x st', run = Done x st')
  ∧ fs (final run) !! "/dst/out.txt" = Some (FFile true "").
Proof.
  intros run.
  pose proof (file_mode_output Ex.cfg (Toy.engine (Toy.files_of Ex.renamed "/src"))
                "/src/item.txt" ["/src/item.txt.j2n"] "/dst/out.txt" Ex.st_dst) as H.
  cbv zeta in H.
  destruct (FS.open_wb (fs Ex.st_dst) "/dst/out.txt") as [f'|] eqn:Hopen;
    [|vm_compute in Hopen; discriminate Hopen].
  destruct H as (Hnever & _ & Hfile); [discriminate|].
  split; [|exact Hfile]. intros (x & st' & Hrun). by apply (Hnever x st').
Defined.


Lemma j2n_match_names_witness :
  has_j2n_suffix "Item.txt.J2N"
  ∧ iterate_entry Ex.cfg Ex.always_widget "/src" "/dst"
      [("Item.txt.J2N", SFile "widget")] ("Item.txt.J2N", SFile "widget") Ex.st_dst
    = Done tt Ex.st_dst.
Proof.
  assert (H : has_j2n_suffix "Item.txt.J2N")
    by (exists "Item.txt", ".J2N"; split; reflexivity).
  split; [exact H|].
  exact (proj1 (j2n_match_names Ex.cfg Ex.always_widget "/src" "/dst"
                  [("Item.txt.J2N", SFile "widget")] "Item.txt.J2N" (SFile "widget"))
           (or_introl H) Ex.st_dst).
Defined.

Lemma entry_rendered_from_its_folder_witness :
  searchpath (template_environment Ex.cfg_path ("/src" +:+ Path.sep +:+ "item.txt"))
    = ["/src"; "/inc"]
  ∧ Path.basename ("/src" +:+ Path.sep +:+ "item.txt") = "item.txt"
  ∧ searchpath (name_environment Ex.cfg_path ("/src" +:+ Path.sep +:+ "item.txt" +:+ ".j2n"))
    = ["/src"]
  ∧ Path.basename ("/src" +:+ Path.sep +:+ "item.txt" +:+ ".j2n") = "item.txt.j2n".
Proof.
  apply (entry_rendered_from_its_folder Ex.cfg_path "/sr" "c"%char "item.txt");
    reflexivity.
Defined.

Lemma module_not_found_witness :
  load_module Ex.cfg ExMod.execfile_site ExMod.is_Exception ExMod.exn_str ExMod.format_exc
    ["/usr/lib"; "/home"] "site_cfg" ExMod.st_mods
  = Exit 1 (add_stderr
              (debug_lines Ex.cfg 1 ("Loading module " +:+ "site_cfg")
               ++ ["j2: Command line error ImportError: Can't find module "
                     +:+ "site_cfg" +:+ " for importing" +:+ os_linesep Ex.cfg])%list
              ExMod.st_mods).
Proof.
  apply (module_not_found Ex.cfg ExMod.execfile_site ExMod.is_Exception ExMod.exn_str
           ExMod.format_exc ["/usr/lib"; "/home"] "site_cfg" ExMod.st_mods).
  - reflexivity.
  - intros p Hp. apply elem_of_cons in Hp as [->|Hp]; [vm_compute; reflexivity|].
    apply elem_of_cons in Hp as [->|Hp]; [vm_compute; reflexivity|].
    by apply elem_of_nil in Hp.
Defined.

Lemma first_path_with_module_wins_witness :
  load_module Ex.cfg ExMod.execfile_site ExMod.is_Exception ExMod.exn_str ExMod.format_exc
    (["/usr/lib"] ++ "/lib" :: ["/opt"])%list "site_cfg" ExMod.st_mods
  = loaded Ex.cfg ExMod.execfile_site ExMod.is_Exception ExMod.exn_str ExMod.format_exc
      tt "site_cfg" ("/lib" +:+ Path.sep +:+ "site_cfg" +:+ ".py")
      (add_stderr (debug_lines Ex.cfg 1 ("Loading module " +:+ "site_cfg")) ExMod.st_mods).
Proof.
  apply (first_path_with_module_wins Ex.cfg ExMod.execfile_site ExMod.is_Exception
           ExMod.exn_str ExMod.format_exc ["/usr/lib"] "/lib" ["/opt"] "site_cfg"
           ExMod.st_mods).
  - reflexivity.
  - intros p Hp. apply elem_of_cons in Hp as [->|Hp]; [vm_compute; reflexivity|].
    by apply elem_of_nil in Hp.
  - vm_compute. reflexivity.
Defined.

Lemma module_options_fail_without_execfile_witness :
  (∃ st',
      load_module Ex.cfg ExMod.execfile_py3 ExMod.is_Exception ExMod.exn_str ExMod.format_exc
        ["/usr/lib"; "/lib"] "site_cfg" ExMod.st_mods = Exit 1 st'
      ∧ fs st' = fs ExMod.st_mods ∧ j2 st' = j2 ExMod.st_mods)
  ∧ (∃ st',
      load_modulepaths Ex.cfg ExMod.execfile_py3 ExMod.is_Exception ExMod.exn_str
        ExMod.format_exc (Some ("/lib/site_cfg.py" :: ["/opt/site_cfg.py"])) ExMod.st_mods
      = Exit 1 st'
      ∧ fs st' = fs ExMod.st_mods ∧ j2 st' = j2 ExMod.st_mods).
Proof.
  apply (module_options_fail_without_execfile Ex.cfg ExMod.execfile_py3 ExMod.is_Exception
           ExMod.exn_str ExMod.format_exc ["/usr/lib"; "/lib"] "site_cfg"
           "/lib/site_cfg.py" ["/opt/site_cfg.py"] ExMod.st_mods).
  - reflexivity.
  - reflexivity.
Defined.
